(** * alba_mf_etl: a shallow embedding of [scripts/alba_mf_etl.py]

    The pipeline reads one sheet of a workbook, renames and coerces its
    columns, cuts the wide table into four narrower ones and stores them
    as CSV files and as tables of a SQLite database.

    The embedding follows the script top-down:
    - [Py]: exceptions, and loops that may raise;
    - [Text]: the string operations the script applies to header cells;
    - [Cells]: spreadsheet cells, column dtypes, and the behaviour of
      [str], [pd.to_datetime(..., errors='coerce')], [.dt.floor('D')]
      and [pd.to_numeric(..., errors='coerce')] on a column;
    - [Frame]: data frames (labelled rows under named columns) and the
      frame operations the script calls;
    - [Pipeline]: the world (object store, file system, database, log),
      an exception-and-state monad, and the four methods of
      [ETLPipeline] written in it.

    The script calls into pandas, SQLite and Python's string library.
    What these do is spelled out for the inputs on which it is fixed by
    a short rule (ASCII text, ISO dates, plain decimals, tables with
    distinct column names); on every other input the embedding asks a
    library, a record of functions that every statement below is
    quantified over.  Nothing is assumed of these functions beyond the
    laws their records state. *)

From Stdlib Require Import ZArith NArith Ascii String List Bool Lia.
From stdpp Require Import base option list strings gmap.

Local Open Scope string_scope.

(** ** Exceptions *)

Module Py.

(** The exceptions the script can meet; every [except Exception]
    catches all of them. *)
Inductive Exn :=
| AttributeError
| TypeError
| IndexError
| KeyError (key : string)
| ValueError
| OverflowError
| FileNotFoundError
| PermissionError
| OperationalError.

(** The outcome of an expression that may raise. *)
Inductive Res (A : Type) :=
| Ok (a : A)
| Raise (e : Exn).
Arguments Ok {A} a.
Arguments Raise {A} e.

Definition rbind {A B} (r : Res A) (k : A -> Res B) : Res B :=
  match r with
  | Ok a => k a
  | Raise e => Raise e
  end.

Definition is_ok {A} (r : Res A) : bool :=
  match r with Ok _ => true | Raise _ => false end.

(** A loop whose body may raise: [for x in xs: acc = body(acc, x)]. *)
Fixpoint for_each {A S} (body : S -> A -> Res S) (xs : list A) (acc : S) : Res S :=
  match xs with
  | [] => Ok acc
  | x :: xs' => rbind (body acc x) (for_each body xs')
  end.

(** [[f(x) for x in xs]] for an [f] that may raise. *)
Fixpoint each {A B} (f : A -> Res B) (xs : list A) : Res (list B) :=
  match xs with
  | [] => Ok []
  | x :: xs' => rbind (f x) (fun y => rbind (each f xs') (fun ys => Ok (y :: ys)))
  end.

End Py.

(** ** Text *)

Module Text.

Definition lower_ascii (c : ascii) : ascii :=
  let n := nat_of_ascii c in
  if (65 <=? n)%nat && (n <=? 90)%nat then ascii_of_nat (n + 32) else c.

Definition is_upper (c : ascii) : bool :=
  let n := nat_of_ascii c in (65 <=? n)%nat && (n <=? 90)%nat.

Definition is_letter (c : ascii) : bool :=
  let n := nat_of_ascii c in
  (65 <=? n)%nat && (n <=? 90)%nat || (97 <=? n)%nat && (n <=? 122)%nat.

(** The byte is an ASCII character. *)
Definition is_ascii (c : ascii) : bool := (nat_of_ascii c <? 128)%nat.

Fixpoint all_chars (f : ascii -> bool) (s : string) : bool :=
  match s with
  | EmptyString => true
  | String c s' => f c && all_chars f s'
  end.

(** The letters A-Z of a text put in lower case, every other byte
    kept: [str.lower()] on ASCII text, and the case folding SQLite
    applies to the names of columns. *)
Fixpoint lower_letters (s : string) : string :=
  match s with
  | EmptyString => EmptyString
  | String c s' => String (lower_ascii c) (lower_letters s')
  end.

(** Python's string library.  A text is held as its UTF-8 encoding.
    [lower_rest s] is [s.lower()] for a text [s] that has characters
    outside ASCII, where lower-casing follows the Unicode tables.
    Whatever the text, the result has none of the letters A-Z: every
    one of them is lower-cased, no character lower-cases to one, and
    the bytes that encode the other characters lie above ASCII. *)
Class TextLibrary := {
  lower_rest : string -> string;
  lower_rest_lowered : forall s, all_chars (fun c => negb (is_upper c)) (lower_rest s) = true
}.

(** [str.lower()] *)
Definition lower `{TextLibrary} (s : string) : string :=
  if all_chars is_ascii s then lower_letters s else lower_rest s.

(** [str.replace(a, b)] for one-character [a] and [b]. *)
Fixpoint replace (a b : ascii) (s : string) : string :=
  match s with
  | EmptyString => EmptyString
  | String c s' => String (if Ascii.eqb c a then b else c) (replace a b s')
  end.

Fixpoint starts_with (p s : string) : bool :=
  match p, s with
  | EmptyString, _ => true
  | String a p', String b s' => Ascii.eqb a b && starts_with p' s'
  | String _ _, EmptyString => false
  end.

(** [p in s] on strings. *)
Fixpoint contains (p s : string) : bool :=
  starts_with p s ||
  match s with
  | EmptyString => false
  | String _ s' => contains p s'
  end.

(** [col.lower().replace(' ', '_').replace('-', '_')] (line 80). *)
Definition normalize `{TextLibrary} (s : string) : string :=
  replace "-" "_" (replace " " "_" (lower s)).

Fixpoint digits_go (fuel : nat) (n : N) (acc : string) : string :=
  match fuel with
  | O => acc
  | S fuel' =>
      let acc' := String (ascii_of_N (48 + n mod 10)) acc in
      if (n / 10 =? 0)%N then acc' else digits_go fuel' (n / 10) acc'
  end.

(** Decimal digits of a natural number. *)
Definition str_N (n : N) : string := digits_go (S (N.size_nat n)) n EmptyString.

(** [str(n)] for a Python [int]. *)
Definition str_Z (z : Z) : string :=
  if (z <? 0)%Z then String "-" (str_N (Z.abs_N z)) else str_N (Z.abs_N z).

Fixpoint zeros (n : nat) : string :=
  match n with O => EmptyString | S n' => String "0" (zeros n') end.

(** [n] written on at least [w] digits. *)
Definition pad (w : nat) (n : N) : string :=
  let d := str_N n in zeros (w - String.length d) +:+ d.

Definition digit_val (c : ascii) : option Z :=
  let n := nat_of_ascii c in
  if (48 <=? n)%nat && (n <=? 57)%nat then Some (Z.of_nat (n - 48)) else None.

(** The longest prefix of digits of [s], as a number, with how many
    digits were read and the rest of the text. *)
Fixpoint read_digits (s : string) (acc : Z) (k : nat) : Z * nat * string :=
  match s with
  | String c s' =>
      match digit_val c with
      | Some d => read_digits s' (10 * acc + d)%Z (S k)
      | None => (acc, k, s)
      end
  | EmptyString => (acc, k, s)
  end.

End Text.

(** ** Cells *)

Module Cells.
Import Text Py.
Local Open Scope Z_scope.

(** A floating-point number is represented by the shortest decimal
    literal that denotes it, the one [repr] prints: [mant * 10 ^ expo]
    with [mant] not a multiple of ten (or both zero). *)
Record Dec := mkDec { mant : Z; expo : Z }.

(** What a cell of the sheet, or of a frame derived from it, holds:
    nothing (pandas' missing value: NaN, None or NaT), text, an
    integer, a float, or a timestamp counted in nanoseconds since
    1970-01-01 (the int64 behind [datetime64[ns]]). *)
Inductive Cell :=
| CNull
| CStr (s : string)
| CInt (n : Z)
| CFloat (d : Dec)
| CDate (ns : Z).

#[global] Instance Dec_eq_dec : EqDecision Dec.
Proof. solve_decision. Defined.
#[global] Instance Cell_eq_dec : EqDecision Cell.
Proof. solve_decision. Defined.

(** [pd.isna] / [pd.notna] on one cell. *)
Definition isna (c : Cell) : bool :=
  match c with CNull => true | _ => false end.
Definition notna (c : Cell) : bool := negb (isna c).

(** The dtype pandas holds a column in: [int64], [float64],
    [datetime64[ns]], or [object] for Python objects of any kind. *)
Inductive Kind := KObject | KInt | KFloat | KDatetime.

#[global] Instance Kind_eq_dec : EqDecision Kind.
Proof. solve_decision. Defined.

(** *** Decimals *)

Fixpoint strip10 (fuel : nat) (m e : Z) : Z * Z :=
  match fuel with
  | O => (m, e)
  | S fuel' => if m mod 10 =? 0 then strip10 fuel' (m / 10) (e + 1) else (m, e)
  end.

Definition mk_dec (m e : Z) : Dec :=
  if m =? 0 then mkDec 0 0
  else let '(m', e') := strip10 (S (Z.to_nat (Z.log2 (Z.abs m)))) m e in mkDec m' e'.

Definition dec_of_Z (n : Z) : Dec := mk_dec n 0.

(** The integers an [int64] holds, and those a float holds exactly. *)
Definition in_int64 (n : Z) : bool := (- 2 ^ 63 <=? n) && (n <? 2 ^ 63).
Definition exact_float (n : Z) : bool := Z.abs n <=? 2 ^ 53.

(** A plain decimal: an optional minus sign, digits, a point, digits;
    fifteen digits at most, which a float tells apart, so that the
    float read is the one the literal denotes.  Minus zero, a float of
    its own, is left out. *)
Definition parse_decimal (s : string) : option Dec :=
  let '(neg, s1) :=
    match s with
    | String "-" s' => (true, s')
    | _ => (false, s)
    end in
  let '(ip, k1, s2) := read_digits s1 0 O in
  match s2 with
  | String "." s3 =>
      let '(m, k2, s4) := read_digits s3 ip O in
      match s4 with
      | EmptyString =>
          if (1 <=? k1)%nat && (1 <=? k2)%nat && (k1 + k2 <=? 15)%nat
             && negb (neg && (m =? 0))
          then Some (mk_dec (if neg then - m else m) (- Z.of_nat k2))
          else None
      | String _ _ => None
      end
  | _ => None
  end.

(** Texts that are no number whatever else they hold: the empty text,
    a text with a comma (no thousands separator is read), and a text
    that starts with a letter, the letters that open [inf], [nan] and
    their like apart. *)
Definition no_number (s : string) : bool :=
  match s with
  | EmptyString => true
  | String c _ =>
      contains "," s ||
      is_letter c && negb (Ascii.eqb (lower_ascii c) "i" || Ascii.eqb (lower_ascii c) "n")
  end.

(** [repr] of a Python float: positional notation when the decimal
    point falls within [-4 < decpt <= 16], scientific otherwise. *)
Definition str_dec (d : Dec) : string :=
  let m := mant d in
  if m =? 0 then "0.0"%string
  else
    let ds := str_N (Z.abs_N m) in
    let n := Z.of_nat (String.length ds) in
    let decpt := n + expo d in
    let body :=
      if (-4 <? decpt) && (decpt <=? 16) then
        if decpt <=? 0 then "0." +:+ zeros (Z.to_nat (- decpt)) +:+ ds
        else if decpt <? n then
          substring 0 (Z.to_nat decpt) ds +:+ "." +:+
          substring (Z.to_nat decpt) (Z.to_nat (n - decpt)) ds
        else ds +:+ zeros (Z.to_nat (decpt - n)) +:+ ".0"
      else
        substring 0 1 ds +:+
        (if 1 <? n then "." +:+ substring 1 (Z.to_nat (n - 1)) ds else "") +:+
        "e" +:+ (if decpt - 1 <? 0 then "-" else "+") +:+
        pad 2 (Z.abs_N (decpt - 1)) in
    if m <? 0 then String "-" body else body.

(** *** Calendar *)

Definition ns_per_second : Z := 1000000000.
Definition ns_per_day : Z := 86400 * ns_per_second.

(** Days from 1970-01-01 to the given proleptic Gregorian date. *)
Definition days_from_civil (y m d : Z) : Z :=
  let y' := if m <=? 2 then y - 1 else y in
  let era := y' / 400 in
  let yoe := y' - era * 400 in
  let doy := (153 * (if 2 <? m then m - 3 else m + 9) + 2) / 5 + d - 1 in
  let doe := yoe * 365 + yoe / 4 - yoe / 100 + doy in
  era * 146097 + doe - 719468.

Definition civil_from_days (z : Z) : Z * Z * Z :=
  let z' := z + 719468 in
  let era := z' / 146097 in
  let doe := z' - era * 146097 in
  let yoe := (doe - doe / 1460 + doe / 36524 - doe / 146096) / 365 in
  let doy := doe - (365 * yoe + yoe / 4 - yoe / 100) in
  let mp := (5 * doy + 2) / 153 in
  let d := doy - (153 * mp + 2) / 5 + 1 in
  let m := if mp <? 10 then mp + 3 else mp - 9 in
  (if m <=? 2 then yoe + era * 400 + 1 else yoe + era * 400, m, d).

Definition is_leap (y : Z) : bool :=
  (y mod 4 =? 0) && (negb (y mod 100 =? 0) || (y mod 400 =? 0)).

Definition days_in_month (y m : Z) : Z :=
  if m =? 2 then (if is_leap y then 29 else 28)
  else if (m =? 4) || (m =? 6) || (m =? 9) || (m =? 11) then 30 else 31.

(** The values a [datetime64[ns]] can hold; the least int64 is NaT. *)
Definition in_ns_range (ns : Z) : bool := (- 2 ^ 63 <? ns) && (ns <? 2 ^ 63).

Definition civil_to_ns (y mo d h mi s : Z) : option Z :=
  if (1 <=? mo) && (mo <=? 12) && (1 <=? d) && (d <=? days_in_month y mo)
     && (h <? 24) && (mi <? 60) && (s <? 60)
  then
    let ns := days_from_civil y mo d * ns_per_day
              + (h * 3600 + mi * 60 + s) * ns_per_second in
    if in_ns_range ns then Some ns else None
  else None.

(** Exactly [w] digits, then the rest. *)
Definition read_fixed (w : nat) (s : string) : option (Z * string) :=
  let '(v, k, _) := read_digits (substring 0 w s) 0 O in
  if (k =? w)%nat then Some (v, substring w (String.length s - w) s) else None.

Definition expect (c : ascii) (s : string) : option string :=
  match s with
  | String c' s' => if Ascii.eqb c c' then Some s' else None
  | EmptyString => None
  end.

(** The two spellings of a date the embedding reads: [%Y-%m-%d] and
    [%Y-%m-%d %H:%M:%S]. *)
Inductive Spelling := DateOnly | DateTime.

#[global] Instance Spelling_eq_dec : EqDecision Spelling.
Proof. solve_decision. Defined.

(** A text in one of the two spellings that names a moment a
    [datetime64[ns]] can hold: the spelling, and the nanoseconds since
    the epoch.  The library's parser reads many more texts; those are
    left to it. *)
Definition parse_datetime (s : string) : option (Spelling * Z) :=
  '(y, s1) ← read_fixed 4 s;
  s2 ← expect "-" s1;
  '(mo, s3) ← read_fixed 2 s2;
  s4 ← expect "-" s3;
  '(d, s5) ← read_fixed 2 s4;
  match s5 with
  | EmptyString => ns ← civil_to_ns y mo d 0 0 0; Some (DateOnly, ns)
  | String _ _ =>
      s6 ← expect " " s5;
      '(h, s7) ← read_fixed 2 s6;
      s8 ← expect ":" s7;
      '(mi, s9) ← read_fixed 2 s8;
      s10 ← expect ":" s9;
      '(sec, s11) ← read_fixed 2 s10;
      match s11 with
      | EmptyString => ns ← civil_to_ns y mo d h mi sec; Some (DateTime, ns)
      | String _ _ => None
      end
  end.

(** [str] of a timestamp: [YYYY-MM-DD HH:MM:SS], followed by the
    fraction of the second on six or nine digits when it is not zero. *)
Definition str_timestamp (ns : Z) : string :=
  let '(y, mo, d) := civil_from_days (ns / ns_per_day) in
  let tod := ns mod ns_per_day in
  let secs := tod / ns_per_second in
  let frac := tod mod ns_per_second in
  let p2 z := pad 2 (Z.to_N z) in
  pad 4 (Z.to_N y) +:+ "-" +:+ p2 mo +:+ "-" +:+ p2 d +:+ " " +:+
  p2 (secs / 3600) +:+ ":" +:+ p2 (secs / 60 mod 60) +:+ ":" +:+ p2 (secs mod 60) +:+
  (if frac =? 0 then ""
   else if frac mod 1000 =? 0 then "." +:+ pad 6 (Z.to_N (frac / 1000))
   else "." +:+ pad 9 (Z.to_N frac)).

(** *** What the script applies to cells and columns *)

(** [str(col)] on an object of the header row (line 77).  A missing
    value is NaN here: [iloc_row] hands on NaT, the missing value of a
    [datetime64] column, as the text [str] gives for it. *)
Definition str_cell (c : Cell) : string :=
  match c with
  | CNull => "nan"
  | CStr s => s
  | CInt n => str_Z n
  | CFloat d => str_dec d
  | CDate ns => str_timestamp ns
  end.

(** pandas, on the values the embedding does not spell out:
    - [kind_rest col]: the dtype of a column that holds an integer
      outside [int64];
    - [big_float n]: the float nearest to an integer [n] beyond
      [2 ^ 53];
    - [to_datetime_rest k col]: [pd.to_datetime(col, errors='coerce')]
      on a column of dtype [k] that holds a number, a timestamp a
      [datetime64[ns]] cannot hold, a text in another spelling than
      the two above, or texts in both;
    - [to_numeric_rest k col]: [pd.to_numeric(col, errors='coerce')]
      on a column that holds a timestamp, an integer beyond [2 ^ 53],
      or a text that is neither a plain decimal nor barred from being
      a number by [no_number]. *)
Class CellLibrary := {
  kind_rest : list Cell -> Kind;
  big_float : Z -> Dec;
  to_datetime_rest : Kind -> list Cell -> Res (list Cell);
  to_numeric_rest : Kind -> list Cell -> Res (list Cell)
}.

Section Columns.
Context {lib : CellLibrary}.

(** [float(n)] *)
Definition float_of_Z (n : Z) : Dec :=
  if exact_float n then dec_of_Z n else big_float n.

Definition is_int (c : Cell) : bool :=
  match c with CInt _ => true | _ => false end.
Definition is_number_or_null (c : Cell) : bool :=
  match c with CNull | CInt _ | CFloat _ => true | _ => false end.
Definition is_stamp_or_null (c : Cell) : bool :=
  match c with CNull => true | CDate ns => in_ns_range ns | _ => false end.
Definition big_int (c : Cell) : bool :=
  match c with CInt n => negb (in_int64 n) | _ => false end.

(** The dtype a column of these cells is held in: [int64] when every
    cell is an integer, [float64] when every cell is a number or
    missing, [datetime64[ns]] when every cell is a timestamp or
    missing, [object] otherwise. *)
Definition kind_of (col : list Cell) : Kind :=
  if existsb big_int col then kind_rest col
  else if forallb is_int col && negb (bool_decide (col = [])) then KInt
  else if forallb is_number_or_null col then KFloat
  else if forallb is_stamp_or_null col then KDatetime
  else KObject.

(** What is known of a cell given to [pd.to_datetime]: it is skipped
    (a missing value or the empty text, both NaT), it is a timestamp,
    or it is a text that spells one. *)
Inductive DateRead :=
| Skipped
| Stamp (ns : Z)
| Spelled (sp : Spelling) (ns : Z).

Definition read_date (c : Cell) : option DateRead :=
  match c with
  | CNull => Some Skipped
  | CStr s =>
      if String.eqb s "" then Some Skipped
      else '(sp, ns) ← parse_datetime s; Some (Spelled sp ns)
  | CDate ns => if in_ns_range ns then Some (Stamp ns) else None
  | CInt _ | CFloat _ => None
  end.

Definition spelling_of (r : DateRead) : option Spelling :=
  match r with Spelled sp _ => Some sp | _ => None end.

(** The texts of the column share one spelling: the format the
    library infers from the first text fits the others. *)
Definition one_spelling (rs : list DateRead) : bool :=
  match omap spelling_of rs with
  | [] => true
  | sp :: sps => forallb (fun sp' => bool_decide (sp' = sp)) sps
  end.

Definition stamp_cell (r : DateRead) : Cell :=
  match r with
  | Skipped => CNull
  | Stamp ns | Spelled _ ns => CDate ns
  end.

(** [pd.to_datetime(col, errors='coerce')] on a column of dtype [k]. *)
Definition to_datetime (k : Kind) (col : list Cell) : Res (list Cell) :=
  match mapM read_date col with
  | Some rs => if one_spelling rs then Ok (stamp_cell <$> rs) else to_datetime_rest k col
  | None => to_datetime_rest k col
  end.

(** The midnight that opens the day of a timestamp.  The subtraction
    is done on int64: it overflows when that midnight lies before the
    first moment a [datetime64[ns]] holds, 1677-09-21 00:12:43.145. *)
Definition floor_day (ns : Z) : Res Z :=
  let day := ns - ns mod ns_per_day in
  if in_ns_range day then Ok day else Raise OverflowError.

(** [.dt.floor('D')] on a column.  The accessor [.dt] is there for a
    column of timestamps only. *)
Definition dt_floor (col : list Cell) : Res (list Cell) :=
  if forallb is_stamp_or_null col then
    each (fun c => match c with
                   | CDate ns => rbind (floor_day ns) (fun day => Ok (CDate day))
                   | _ => Ok c
                   end) col
  else Raise AttributeError.

(** Line 98 on one column. *)
Definition to_day (k : Kind) (col : list Cell) : Res (list Cell) :=
  rbind (to_datetime k col) dt_floor.

(** What is known of a cell given to [pd.to_numeric]: it is no
    number, it is an integer, or it is a float. *)
Inductive NumRead :=
| NoNumber
| Whole (n : Z)
| Real (d : Dec).

Definition read_number (c : Cell) : option NumRead :=
  match c with
  | CNull => Some NoNumber
  | CStr s => if no_number s then Some NoNumber else d ← parse_decimal s; Some (Real d)
  | CInt n => if exact_float n then Some (Whole n) else None
  | CFloat d => Some (Real d)
  | CDate _ => None
  end.

Definition is_whole (r : NumRead) : bool :=
  match r with Whole _ => true | _ => false end.

Definition int_cell (r : NumRead) : Cell :=
  match r with
  | NoNumber => CNull
  | Whole n => CInt n
  | Real d => CFloat d
  end.

Definition float_cell (r : NumRead) : Cell :=
  match r with
  | NoNumber => CNull
  | Whole n => CFloat (dec_of_Z n)
  | Real d => CFloat d
  end.

(** [pd.to_numeric(col, errors='coerce')] on a column of dtype [k].
    A column of integers comes back as it is, [int64]; as soon as one
    cell is a float, is missing or is no number, the column is
    [float64], integers included.  A [float64] column is left as it
    is. *)
Definition to_numeric (k : Kind) (col : list Cell) : Res (list Cell) :=
  match k, mapM read_number col with
  | KDatetime, _ | _, None => to_numeric_rest k col
  | _, Some rs =>
      if forallb is_whole rs && negb (bool_decide (k = KFloat))
      then Ok (int_cell <$> rs)
      else Ok (float_cell <$> rs)
  end.

End Columns.

End Cells.


(** ** Data frames *)

Module Frame.
Import Text Cells Py.

(** A frame: column labels, and rows that carry their index label. *)
Record DataFrame := mkDF {
  columns : list string;
  rows : list (nat * list Cell)
}.

Definition index (df : DataFrame) : list nat := (rows df).*1.
Definition nrows (df : DataFrame) : nat := length (rows df).
Definition ncols (df : DataFrame) : nat := length (columns df).

(** [l[a:b]] *)
Definition slice {A} (a b : nat) (l : list A) : list A := take (b - a) (drop a l).

(** The elements of [l] at the places where [mask] is true. *)
Fixpoint pick {A} (mask : list bool) (l : list A) : list A :=
  match mask, l with
  | m :: mask', x :: l' => if m then x :: pick mask' l' else pick mask' l'
  | _, _ => []
  end.

(** The places of [cols], counted from [i], that carry the label. *)
Fixpoint positions_from (i : nat) (name : string) (cols : list string) : list nat :=
  match cols with
  | [] => []
  | c :: cols' =>
      if String.eqb c name then i :: positions_from (S i) name cols'
      else positions_from (S i) name cols'
  end.
Definition positions (name : string) (cols : list string) : list nat :=
  positions_from 0 name cols.

Definition inb (name : string) (names : list string) : bool :=
  existsb (String.eqb name) names.

(** The cells of the column at place [p], from the first row to the
    last. *)
Definition column_at (p : nat) (df : DataFrame) : list Cell :=
  (fun r => default CNull (r.2 !! p)) <$> rows df.

(** [names[pos] = x] on a Python list. *)
Definition set_item (pos : nat) (x : string) (names : list string) : Res (list string) :=
  if (pos <? length names)%nat then Ok (<[pos := x]> names) else Raise IndexError.

(** [df.columns = names]; the lengths must agree. *)
Definition set_columns (names : list string) (df : DataFrame) : Res DataFrame :=
  if (length names =? ncols df)%nat then Ok (mkDF names (rows df)) else Raise ValueError.

(** [df.drop(labels)] on rows. *)
Definition drop_rows (labels : list nat) (df : DataFrame) : DataFrame :=
  mkDF (columns df) (filter (fun r => r.1 ∉ labels) (rows df)).

(** [df.reset_index(drop=True)] *)
Definition reset_index (df : DataFrame) : DataFrame :=
  mkDF (columns df) (imap (fun i r => (i, r.2)) (rows df)).

(** [df.iloc[:, a:b]] *)
Definition iloc_cols (a b : nat) (df : DataFrame) : DataFrame :=
  mkDF (slice a b (columns df)) (prod_map id (slice a b) <$> rows df).

(** The column at place [p] replaced by the cells [new], row by row. *)
Definition assign_at (p : nat) (new : list Cell) (df : DataFrame) : DataFrame :=
  mkDF (columns df)
       (imap (fun i r => (r.1, match new !! i with
                               | Some c => <[p := c]> r.2
                               | None => r.2
                               end)) (rows df)).

(** [df[col] = conv(df[col])] for a function [conv] of a series.  When
    the label is carried by several columns [df[col]] is a frame, not
    a series, and [conv] raises [dup]. *)
Definition convert_column (dup : Exn) (conv : list Cell -> Res (list Cell))
    (df : DataFrame) (col : string) : Res DataFrame :=
  match positions col (columns df) with
  | [] => Raise (KeyError col)
  | [p] => rbind (conv (column_at p df)) (fun new => Ok (assign_at p new df))
  | _ :: _ :: _ => Raise dup
  end.

(** [df.drop(columns=names)]: every name must label a column; all the
    columns that carry one of the names go. *)
Definition drop_columns (names : list string) (df : DataFrame) : Res DataFrame :=
  match filter (fun n => inb n (columns df) = false) names with
  | n :: _ => Raise (KeyError n)
  | [] =>
      let mask := (fun c => negb (inb c names)) <$> columns df in
      Ok (mkDF (pick mask (columns df)) (prod_map id (pick mask) <$> rows df))
  end.

(** The elements of [l] at the places [ps], in the order of [ps]. *)
Definition at_places {A} (ps : list nat) (l : list A) : list A :=
  omap (fun p => l !! p) ps.

(** [df[names]]: every name must label a column; the result has, for
    each name in turn, the columns that carry it. *)
Definition select_columns (names : list string) (df : DataFrame) : Res DataFrame :=
  match filter (fun n => inb n (columns df) = false) names with
  | n :: _ => Raise (KeyError n)
  | [] =>
      let ps := names ≫= (fun n => positions n (columns df)) in
      Ok (mkDF (at_places ps (columns df)) (prod_map id (at_places ps) <$> rows df))
  end.

(** [df.rename(columns={old: new})] *)
Definition rename (old new : string) (df : DataFrame) : DataFrame :=
  mkDF ((fun c => if String.eqb c old then new else c) <$> columns df) (rows df).

(** [df.dropna(how='all')]: a row stays when some cell of it is not null. *)
Definition dropna_all (df : DataFrame) : DataFrame :=
  mkDF (columns df) (filter (fun r => existsb notna r.2 = true) (rows df)).

Section Typed.
Context {lib : CellLibrary}.

(** The dtypes of the columns, from what the columns hold. *)
Definition dtypes (df : DataFrame) : list Kind :=
  (fun p => kind_of (column_at p df)) <$> seq 0 (ncols df).

(** The dtype of a row taken as a series: the common dtype of the
    columns. *)
Definition common (ks : list Kind) : Kind :=
  if forallb (fun k => bool_decide (k = KInt)) ks then KInt
  else if forallb (fun k => bool_decide (k = KInt) || bool_decide (k = KFloat)) ks then KFloat
  else if forallb (fun k => bool_decide (k = KDatetime)) ks then KDatetime
  else KObject.

(** The Python object [.values.tolist()] gives for a cell of a row of
    dtype [row], from a column of dtype [col].  In an [object] row a
    value is boxed by its column: the missing value of a [datetime64]
    column is NaT, handed on as the text [str] gives for it, and an
    integer of a [float64] column is a float.  A [float64] row holds
    floats only, and a [datetime64] row lists as integers, the least
    int64 for NaT. *)
Definition boxed (row col : Kind) (c : Cell) : Cell :=
  match row with
  | KObject =>
      match col, c with
      | KDatetime, CNull => CStr "NaT"
      | KFloat, CInt n => CFloat (float_of_Z n)
      | _, _ => c
      end
  | KFloat =>
      match c with
      | CInt n => CFloat (float_of_Z n)
      | _ => c
      end
  | KDatetime =>
      match c with
      | CDate ns => CInt ns
      | CNull => CInt (- 2 ^ 63)
      | _ => c
      end
  | KInt => c
  end.

(** [df.iloc[i].values.tolist()], the objects of the row at place [i]. *)
Definition iloc_row (i : nat) (df : DataFrame) : Res (list Cell) :=
  match rows df !! i with
  | Some r =>
      Ok (imap (fun j c => boxed (common (dtypes df)) (kind_of (column_at j df)) c) r.2)
  | None => Raise IndexError
  end.

(** The dtype of the one column that carries the label. *)
Definition kind_in (df : DataFrame) (col : string) : Kind :=
  match positions col (columns df) with
  | [p] => kind_of (column_at p df)
  | _ => KObject
  end.

End Typed.

End Frame.


(** ** The pipeline *)

Module Pipeline.
Import Text Cells Py Frame.

(** *** The world *)

(** What a data file holds: a workbook (its sheets as [pd.read_excel]
    hands them over), or a CSV written by [to_csv(index=False)], kept
    as the header and the lines it was rendered from. *)
Inductive File :=
| Workbook (sheets : list (string * DataFrame))
| Csv (header : list string) (lines : list (list Cell)).

(** A table of the database, as [to_sql] lays it out. *)
Record SqlTable := mkSql {
  sql_columns : list string;
  sql_rows : list (list Cell)
}.

Inductive LogRecord :=
| LogInfo (msg : string)
| LogShape (msg : string) (shape : nat * nat)
| LogError (msg : string) (e : Exn).

(** The objects, files and tables a run works on.  [heap] holds the
    frames that are shared by reference.  [fs] holds the data files.
    Two files are held apart from it, by what they hold: the database
    file [data/raw/mf_data.db], whose tables are [db], and the log
    file [logs/alba_mf_etl.log], whose records are [log] (the handlers
    were set up, and the file opened, when the module was loaded);
    [Layout.files] puts the three together.  A path in [locked] cannot
    be written. *)
Record World := mkWorld {
  heap : list DataFrame;
  fs : gmap string File;
  db : gmap string SqlTable;
  locked : gset string;
  log : list LogRecord
}.

Definition ref := nat.

(** Code that may raise, and whose effects stay when it does. *)
Definition M (A : Type) : Type := World -> Res A * World.

Definition ret {A} (a : A) : M A := fun w => (Ok a, w).
Definition bind {A B} (m : M A) (k : A -> M B) : M B :=
  fun w => match m w with
           | (Ok a, w') => k a w'
           | (Raise e, w') => (Raise e, w')
           end.
Definition lift {A} (r : Res A) : M A := fun w => (r, w).
Definition raise {A} (e : Exn) : M A := lift (Raise e).

(** [try: body / except Exception as e: handler(e)] *)
Definition try_except {A} (body : M A) (handler : Exn -> M A) : M A :=
  fun w => match body w with
           | (Ok a, w') => (Ok a, w')
           | (Raise e, w') => handler e w'
           end.

Notation "x <- m ;; k" := (bind m (fun x => k))
  (at level 100, m at next level, right associativity).
Notation "m ;; k" := (bind m (fun _ => k))
  (at level 100, right associativity).

Definition logger_info (msg : string) : M unit :=
  fun w => (Ok tt, mkWorld (heap w) (fs w) (db w) (locked w) (log w ++ [LogInfo msg])).
Definition logger_shape (msg : string) (df : DataFrame) : M unit :=
  fun w => (Ok tt, mkWorld (heap w) (fs w) (db w) (locked w)
                           (log w ++ [LogShape msg (nrows df, ncols df)])).
Definition logger_error (msg : string) (e : Exn) : M unit :=
  fun w => (Ok tt, mkWorld (heap w) (fs w) (db w) (locked w) (log w ++ [LogError msg e])).

(** A new frame object; the reference to it. *)
Definition alloc (df : DataFrame) : M ref :=
  fun w => (Ok (length (heap w)),
            mkWorld (heap w ++ [df]) (fs w) (db w) (locked w) (log w)).

(** The frame behind a reference (every reference the script holds
    was handed out by [alloc]). *)
Definition deref (r : ref) : M DataFrame :=
  fun w => match heap w !! r with
           | Some df => (Ok df, w)
           | None => (Raise AttributeError, w)
           end.

Definition store (r : ref) (df : DataFrame) : M unit :=
  fun w => (Ok tt, mkWorld (<[r := df]> (heap w)) (fs w) (db w) (locked w) (log w)).

Definition path_join (dir name : string) : string := dir +:+ "/" +:+ name.

Definition DATA_RAW : string := path_join "data" "raw".
Definition DATA_PROCESSED : string := path_join "data" "processed".
Definition DATA_FINAL : string := path_join "data" "final".
Definition db_path : string := path_join DATA_RAW "mf_data.db".
Definition log_path : string := path_join "logs" "alba_mf_etl.log".

(** [pd.read_excel(path, sheet_name=sheet)], a new frame object. *)
Definition read_excel (path sheet : string) : M ref :=
  fun w => match fs w !! path with
           | None => (Raise FileNotFoundError, w)
           | Some (Csv _ _) => (Raise ValueError, w)
           | Some (Workbook sheets) =>
               match list_find (fun s => s.1 = sheet) sheets with
               | Some (_, (_, df)) => alloc df w
               | None => (Raise ValueError, w)
               end
           end.

(** What [to_csv(index=False)] renders: the labels and the cells,
    without the index. *)
Definition csv_of (df : DataFrame) : File := Csv (columns df) (rows df).*2.

(** What [to_sql(index=True, index_label="id")] lays out: the index
    comes first, labelled [id]. *)
Definition sql_of (df : DataFrame) : SqlTable :=
  mkSql ("id" :: columns df) ((fun r => CInt (Z.of_nat r.1) :: r.2) <$> rows df).

(** [df.to_csv(path, index=False)]: the file is replaced. *)
Definition to_csv (df : DataFrame) (path : string) : M unit :=
  fun w => if decide (path ∈ locked w) then (Raise PermissionError, w)
           else (Ok tt, mkWorld (heap w) (<[path := csv_of df]> (fs w))
                                (db w) (locked w) (log w)).

(** The column names of the table [to_sql] creates for a frame, as
    SQLite compares them: without regard to the case of the letters
    A-Z. *)
Definition sql_names (df : DataFrame) : list string :=
  lower_letters <$> ("id" :: columns df).

Definition nul : string := String "000" EmptyString.

(** The names pandas can write down in a statement: none is empty
    or holds a NUL character. *)
Definition valid_names (df : DataFrame) : bool :=
  forallb (fun c => negb (String.eqb c "") && negb (contains nul c)) (columns df).

(** A frame SQLite takes as it is: the names of its columns are
    valid and, [id] among them, differ from each other; there are
    fewer than a thousand of them; and every integer fits SQLite's
    INTEGER, an int64. *)
Definition plain (df : DataFrame) : bool :=
  valid_names df
  && bool_decide (NoDup (sql_names df))
  && (ncols df <? 999)%nat
  && forallb (fun r => forallb (fun c => negb (big_int c)) r.2) (rows df).

(** SQLite behind pandas, on a frame that is not plain:
    [sql_rest df] is whether [to_sql(..., if_exists='replace')]
    raises, and the table it leaves under the name.  The table that
    was there before is dropped first, so neither depends on it.
    When the names can be written down, CREATE TABLE refuses a name
    that is given twice. *)
Class SqlLibrary := {
  sql_rest : DataFrame -> Res unit * option SqlTable;
  sql_rest_repeated :
    forall df, valid_names df = true -> ~ NoDup (sql_names df) ->
               (sql_rest df).1 = Raise OperationalError
}.

(** The libraries the script calls into. *)
Class Library := {
  text_library :: TextLibrary;
  cell_library :: CellLibrary;
  sql_library :: SqlLibrary
}.

Section Methods.
Context {lib : Library}.

(** *** Transform, the computation on frames *)

Definition columns_to_rename : list nat := [1; 18; 35; 47; 55]%nat.

(** Lines 83-84: [for i, pos in enumerate(ps): names[pos] = f'date_{i + 1}'],
    entered with the count [i]. *)
Fixpoint rename_dates (i : nat) (ps : list nat) (names : list string)
    : Res (list string) :=
  match ps with
  | [] => Ok names
  | pos :: ps' =>
      rbind (set_item pos ("date_" +:+ str_N (N.of_nat (i + 1))) names)
            (rename_dates (S i) ps')
  end.

(** Lines 73-84: the column names, from the objects of the header row. *)
Definition derive_column_names (hdr : list Cell) : Res (list string) :=
  rename_dates 0 columns_to_rename (normalize <$> (str_cell <$> hdr)).

(** Lines 90-109, on the sheet that already carries the derived
    names: the cleaned wide table.  Dropping rows does not change the
    dtype of a column; [typed], the columns 1 to 49 with every row of
    the sheet, tells the dtype each column was read with. *)
Definition clean_wide (df : DataFrame) : Res DataFrame :=
  let typed := iloc_cols 1 50 df in
  let df := reset_index (drop_rows (take 2 (index df)) df) in
  let df := iloc_cols 1 50 df in
  let date_columns := filter (fun c => contains "date" c = true) (columns df) in
  rbind (for_each (fun df col => convert_column ValueError (to_day (kind_in typed col)) df col)
                  date_columns df) (fun df =>
  let columnas_nan := filter (fun c => c = "nan") (columns df) in
  rbind (match columnas_nan with
         | [] => Ok df
         | _ :: _ => drop_columns columnas_nan df
         end) (fun df =>
  let columns_to_exclude := (date_columns ++ ["tank_name"; "product"])%list in
  for_each (fun df col =>
              if inb col columns_to_exclude then Ok df
              else convert_column TypeError (to_numeric (kind_in typed col)) df col)
           (columns df) df)).

Definition lhc_columns_to_delete : list string :=
  ["eglng_propane_sales"; "llc_share_of_secondary_condensate";
   "psc_share_of_secondary_condensate"].
Definition gp_columns : list string :=
  ["date_2"; "ampco_gas_sales"; "eglng_gas_sales"; "gas_sales"; "offshore_gas"].
Definition td_columns : list string :=
  ["date_3"; "tank_name"; "standard_net_oil_volume_(bbls)"].

(** The four tables [transform] returns, in the order of its tuple. *)
Record Tables := mkTables {
  liquid_hydrocarbons_cached : DataFrame;
  gas_production : DataFrame;
  tank_data : DataFrame;
  daily_lifting_data : DataFrame
}.

(** Lines 113-116: the four slices of the wide table. *)
Definition lhc_slice (wide : DataFrame) : DataFrame := iloc_cols 0 11 wide.
Definition gp_slice (wide : DataFrame) : DataFrame := iloc_cols 12 24 wide.
Definition td_slice (wide : DataFrame) : DataFrame := iloc_cols 27 35 wide.
Definition dld_slice (wide : DataFrame) : DataFrame := iloc_cols 35 38 wide.

(** Lines 113-151: slicing, then the cleaning of each slice. *)
Definition split_tables (wide : DataFrame) : Res Tables :=
  let lhc := lhc_slice wide in
  let gp := gp_slice wide in
  let td := td_slice wide in
  let dld := dld_slice wide in
  let lhc := dropna_all lhc in
  rbind (drop_columns lhc_columns_to_delete lhc) (fun lhc =>
  let lhc := rename "date_1" "date" lhc in
  let gp := dropna_all gp in
  rbind (select_columns gp_columns gp) (fun gp =>
  let gp := rename "date_2" "date" gp in
  let td := dropna_all td in
  rbind (select_columns td_columns td) (fun td =>
  let td := rename "date_3" "date" td in
  let dld := dropna_all dld in
  let dld := rename "date_4" "date" dld in
  Ok (mkTables lhc gp td dld)))).

(** *** Storing a table *)

(** What [to_sql(..., if_exists='replace')] does with a frame: whether
    it raises, and the table it leaves. *)
Definition sql_store (df : DataFrame) : Res unit * option SqlTable :=
  if plain df then (Ok tt, Some (sql_of df)) else sql_rest df.

(** [df.to_sql(name, conn, if_exists='replace', index=True, index_label="id")]:
    the table is replaced. *)
Definition to_sql (df : DataFrame) (name : string) : M unit :=
  fun w => if decide (db_path ∈ locked w) then (Raise OperationalError, w)
           else ((sql_store df).1,
                 mkWorld (heap w) (fs w)
                         (partial_alter (fun _ => (sql_store df).2) name (db w))
                         (locked w) (log w)).

(** *** The methods of [ETLPipeline] *)

Definition excel_path : string := path_join DATA_RAW "alba_mf.xlsm".
Definition alba_mf_path : string := path_join DATA_RAW "ec_data_alba.csv".

Definition lhc_csv : string := "liquid_hydrocarbons_cached.csv".
Definition gp_csv : string := "gas_production.csv".
Definition td_csv : string := "tank_data.csv".
Definition dld_csv : string := "daily_lifting_data.csv".

(** Lines 31-45.  The method returns the frame, or [None] after an
    exception. *)
Definition extract_from_excel_ec_data : M (option ref) :=
  try_except
    (df <- read_excel excel_path "EC DATA" ;;
     sheet <- deref df ;;
     to_csv sheet alba_mf_path ;;
     logger_shape "Datos extraidos de Excel" sheet ;;
     ret (Some df))
    (fun e => logger_error "Error al extraer datos de Excel" e ;; ret None).

(** The dictionary [extract] builds: one key, whose value is the
    frame object or [None]. *)
Record DataDict := mkDict { ec_data_alba : option ref }.

(** Lines 47-61. *)
Definition extract : M (option DataDict) :=
  try_except
    (logger_info "Iniciando la extración de datos" ;;
     df_ec_data_alba <- extract_from_excel_ec_data ;;
     ret (Some (mkDict df_ec_data_alba)))
    (fun e => logger_error "Error en la extracción de datos" e ;; ret None).

(** [data_dict['ec_data_alba']]; [None] is not subscriptable. *)
Definition getitem (data_dict : option DataDict) : Res (option ref) :=
  match data_dict with
  | Some d => Ok (ec_data_alba d)
  | None => Raise TypeError
  end.

(** An attribute of [df], which [None] does not have. *)
Definition getattr (df : option ref) : Res ref :=
  match df with
  | Some r => Ok r
  | None => Raise AttributeError
  end.

(** Lines 63-177.  Line 87 assigns the derived names to the frame
    object the caller passed; from line 90 on the method works on
    frames of its own. *)
Definition transform (data_dict : option DataDict) : M (option Tables) :=
  try_except
    (logger_info "Iniciando la transformación de datos" ;;
     df_ec_data_alba <- lift (getitem data_dict) ;;
     r <- lift (getattr df_ec_data_alba) ;;
     sheet <- deref r ;;
     header <- lift (iloc_row 1 sheet) ;;
     column_names <- lift (derive_column_names header) ;;
     named <- lift (set_columns column_names sheet) ;;
     store r named ;;
     wide <- lift (clean_wide named) ;;
     t <- lift (split_tables wide) ;;
     to_csv (liquid_hydrocarbons_cached t) (path_join DATA_PROCESSED lhc_csv) ;;
     to_csv (gas_production t) (path_join DATA_PROCESSED gp_csv) ;;
     to_csv (tank_data t) (path_join DATA_PROCESSED td_csv) ;;
     to_csv (daily_lifting_data t) (path_join DATA_PROCESSED dld_csv) ;;
     logger_shape "Datos extraidos de Excel" wide ;;
     ret (Some t))
    (fun e => logger_error "Error en la transformación de datos" e ;; ret None).

(** Lines 179-201.  [Some true] is the [True] of line 199; after an
    exception the method returns [None]. *)
Definition load (lhc gp td dld : DataFrame) : M (option bool) :=
  try_except
    (logger_info "Iniciando la carga de datos" ;;
     to_csv lhc (path_join DATA_FINAL lhc_csv) ;;
     to_csv gp (path_join DATA_FINAL gp_csv) ;;
     to_csv td (path_join DATA_FINAL td_csv) ;;
     to_csv dld (path_join DATA_FINAL dld_csv) ;;
     to_sql lhc "liquid_hydrocarbons_cached" ;;
     to_sql gp "gas_production" ;;
     to_sql td "tank_data" ;;
     to_sql dld "daily_lifting_data" ;;
     logger_info ("Datos cargados y guardados en " +:+ db_path +:+ ".") ;;
     ret (Some true))
    (fun e => logger_error "Error en la carga de datos" e ;; ret None).

(** [lhc, gp, td, dld = result]; [None] cannot be unpacked. *)
Definition unpack (result : option Tables) : Res Tables :=
  match result with
  | Some t => Ok t
  | None => Raise TypeError
  end.

(** Lines 203-214. *)
Definition run : M bool :=
  try_except
    (logger_info "Iniciando pipeline" ;;
     data_dict <- extract ;;
     result <- transform data_dict ;;
     t <- lift (unpack result) ;;
     load (liquid_hydrocarbons_cached t) (gas_production t)
          (tank_data t) (daily_lifting_data t) ;;
     logger_info "Pipeline ETL completado con éxito." ;;
     ret true)
    (fun e => logger_error "Error en el proceso ETL" e ;; ret false).

(** The paths of the final CSV files and the names of the tables. *)
Definition processed_paths : list string :=
  path_join DATA_PROCESSED <$> [lhc_csv; gp_csv; td_csv; dld_csv].
Definition final_paths : list string :=
  path_join DATA_FINAL <$> [lhc_csv; gp_csv; td_csv; dld_csv].
Definition table_names : list string :=
  ["liquid_hydrocarbons_cached"; "gas_production"; "tank_data"; "daily_lifting_data"].

End Methods.

End Pipeline.


(** ** The layout the script relies on

    The script addresses the sheet by position and by name at once: it
    cuts fixed column ranges and then asks for columns by name.  A sheet
    is well formed when the two agree. *)

Module Layout.
Import Text Cells Py Frame Pipeline.

Definition text_columns : list string := ["tank_name"; "product"].

(** The label sits on exactly one column. *)
Definition once (name : string) (cols : list string) : bool :=
  (length (positions name cols) =? 1)%nat.

(** The names of the block are fit for [clean_wide]: apart from the
    empty headers and the two text columns, no name repeats. *)
Definition names_fit (block : list string) : Prop :=
  Forall (fun c => c = "nan" \/ c ∈ text_columns \/ once c block = true) block.

(** [df.iloc[i, p]] *)
Definition at_cell (df : DataFrame) (i p : nat) : option Cell :=
  r ← rows df !! i; r.2 !! p.

(** [df[name].iloc[i]], when one column carries the name. *)
Definition cell (df : DataFrame) (i : nat) (name : string) : option Cell :=
  match positions name (columns df) with
  | [p] => at_cell df i p
  | _ => None
  end.

(** [df[name]], when one column carries the name. *)
Definition column (df : DataFrame) (name : string) : list Cell :=
  match positions name (columns df) with
  | [p] => column_at p df
  | _ => []
  end.

(** The data rows under the columns 1 to 49, before any conversion
    (lines 90-93), and the same columns with every row of the sheet. *)
Definition data_block (df : DataFrame) : DataFrame :=
  iloc_cols 1 50 (reset_index (drop_rows (take 2 (index df)) df)).
Definition typed_block (df : DataFrame) : DataFrame := iloc_cols 1 50 df.

(** The table is cut from the columns [a, b) of the wide table: it
    holds the rows of the wide table that are not null across these
    columns, under their labels, and of each row the cells at some
    places [ps] of that range, in the order of [ps]; its columns are
    named as these places are in the wide table, [old] apart, which
    has become [date]. *)
Definition cut (a b : nat) (old : string) (wide table : DataFrame) : Prop :=
  exists ps,
    Forall (fun p => (a <= p < b)%nat) ps /\
    columns table =
      (fun c => if String.eqb c old then "date" else c) <$> at_places ps (columns wide) /\
    rows table =
      prod_map id (at_places ps) <$>
        filter (fun r => existsb notna (slice a b r.2) = true) (rows wide).



(** The column, of dtype [k], lies within what [to_numeric] is spelled
    out for; and whether it then comes back as integers. *)
Definition spelled_numbers (k : Kind) (col : list Cell) : bool :=
  negb (bool_decide (k = KDatetime)) && bool_decide (is_Some (mapM read_number col)).

Definition stays_integer (k : Kind) (col : list Cell) : bool :=
  match mapM read_number col with
  | Some rs => forallb is_whole rs && negb (bool_decide (k = KFloat))
  | None => false
  end.

(** The tables of a run under the names [load] stores them by. *)
Definition tables_list (t : Tables) : list (string * DataFrame) :=
  [("liquid_hydrocarbons_cached", liquid_hydrocarbons_cached t);
   ("gas_production", gas_production t);
   ("tank_data", tank_data t);
   ("daily_lifting_data", daily_lifting_data t)].

(** A map after a sequence of writes. *)
Definition written {V} (m : gmap string V) (ws : list (string * V)) : gmap string V :=
  foldl (fun m w => <[w.1 := w.2]> m) m ws.

(** The value the writes leave under a key, if they touch it. *)
Fixpoint last_write {V} (k : string) (ws : list (string * V)) : option V :=
  match ws with
  | [] => None
  | w :: ws' =>
      match last_write k ws' with
      | Some v => Some v
      | None => if decide (w.1 = k) then Some w.2 else None
      end
  end.

(** A map after a sequence of replacements, each of which leaves a
    value under its key or none. *)
Definition replaced {V} (m : gmap string V) (us : list (string * option V))
    : gmap string V :=
  foldl (fun m u => partial_alter (fun _ => u.2) u.1 m) m us.

(** What a path of the file system holds: a data file, the database
    or the log. *)
Inductive Stored :=
| DataFile (f : File)
| DatabaseFile (tables : gmap string SqlTable)
| LogFile (records : list LogRecord).

(** The file system as a whole.  An absent database file and one
    without tables are not told apart. *)
Definition files (w : World) : gmap string Stored :=
  <[log_path := LogFile (log w)]>
    (<[db_path := DatabaseFile (db w)]> (DataFile <$> fs w)).

Section Sheets.
Context {lib : Library}.

(** The cleaned wide table of a sheet: lines 73-109 on frames. *)
Definition wide_of (sheet : DataFrame) : Res DataFrame :=
  rbind (iloc_row 1 sheet) (fun header =>
  rbind (derive_column_names header) (fun names =>
  rbind (set_columns names sheet) clean_wide)).

(** The conversion the script applies to the column of this name goes
    through: the dates of a date column can be floored to their day,
    and the library raises nothing. *)
Definition converts (df : DataFrame) (name : string) : bool :=
  let cells := column (data_block df) name in
  let k := kind_in (typed_block df) name in
  if contains "date" name then is_ok (to_day k cells)
  else if String.eqb name "nan" || inb name text_columns then true
  else is_ok (to_numeric k cells).

(** A sheet has the expected layout when
    - it has a header row, of at least 56 cells, one per column;
    - among the columns 1 to 49, every header that is neither empty
      nor one of the two text columns is carried by one column only,
      and the column under it converts;
    - once the columns with an empty header are left out, the three
      liquids columns to delete fall within columns [0,11), the five
      gas columns within [12,24), the three tank columns within
      [27,35), and there are at least 38 columns. *)
Definition well_formed (sheet : DataFrame) : bool :=
  match iloc_row 1 sheet with
  | Raise _ => false
  | Ok header =>
      match derive_column_names header with
      | Raise _ => false
      | Ok names =>
          let block := slice 1 50 names in
          let cols := filter (fun c => c ≠ "nan") block in
          (length names =? ncols sheet)%nat
          && forallb (fun c => String.eqb c "nan" || inb c text_columns || once c block) block
          && forallb (converts (mkDF names (rows sheet))) block
          && forallb (fun c => inb c (slice 0 11 cols)) lhc_columns_to_delete
          && forallb (fun c => inb c (slice 12 24 cols)) gp_columns
          && forallb (fun c => inb c (slice 27 35 cols)) td_columns
          && (38 <=? length cols)%nat
      end
  end.

(** The files [transform] and [load] write, in the order they write
    them. *)
Definition processed_writes (t : Tables) : list (string * File) :=
  [(path_join DATA_PROCESSED lhc_csv, csv_of (liquid_hydrocarbons_cached t));
   (path_join DATA_PROCESSED gp_csv, csv_of (gas_production t));
   (path_join DATA_PROCESSED td_csv, csv_of (tank_data t));
   (path_join DATA_PROCESSED dld_csv, csv_of (daily_lifting_data t))].
Definition final_writes (t : Tables) : list (string * File) :=
  [(path_join DATA_FINAL lhc_csv, csv_of (liquid_hydrocarbons_cached t));
   (path_join DATA_FINAL gp_csv, csv_of (gas_production t));
   (path_join DATA_FINAL td_csv, csv_of (tank_data t));
   (path_join DATA_FINAL dld_csv, csv_of (daily_lifting_data t))].

End Sheets.

End Layout.

(** ** What a run leaves behind

    The effect of each method on the files and the tables, told by
    what the method reads: the workbook file [f] at the Excel path and
    the set [lk] of write-protected paths. *)

Module Outcome.
Import Text Cells Py Frame Pipeline Layout.

(** What [pd.read_excel] finds under the sheet name. *)
Definition found_sheet (f : option File) : Res DataFrame :=
  match f with
  | None => Raise FileNotFoundError
  | Some (Csv _ _) => Raise ValueError
  | Some (Workbook sheets) =>
      match list_find (fun s : string * DataFrame => s.1 = "EC DATA") sheets with
      | Some (_, (_, df)) => Ok df
      | None => Raise ValueError
      end
  end.

(** The sheet [extract] hands on: found, and copied to the staging file. *)
Definition staged (f : option File) (lk : gset string) : option DataFrame :=
  match found_sheet f with
  | Ok df => if decide (alba_mf_path ∈ lk) then None else Some df
  | Raise _ => None
  end.

(** The writes that get done before the first write-protected path. *)
Fixpoint unlocked_prefix {V} (lk : gset string) (ws : list (string * V))
    : list (string * V) :=
  match ws with
  | [] => []
  | w :: ws' => if decide (w.1 ∈ lk) then [] else w :: unlocked_prefix lk ws'
  end.

Fixpoint all_unlocked {V} (lk : gset string) (ws : list (string * V)) : bool :=
  match ws with
  | [] => true
  | w :: ws' => if decide (w.1 ∈ lk) then false else all_unlocked lk ws'
  end.

Definition extract_files (f : option File) (lk : gset string) : list (string * File) :=
  match staged f lk with
  | Some sheet => [(alba_mf_path, csv_of sheet)]
  | None => []
  end.

(** Every path the script writes a data file at. *)
Definition output_paths : list string :=
  alba_mf_path :: (processed_paths ++ final_paths)%list.

(** A character a derived name can hold: no blank, no hyphen, no
    upper-case ASCII letter. *)
Definition plain_char (c : ascii) : bool :=
  negb (Ascii.eqb c " ") && negb (Ascii.eqb c "-") && negb (is_upper c).

Section Runs.
Context {lib : Library}.

(** The four tables of a sheet, when the frames go through. *)
Definition tables_of (sheet : DataFrame) : option Tables :=
  match wide_of sheet with
  | Ok wide =>
      match split_tables wide with
      | Ok t => Some t
      | Raise _ => None
      end
  | Raise _ => None
  end.

(** What [transform] returns, and the files it writes. *)
Definition transformed (osheet : option DataFrame) (lk : gset string) : option Tables :=
  match osheet with
  | Some sheet =>
      match tables_of sheet with
      | Some t => if all_unlocked lk (processed_writes t) then Some t else None
      | None => None
      end
  | None => None
  end.

Definition transform_files (osheet : option DataFrame) (lk : gset string)
    : list (string * File) :=
  match osheet with
  | Some sheet =>
      match tables_of sheet with
      | Some t => unlocked_prefix lk (processed_writes t)
      | None => []
      end
  | None => []
  end.

(** The tables [to_sql] replaces, in turn, up to and with the first
    it raises on; and whether it raises on none. *)
Fixpoint stored_prefix (ts : list (string * DataFrame)) : list (string * option SqlTable) :=
  match ts with
  | [] => []
  | t :: ts' =>
      (t.1, (sql_store t.2).2) :: if is_ok (sql_store t.2).1 then stored_prefix ts' else []
  end.

Fixpoint all_stored (ts : list (string * DataFrame)) : bool :=
  match ts with
  | [] => true
  | t :: ts' => is_ok (sql_store t.2).1 && all_stored ts'
  end.

(** [load] gets to the database: the four final files and the
    database file can be written. *)
Definition reaches_db (t : Tables) (lk : gset string) : bool :=
  all_unlocked lk (final_writes t) && (if decide (db_path ∈ lk) then false else true).

(** What [load] returns, and the tables it replaces. *)
Definition loaded (t : Tables) (lk : gset string) : bool :=
  reaches_db t lk && all_stored (tables_list t).

Definition load_tables (t : Tables) (lk : gset string) : list (string * option SqlTable) :=
  if reaches_db t lk then stored_prefix (tables_list t) else [].

(** The whole run. *)
Definition run_result (f : option File) (lk : gset string) : bool :=
  match transformed (staged f lk) lk with
  | Some _ => true
  | None => false
  end.

Definition run_files (f : option File) (lk : gset string) : list (string * File) :=
  (extract_files f lk ++ transform_files (staged f lk) lk ++
   match transformed (staged f lk) lk with
   | Some t => unlocked_prefix lk (final_writes t)
   | None => []
   end)%list.

Definition run_tables (f : option File) (lk : gset string)
    : list (string * option SqlTable) :=
  match transformed (staged f lk) lk with
  | Some t => load_tables t lk
  | None => []
  end.

End Runs.

End Outcome.

(** ** A sample sheet

    A sheet of 56 columns laid out as the script expects: a title row,
    the header row, then data rows.  Nine header cells are empty, so
    that the blocks fall on the column ranges the script cuts. *)

Module Sample.
Import Text Cells Py Frame Pipeline.

Definition header_texts : list (nat * string) :=
  [(1, "Date"); (2, "Condensate"); (3, "LPG"); (4, "Butane"); (5, "Propane");
   (6, "EGLNG Propane Sales"); (7, "LLC Share of Secondary Condensate");
   (8, "PSC Share of Secondary Condensate"); (9, "Methanol"); (10, "Crude Oil");
   (11, "Primary Condensate"); (12, "Total Liquids");
   (13, "AMPCO Gas Sales"); (14, "EGLNG Gas Sales"); (15, "Gas Sales");
   (16, "Offshore Gas"); (17, "Flare Gas"); (18, "Date"); (19, "Fuel Gas");
   (20, "Gas Lift"); (21, "Gas-Injection"); (22, "Import Gas"); (23, "Export Gas");
   (24, "Total Gas"); (25, "Remarks A"); (26, "Remarks B"); (27, "Remarks C");
   (28, "Tank Name"); (29, "Product"); (30, "Gross Volume");
   (31, "Standard Net Oil Volume (bbls)"); (32, "Water"); (33, "Temperature");
   (34, "Density"); (35, "Date"); (45, "Cargo"); (46, "Volume Lifted");
   (47, "Date"); (48, "Notes"); (49, "Checked"); (55, "Date")]%nat.

Definition assoc {A} (default : A) (l : list (nat * A)) (i : nat) : A :=
  match list_find (fun x => x.1 = i) l with
  | Some (_, (_, a)) => a
  | None => default
  end.

Definition width : nat := 56.

Definition make_row (cells : list (nat * Cell)) : list Cell :=
  assoc CNull cells <$> seq 0 width.

Definition header_row : list Cell :=
  make_row (prod_map id CStr <$> header_texts).

(** Liquids, tanks and a lifting on 2024-01-15; no gas figures. *)
Definition day1 : list Cell :=
  make_row [(1, CStr "2024-01-15 08:30:00"); (2, CStr "42.5"); (3, CStr "1,234");
            (4, CInt 7); (6, CFloat (mkDec 15 (-1)));
            (28, CStr "T-101"); (29, CStr "Condensate"); (31, CInt 12000);
            (35, CDate 1705307400000000000);
            (45, CStr "C-9"); (46, CInt 500); (47, CStr "2024-01-15")]%nat.

(** An empty line of the sheet. *)
Definition blank : list Cell := make_row [].

(** Gas figures only. *)
Definition day2 : list Cell :=
  make_row [(13, CInt 10); (14, CInt 20); (15, CInt 30); (16, CFloat (mkDec 5 (-1)));
            (18, CDate 1705363200000000000)]%nat.

Definition title : list Cell := make_row [(1, CStr "LIQUID HYDROCARBONS")]%nat.

Definition labels : list string :=
  (fun i => "Unnamed: " +:+ str_N (N.of_nat i)) <$> seq 0 width.

Definition sheet : DataFrame :=
  mkDF labels (imap (fun i r => (i, r)) [title; header_row; day1; blank; day2]).

(** The same layout with one day of data: every column that holds a
    figure holds one in each data row. *)
Definition sheet_one_day : DataFrame :=
  mkDF labels (imap (fun i r => (i, r)) [title; header_row; day1]).

(** The same layout with a lifting in the forenoon of 1677-09-21, the
    day a [datetime64[ns]] begins in. *)
Definition early_day : list Cell :=
  make_row [(46, CInt 500);
            (47, CDate (days_from_civil 1677 9 21 * ns_per_day + 10 * 3600 * ns_per_second)%Z)]%nat.
Definition sheet_early : DataFrame :=
  mkDF labels (imap (fun i r => (i, r)) [title; header_row; early_day]).

(** A file system that holds the workbook, and nothing else. *)
Definition world0 : World :=
  mkWorld [] {[ excel_path := Workbook [("EC DATA", sheet)] ]} ∅ ∅ [].

(** The same, with the final directory's first file write-protected. *)
Definition world_locked : World :=
  mkWorld [] {[ excel_path := Workbook [("EC DATA", sheet)] ]} ∅
          {[ path_join DATA_FINAL lhc_csv ]} [].

(** No workbook. *)
Definition world_empty : World := mkWorld [] ∅ ∅ ∅ [].

(** A world that holds the sample sheet as its one object, and the
    dictionary that refers to it. *)
Definition sample_world : World := mkWorld [sheet] ∅ ∅ ∅ [].
Definition sample_dict : option DataDict := Some (mkDict (Some 0%nat)).

(** The sample sheet under its derived column names. *)
Definition named `{Library} : DataFrame :=
  match derive_column_names header_row with
  | Ok names => mkDF names (rows sheet)
  | Raise _ => sheet
  end.

(** The closed examples at the end run the methods, and so need a
    library.  Every header, cell and table they meet lies within what
    [Text], [Cells] and [Pipeline] spell out, where no field of the
    library is asked; this one answers with the least that meets the
    laws. *)
Definition silent : Library := {|
  text_library := {| lower_rest := fun _ => ""; lower_rest_lowered := fun _ => eq_refl |};
  cell_library := {| kind_rest := fun _ => KObject;
                     big_float := dec_of_Z;
                     to_datetime_rest := fun _ _ => Raise ValueError;
                     to_numeric_rest := fun _ _ => Raise ValueError |};
  sql_library := {| sql_rest := fun _ => (Raise OperationalError, None);
                    sql_rest_repeated := fun _ _ _ => eq_refl |}
|}.

End Sample.

(** * Properties *)

Import Text Cells Py Frame Pipeline.
Import Layout Outcome.
Import Sample (sample_world, sample_dict).

#[global] Arguments to_day : simpl never.
#[global] Arguments to_numeric : simpl never.
#[global] Arguments kind_in : simpl never.

#[global] Arguments iloc_row : simpl never.
#[global] Arguments derive_column_names : simpl never.
#[global] Arguments set_columns : simpl never.
#[global] Arguments clean_wide : simpl never.
#[global] Arguments split_tables : simpl never.
#[global] Arguments path_join : simpl never.

(** ** Header names *)

Section Names.
Context {lib : Library}.

Lemma set_item_Ok pos x names :
  (pos < length names)%nat -> set_item pos x names = Ok (<[pos := x]> names).
Proof.
  intros H. unfold set_item.
  destruct (Nat.ltb_spec pos (length names)); [reflexivity | lia].
Qed.

(** C3. When the header row has at least 56 cells, the derived names
    exist, there are as many as cells, and the names at positions 1,
    18, 35, 47 and 55 are [date_1] .. [date_5] whatever the cells
    hold; in particular any text put in cell 18 ends as [date_2]. *)
Theorem derive_column_names_dates (hdr : list Cell) :
  (56 <= length hdr)%nat ->
  (exists names,
      derive_column_names hdr = Ok names /\ length names = length hdr /\
      names !! 1%nat = Some "date_1" /\ names !! 18%nat = Some "date_2" /\
      names !! 35%nat = Some "date_3" /\ names !! 47%nat = Some "date_4" /\
      names !! 55%nat = Some "date_5") /\
  (forall text, exists names,
      derive_column_names (<[18%nat := CStr text]> hdr) = Ok names /\
      names !! 18%nat = Some "date_2").
Proof.
  assert (Hgen : forall h : list Cell, (56 <= length h)%nat ->
    exists names,
      derive_column_names h = Ok names /\ length names = length h /\
      names !! 1%nat = Some "date_1" /\ names !! 18%nat = Some "date_2" /\
      names !! 35%nat = Some "date_3" /\ names !! 47%nat = Some "date_4" /\
      names !! 55%nat = Some "date_5").
  { intros h Hlen.
    unfold derive_column_names, columns_to_rename.
    set (base := normalize <$> (str_cell <$> h)).
    assert (Hb : length base = length h) by (unfold base; rewrite !length_fmap; reflexivity).
    cbn [rename_dates].
    repeat (rewrite set_item_Ok by (rewrite ?length_insert; lia); cbn [rbind]).
    eexists; split; [reflexivity |].
    rewrite !length_insert.
    split; [exact Hb |].
    repeat split.
    all: repeat (rewrite list_lookup_insert_ne by lia).
    all: rewrite list_lookup_insert_eq by (rewrite ?length_insert; lia).
    all: reflexivity. }
  intros Hlen. split.
  - apply Hgen, Hlen.
  - intros text.
    destruct (Hgen (<[18%nat := CStr text]> hdr)) as (names & Hn & _ & _ & H18 & _).
    + rewrite length_insert. exact Hlen.
    + exists names. split; assumption.
Qed.


End Names.

(** ** Lists *)

Section ListFacts.
Context {A B : Type}.

Lemma filter_fmap (f : A -> B) (P : B -> Prop) `{!forall y, Decision (P y)} (l : list A) :
  filter P (f <$> l) = f <$> filter (fun x => P (f x)) l.
Proof.
  induction l as [| x l IH]; [reflexivity |].
  rewrite fmap_cons, !filter_cons.
  destruct (decide (P (f x))); rewrite IH; reflexivity.
Qed.

Lemma fst_prod_map_id (g : B -> B) (l : list (A * B)) :
  (prod_map id g <$> l).*1 = l.*1.
Proof.
  rewrite <- list_fmap_compose. apply list_fmap_ext. intros i [a b] _. reflexivity.
Qed.

Lemma pick_fmap (f : A -> bool) (l : list A) :
  pick (f <$> l) l = filter (fun c => f c = true) l.
Proof.
  induction l as [| x l IH]; [reflexivity |].
  cbn [fmap list_fmap pick]. rewrite filter_cons.
  destruct (f x) eqn:E; destruct (decide _); try congruence; rewrite <- IH; reflexivity.
Qed.

Lemma fst_imap_reset (l : list (A * B)) :
  (imap (fun i r => (i, r.2)) l).*1 = seq 0 (length l).
Proof.
  apply list_eq. intros i.
  rewrite list_lookup_fmap, list_lookup_imap.
  destruct (l !! i) eqn:E; cbn.
  - symmetry. apply lookup_seq. split; [reflexivity |].
    apply lookup_lt_Some in E. exact E.
  - symmetry. apply lookup_seq_ge. apply lookup_ge_None in E. lia.
Qed.

Lemma fst_imap_assign (g : nat -> A * B -> B) (l : list (A * B)) :
  (imap (fun i r => (r.1, g i r)) l).*1 = l.*1.
Proof.
  apply list_eq. intros i. rewrite !list_lookup_fmap, list_lookup_imap.
  destruct (l !! i); reflexivity.
Qed.

(** Dropping the rows that carry one of the first two labels takes
    away at least the first two rows. *)
Lemma length_drop_first_two (l : list (nat * B)) :
  (length (filter (fun r => r.1 ∉ take 2 l.*1) l) <= length l - 2)%nat.
Proof.
  destruct l as [| a [| b l]]; cbn [fmap list_fmap take].
  - rewrite filter_nil. cbn. lia.
  - rewrite filter_cons_False by (intros H; apply H; set_solver).
    rewrite filter_nil. cbn. lia.
  - rewrite filter_cons_False by (intros H; apply H; set_solver).
    rewrite filter_cons_False by (intros H; apply H; set_solver).
    etransitivity; [apply length_filter |]. cbn [length]. lia.
Qed.

End ListFacts.

Lemma for_each_preserves {A S} (P : S -> Prop) (body : S -> A -> Res S) xs :
  (forall s x s', P s -> body s x = Ok s' -> P s') ->
  forall s s', P s -> for_each body xs s = Ok s' -> P s'.
Proof.
  intros Hbody. induction xs as [| x xs IH]; intros s s' Hs H; cbn in H.
  - injection H as <-. exact Hs.
  - destruct (body s x) eqn:E; cbn in H; [| discriminate].
    eapply IH; [| exact H]. eapply Hbody; eassumption.
Qed.

(** ** Frames: what each operation does to the labels *)

Section Shapes.
Context {lib : Library}.

Lemma convert_column_shape dup conv df col df' :
  convert_column dup conv df col = Ok df' ->
  columns df' = columns df /\ index df' = index df.
Proof.
  unfold convert_column. intros H.
  destruct (positions col (columns df)) as [| p [| q ps]]; try discriminate.
  destruct (conv (column_at p df)) as [new |]; cbn [rbind] in H; [| discriminate].
  injection H as <-. split; [reflexivity |].
  unfold index, assign_at. cbn [rows]. apply fst_imap_assign.
Qed.

Lemma drop_columns_shape names df df' :
  drop_columns names df = Ok df' ->
  columns df' = filter (fun c => negb (inb c names) = true) (columns df) /\
  index df' = index df.
Proof.
  unfold drop_columns. intros H.
  destruct (filter _ names); [| discriminate].
  injection H as <-. cbn. split.
  - apply pick_fmap.
  - unfold index. cbn. apply fst_prod_map_id.
Qed.

Lemma select_columns_shape names df df' :
  select_columns names df = Ok df' ->
  columns df' = at_places (names ≫= fun n => positions n (columns df)) (columns df) /\
  index df' = index df /\
  forall n, n ∈ names -> inb n (columns df) = true.
Proof.
  unfold select_columns. intros H.
  destruct (filter _ names) eqn:E; [| discriminate].
  injection H as <-. cbn. split; [reflexivity |]. split.
  - unfold index. cbn. apply fst_prod_map_id.
  - intros n Hn. destruct (inb n (columns df)) eqn:Hin; [reflexivity |].
    exfalso. exact (filter_nil_not_elem_of _ _ n E Hin Hn).
Qed.

Lemma index_rename old new df : index (rename old new df) = index df.
Proof. reflexivity. Qed.

Lemma index_dropna_iloc a b df :
  index (dropna_all (iloc_cols a b df)) =
  (filter (fun r => existsb notna (slice a b r.2) = true) (rows df)).*1.
Proof.
  unfold index, dropna_all, iloc_cols. cbn.
  rewrite filter_fmap. apply fst_prod_map_id.
Qed.

Lemma clean_wide_index df wide :
  clean_wide df = Ok wide ->
  index wide = seq 0 (length (filter (fun r => r.1 ∉ take 2 (index df)) (rows df))).
Proof.
  unfold clean_wide. intros H.
  set (df1 := iloc_cols 1 50 (reset_index (drop_rows (take 2 (index df)) df))) in *.
  assert (H1 : index df1 =
               seq 0 (length (filter (fun r => r.1 ∉ take 2 (index df)) (rows df)))).
  { unfold df1, index, iloc_cols, reset_index, drop_rows. cbn.
    rewrite fst_prod_map_id. apply fst_imap_reset. }
  rewrite <- H1. clear H1.
  destruct (for_each _ _ df1) as [df2 |] eqn:E2; cbn [rbind] in H; [| discriminate].
  assert (H2 : index df2 = index df1).
  { revert E2. apply (for_each_preserves (fun d => index d = index df1)); [| reflexivity].
    intros s x s' Hs Hc. apply convert_column_shape in Hc. destruct Hc as [_ ->]. exact Hs. }
  rewrite <- H2. clear H2 E2.
  match type of H with rbind ?r _ = _ => destruct r as [df3 |] eqn:E3 end;
    cbn [rbind] in H; [| discriminate].
  assert (H3 : index df3 = index df2).
  { destruct (filter _ (columns df2)).
    - injection E3 as <-. reflexivity.
    - apply drop_columns_shape in E3. apply E3. }
  rewrite <- H3. clear H3 E3.
  revert H. apply (for_each_preserves (fun d => index d = index df3)); [| reflexivity].
  intros s x s' Hs Hc. destruct (inb x _).
  - injection Hc as <-. exact Hs.
  - apply convert_column_shape in Hc. destruct Hc as [_ ->]. exact Hs.
Qed.

(** The rows each table keeps: those rows of the wide table that have
    a cell that is not null within the table's own slice. *)
Lemma split_tables_index wide t :
  split_tables wide = Ok t ->
  index (liquid_hydrocarbons_cached t) =
    (filter (fun r => existsb notna (slice 0 11 r.2) = true) (rows wide)).*1 /\
  index (gas_production t) =
    (filter (fun r => existsb notna (slice 12 24 r.2) = true) (rows wide)).*1 /\
  index (tank_data t) =
    (filter (fun r => existsb notna (slice 27 35 r.2) = true) (rows wide)).*1 /\
  index (daily_lifting_data t) =
    (filter (fun r => existsb notna (slice 35 38 r.2) = true) (rows wide)).*1.
Proof.
  unfold split_tables, lhc_slice, gp_slice, td_slice, dld_slice. intros H.
  destruct (drop_columns _ _) as [lhc |] eqn:E1; cbn [rbind] in H; [| discriminate].
  destruct (select_columns gp_columns _) as [gp |] eqn:E2; cbn [rbind] in H; [| discriminate].
  destruct (select_columns td_columns _) as [td |] eqn:E3; cbn [rbind] in H; [| discriminate].
  injection H as <-.
  cbn [liquid_hydrocarbons_cached gas_production tank_data daily_lifting_data].
  apply drop_columns_shape in E1. destruct E1 as [_ E1].
  apply select_columns_shape in E2. destruct E2 as (_ & E2 & _).
  apply select_columns_shape in E3. destruct E3 as (_ & E3 & _).
  rewrite <- !index_dropna_iloc, !index_rename.
  repeat split; assumption.
Qed.

(** ** Running the methods *)

Lemma transform_Some dd w t w' :
  transform dd w = (Ok (Some t), w') ->
  exists r sheet header names named wide,
    dd = Some (mkDict (Some r)) /\ heap w !! r = Some sheet /\
    iloc_row 1 sheet = Ok header /\ derive_column_names header = Ok names /\
    set_columns names sheet = Ok named /\ clean_wide named = Ok wide /\
    split_tables wide = Ok t /\ heap w' = <[r := named]> (heap w).
Proof.
  unfold transform, try_except, bind, lift, ret, deref, store, logger_info,
    logger_shape, logger_error, to_csv, getitem, getattr.
  intros H.
  destruct dd as [[[r |]] |]; cbn in H; try discriminate.
  destruct (heap w !! r) as [sheet |] eqn:Hr; cbn in H; [| discriminate].
  destruct (iloc_row 1 sheet) as [header |] eqn:E1; cbn in H; [| discriminate].
  destruct (derive_column_names header) as [names |] eqn:E2; cbn in H; [| discriminate].
  destruct (set_columns names sheet) as [named |] eqn:E3; cbn in H; [| discriminate].
  destruct (clean_wide named) as [wide |] eqn:E4; cbn in H; [| discriminate].
  destruct (split_tables wide) as [t' |] eqn:E5; cbn in H; [| discriminate].
  repeat (destruct (decide _) in H; cbn in H; [discriminate |]).
  injection H as <- <-.
  exists r, sheet, header, names, named, wide. cbn. repeat split; assumption || reflexivity.
Qed.

Lemma nrows_index df : nrows df = length (index df).
Proof. unfold nrows, index. rewrite length_fmap. reflexivity. Qed.

Lemma length_filter_fst {A} (P : nat * A -> Prop) `{!forall r, Decision (P r)} l :
  (length (filter P l).*1 <= length l)%nat.
Proof. rewrite length_fmap. apply length_filter. Qed.

(** C9. Each table [transform] returns has at most as many rows as
    the sheet less its two header rows; and the tables do not stay
    row-aligned: in the sample the liquids table and the gas table keep
    different rows. *)
Theorem row_counts_bounded :
  (forall dd w t w',
      transform dd w = (Ok (Some t), w') ->
      exists r sheet,
        dd = Some (mkDict (Some r)) /\ heap w !! r = Some sheet /\
        (2 <= nrows sheet)%nat /\
        (nrows (liquid_hydrocarbons_cached t) <= nrows sheet - 2)%nat /\
        (nrows (gas_production t) <= nrows sheet - 2)%nat /\
        (nrows (tank_data t) <= nrows sheet - 2)%nat /\
        (nrows (daily_lifting_data t) <= nrows sheet - 2)%nat) /\
  (exists dd w t w',
      transform dd w = (Ok (Some t), w') /\
      index (liquid_hydrocarbons_cached t) <> index (gas_production t)).
Proof.
  split.
  - intros dd w t w' H.
    apply transform_Some in H.
    destruct H as (r & sheet & header & names & named & wide
                   & -> & Hr & E1 & E2 & E3 & E4 & E5 & _).
    exists r, sheet. split; [reflexivity |]. split; [exact Hr |].
    assert (Hrows : rows named = rows sheet).
    { unfold set_columns in E3. destruct (_ =? _)%nat; [| discriminate].
      injection E3 as <-. reflexivity. }
    assert (H2 : (2 <= nrows sheet)%nat).
    { unfold iloc_row in E1. destruct (rows sheet !! 1%nat) eqn:El; [| discriminate].
      apply lookup_lt_Some in El. unfold nrows. lia. }
    assert (Hw : (nrows wide <= nrows sheet - 2)%nat).
    { rewrite nrows_index, (clean_wide_index _ _ E4), length_seq.
      unfold index. rewrite Hrows. apply length_drop_first_two. }
    split; [exact H2 |].
    destruct (split_tables_index _ _ E5) as (I1 & I2 & I3 & I4).
    rewrite (nrows_index (liquid_hydrocarbons_cached t)), (nrows_index (gas_production t)),
      (nrows_index (tank_data t)), (nrows_index (daily_lifting_data t)), I1, I2, I3, I4.
    repeat split; (etransitivity; [apply length_filter_fst | exact Hw]).
  - exists sample_dict, sample_world. eexists. eexists. split.
    + vm_compute. reflexivity.
    + vm_compute. discriminate.
Qed.


Lemma lookup_unique_label {A} (l : list (nat * A)) a b b' :
  NoDup l.*1 -> (a, b) ∈ l -> (a, b') ∈ l -> b = b'.
Proof.
  induction l as [| [x y] l IH]; intros Hnd H1 H2.
  - apply elem_of_nil in H1. destruct H1.
  - cbn in Hnd. apply NoDup_cons in Hnd. destruct Hnd as [Hx Hnd].
    apply elem_of_cons in H1. apply elem_of_cons in H2.
    destruct H1 as [H1 | H1], H2 as [H2 | H2].
    + congruence.
    + exfalso. apply Hx. injection H1 as -> ->.
      apply list_elem_of_fmap. exists (x, b'). split; [reflexivity | exact H2].
    + exfalso. apply Hx. injection H2 as -> ->.
      apply list_elem_of_fmap. exists (x, b). split; [reflexivity | exact H1].
    + apply IH; assumption.
Qed.

Lemma existsb_notna cells :
  existsb notna cells = true <-> ~ Forall (fun c => c = CNull) cells.
Proof.
  rewrite existsb_exists, Forall_forall. split.
  - intros (c & Hin & Hc) Hall. apply list_elem_of_In in Hin.
    rewrite (Hall c Hin) in Hc. discriminate.
  - intros Hnot. destruct (existsb notna cells) eqn:E.
    + apply existsb_exists in E. exact E.
    + exfalso. apply Hnot. intros c Hin.
      destruct c; try reflexivity.
      all: assert (existsb notna cells = true) as E'
             by (apply existsb_exists; eexists; split;
                 [apply list_elem_of_In; exact Hin | reflexivity]);
           congruence.
Qed.

(** Membership of a label among the rows a slice keeps. *)
Lemma kept_label a b (l : list (nat * list Cell)) label cells :
  NoDup l.*1 -> (label, cells) ∈ l ->
  label ∈ (filter (fun r => existsb notna (slice a b r.2) = true) l).*1 <->
  ~ Forall (fun c => c = CNull) (slice a b cells).
Proof.
  intros Hnd Hin. rewrite <- existsb_notna, list_elem_of_fmap. split.
  - intros ([l' c'] & -> & H). apply list_elem_of_filter in H. destruct H as [HP Hin'].
    cbn in *. rewrite (lookup_unique_label _ _ _ _ Hnd Hin Hin'). exact HP.
  - intros HP. exists (label, cells). split; [reflexivity |].
    apply list_elem_of_filter. split; assumption.
Qed.

(** C2. The rows a table keeps are the rows of the wide table that
    have a cell that is not null (pandas' missing marker) within the
    table's own column slice, in their order; so a row is removed from
    a table exactly when it is null across that slice.  The filter runs
    per table: in the sample, row 0 stays in the liquids table and goes
    from the gas table. *)
Theorem rows_dropped_per_slice :
  (forall named wide t,
      clean_wide named = Ok wide -> split_tables wide = Ok t ->
      (index (liquid_hydrocarbons_cached t) =
         (filter (fun r => existsb notna (slice 0 11 r.2) = true) (rows wide)).*1 /\
       index (gas_production t) =
         (filter (fun r => existsb notna (slice 12 24 r.2) = true) (rows wide)).*1 /\
       index (tank_data t) =
         (filter (fun r => existsb notna (slice 27 35 r.2) = true) (rows wide)).*1 /\
       index (daily_lifting_data t) =
         (filter (fun r => existsb notna (slice 35 38 r.2) = true) (rows wide)).*1) /\
      forall label cells, (label, cells) ∈ rows wide ->
        (label ∉ index (liquid_hydrocarbons_cached t) <->
           Forall (fun c => c = CNull) (slice 0 11 cells)) /\
        (label ∉ index (gas_production t) <->
           Forall (fun c => c = CNull) (slice 12 24 cells)) /\
        (label ∉ index (tank_data t) <->
           Forall (fun c => c = CNull) (slice 27 35 cells)) /\
        (label ∉ index (daily_lifting_data t) <->
           Forall (fun c => c = CNull) (slice 35 38 cells))) /\
  (exists dd w t w',
      transform dd w = (Ok (Some t), w') /\
      0%nat ∈ index (liquid_hydrocarbons_cached t) /\
      0%nat ∉ index (gas_production t)).
Proof.
  split.
  - intros named wide t Hw Ht.
    pose proof (split_tables_index _ _ Ht) as HI. split; [exact HI |].
    destruct HI as (I1 & I2 & I3 & I4).
    intros label cells Hin.
    assert (Hnd : NoDup (rows wide).*1).
    { change (NoDup (index wide)). rewrite (clean_wide_index _ _ Hw). apply NoDup_seq. }
    assert (Hdec : forall l : list Cell, Decision (Forall (fun c => c = CNull) l)).
    { intros l. apply Forall_dec. intros c. apply Cell_eq_dec. }
    rewrite I1, I2, I3, I4.
    repeat split; intros H.
    all: try (destruct (Hdec (slice 0 11 cells)) as [Hall | Hno]; [exact Hall |];
              exfalso; apply H; apply kept_label with (cells := cells); assumption).
    all: try (destruct (Hdec (slice 12 24 cells)) as [Hall | Hno]; [exact Hall |];
              exfalso; apply H; apply kept_label with (cells := cells); assumption).
    all: try (destruct (Hdec (slice 27 35 cells)) as [Hall | Hno]; [exact Hall |];
              exfalso; apply H; apply kept_label with (cells := cells); assumption).
    all: try (destruct (Hdec (slice 35 38 cells)) as [Hall | Hno]; [exact Hall |];
              exfalso; apply H; apply kept_label with (cells := cells); assumption).
    all: intros Hk; eapply kept_label in Hk; [exact (Hk H) | exact Hnd | exact Hin].
  - exists sample_dict, sample_world. eexists. eexists. split; [| split].
    + vm_compute. reflexivity.
    + vm_compute. apply list_elem_of_here.
    + vm_compute. intros H. apply list_elem_of_singleton in H. discriminate.
Qed.


End Shapes.


(** ** Labels and positions *)

Section Labels.
Context {lib : Library}.

Lemma inb_elem_of n l : inb n l = true <-> n ∈ l.
Proof.
  unfold inb. rewrite existsb_exists. split.
  - intros (x & Hin & Heq). apply String.eqb_eq in Heq. subst x.
    apply list_elem_of_In. exact Hin.
  - intros Hin. exists n. split; [apply list_elem_of_In; exact Hin | apply String.eqb_refl].
Qed.

Lemma elem_of_positions_from name cols i p :
  p ∈ positions_from i name cols <-> (i <= p)%nat /\ cols !! (p - i)%nat = Some name.
Proof.
  revert i. induction cols as [| c cols IH]; intros i; cbn [positions_from].
  - split; [intros H; apply elem_of_nil in H; destruct H | intros [_ H]; discriminate].
  - assert (Hstep : forall q, (S i <= q)%nat ->
              (c :: cols) !! (q - i)%nat = cols !! (q - S i)%nat).
    { intros q Hq. replace (q - i)%nat with (S (q - S i)) by lia. reflexivity. }
    destruct (String.eqb_spec c name) as [-> | Hne].
    + rewrite elem_of_cons, IH. split.
      * intros [-> | [Hle Hl]].
        -- split; [lia |]. rewrite Nat.sub_diag. reflexivity.
        -- split; [lia |]. rewrite Hstep by lia. exact Hl.
      * intros [Hle Hl]. destruct (decide (p = i)) as [-> | Hpi]; [left; reflexivity |].
        right. split; [lia |]. rewrite <- Hstep by lia. exact Hl.
    + rewrite IH. split.
      * intros [Hle Hl]. split; [lia |]. rewrite Hstep by lia. exact Hl.
      * intros [Hle Hl]. destruct (decide (p = i)) as [-> | Hpi].
        -- rewrite Nat.sub_diag in Hl. cbn in Hl. congruence.
        -- split; [lia |]. rewrite <- Hstep by lia. exact Hl.
Qed.

Lemma elem_of_positions name cols p :
  p ∈ positions name cols <-> cols !! p = Some name.
Proof.
  unfold positions. rewrite elem_of_positions_from, Nat.sub_0_r.
  split; [intros [_ H]; exact H | intros H; split; [lia | exact H]].
Qed.

Lemma length_positions_from name cols i :
  length (positions_from i name cols) = length (filter (fun c => c = name) cols).
Proof.
  revert i. induction cols as [| c cols IH]; intros i; [reflexivity |].
  cbn [positions_from]. rewrite filter_cons.
  destruct (String.eqb_spec c name); destruct (decide (c = name)); try contradiction;
    cbn [length]; rewrite IH; reflexivity.
Qed.

Lemma once_singleton name cols :
  once name cols = true -> exists p, positions name cols = [p].
Proof.
  unfold once. destruct (positions name cols) as [| p [| q ps]]; cbn; try discriminate.
  intros _. exists p. reflexivity.
Qed.

Lemma once_filter (f : string -> Prop) `{!forall c, Decision (f c)} name cols :
  f name -> once name cols = true -> once name (filter f cols) = true.
Proof.
  unfold once, positions. rewrite !length_positions_from, list_filter_filter.
  intros Hf Ho. rewrite <- Ho. f_equal. f_equal.
  apply list_filter_iff. intros c. split; [intros [Hc _]; exact Hc |].
  intros ->. split; [reflexivity | exact Hf].
Qed.

(** A label that sits on one column sits once in any list drawn from
    the columns in their order. *)
Lemma length_positions_sublist name (xs cols : list string) :
  xs `sublist_of` cols -> (length (positions name xs) <= length (positions name cols))%nat.
Proof.
  unfold positions. rewrite !length_positions_from.
  induction 1 as [| c l1 l2 _ IH | c l1 l2 _ IH]; [reflexivity | |];
    rewrite ?filter_cons; destruct (decide (c = name)); cbn [length]; lia.
Qed.

Lemma once_not_later x (xs cols : list string) p :
  (x :: xs) `sublist_of` cols -> positions x cols = [p] -> x ∉ xs.
Proof.
  intros Hsub Hp Hin. pose proof (length_positions_sublist x _ _ Hsub) as Hle.
  rewrite Hp in Hle. unfold positions in Hle. cbn [positions_from] in Hle.
  rewrite String.eqb_refl in Hle. cbn [length] in Hle.
  rewrite length_positions_from in Hle.
  assert (Hx : x ∈ filter (fun c => c = x) xs).
  { apply list_elem_of_filter. split; [reflexivity | exact Hin]. }
  destruct (filter (fun c => c = x) xs); [apply elem_of_nil in Hx; exact Hx | cbn in Hle; lia].
Qed.

End Labels.

(** ** Columns by place *)

Section Places.
Context {lib : Library}.

Lemma at_cell_assign_ne p new df i q :
  q <> p -> at_cell (assign_at p new df) i q = at_cell df i q.
Proof.
  intros Hq. unfold at_cell, assign_at. cbn [rows]. rewrite list_lookup_imap.
  destruct (rows df !! i) as [[l cells] |]; cbn; [| reflexivity].
  destruct (new !! i); [| reflexivity].
  apply list_lookup_insert_ne. congruence.
Qed.

Lemma at_cell_assign_eq p new df i :
  at_cell (assign_at p new df) i p = c ← at_cell df i p; Some (default c (new !! i)).
Proof.
  unfold at_cell, assign_at. cbn [rows]. rewrite list_lookup_imap.
  destruct (rows df !! i) as [[l cells] |]; cbn; [| reflexivity].
  destruct (cells !! p) as [c |] eqn:E; cbn.
  - destruct (new !! i) as [c' |]; cbn; [| exact E].
    apply list_lookup_insert_eq. apply lookup_lt_Some in E. exact E.
  - destruct (new !! i) as [c' |]; cbn; [| exact E].
    apply lookup_ge_None. rewrite length_insert. apply lookup_ge_None in E. exact E.
Qed.

Lemma nrows_assign p new df : nrows (assign_at p new df) = nrows df.
Proof. unfold nrows, assign_at. cbn [rows]. apply length_imap. Qed.

(** Two columns that agree cell by cell, in frames of as many rows,
    are the same series. *)
Lemma column_at_ext df df' q q' :
  nrows df' = nrows df ->
  (forall i, at_cell df' i q' = at_cell df i q) ->
  column_at q' df' = column_at q df.
Proof.
  intros Hn H. apply list_eq. intros i. unfold column_at. rewrite !list_lookup_fmap.
  specialize (H i). unfold at_cell in H. unfold nrows in Hn.
  destruct (rows df' !! i) as [r' |] eqn:E1; destruct (rows df !! i) as [r |] eqn:E2; cbn in *.
  - rewrite H. reflexivity.
  - apply lookup_lt_Some in E1. apply lookup_ge_None in E2. lia.
  - apply lookup_ge_None in E1. apply lookup_lt_Some in E2. lia.
  - reflexivity.
Qed.

Lemma convert_column_inv dup conv df col df' :
  convert_column dup conv df col = Ok df' ->
  exists p new, positions col (columns df) = [p] /\ conv (column_at p df) = Ok new /\
                df' = assign_at p new df.
Proof.
  unfold convert_column. intros H.
  destruct (positions col (columns df)) as [| p [| q ps]]; try discriminate.
  destruct (conv (column_at p df)) as [new |] eqn:Ec; cbn [rbind] in H; [| discriminate].
  injection H as <-. exists p, new. split; [reflexivity |]. split; [exact Ec | reflexivity].
Qed.

(** A loop of conversions, column by column, that skips the names [g]
    holds back.  When it goes through, each converted name sits on one
    column, [conv] was given that column as it stood before the loop,
    and every other cell is as it was. *)
Lemma convert_loop (g : string -> bool) dup (conv : string -> list Cell -> Res (list Cell)) xs :
  forall df df',
    xs `sublist_of` columns df ->
    for_each (fun df col => if g col then Ok df else convert_column dup (conv col) df col)
             xs df = Ok df' ->
    columns df' = columns df /\ nrows df' = nrows df /\
    (forall x, x ∈ xs -> g x = false ->
       exists p new,
         positions x (columns df) = [p] /\ conv x (column_at p df) = Ok new /\
         forall i, at_cell df' i p = c ← at_cell df i p; Some (default c (new !! i))) /\
    (forall q, (forall x, x ∈ xs -> g x = false -> columns df !! q <> Some x) ->
               forall i, at_cell df' i q = at_cell df i q).
Proof.
  induction xs as [| x xs IH]; intros df df' Hsub H; cbn [for_each] in H.
  - injection H as <-. repeat split; try reflexivity.
    intros x Hx. apply elem_of_nil in Hx. destruct Hx.
  - assert (Hsub' : xs `sublist_of` columns df).
    { etransitivity; [| exact Hsub]. apply sublist_cons. reflexivity. }
    destruct (g x) eqn:Eg; cbn [rbind] in H.
    + destruct (IH _ _ Hsub' H) as (Hc & Hn & Hconv & Hrest).
      split; [exact Hc |]. split; [exact Hn |]. split.
      * intros y Hy Hgy. apply elem_of_cons in Hy. destruct Hy as [-> | Hy]; [congruence |].
        apply Hconv; assumption.
      * intros q Hq i. apply Hrest. intros y Hy Hgy. apply Hq; [| exact Hgy].
        apply list_elem_of_further. exact Hy.
    + destruct (convert_column dup (conv x) df x) as [df1 |] eqn:Ec; cbn [rbind] in H;
        [| discriminate].
      apply convert_column_inv in Ec. destruct Ec as (p & new & Hp & Hnew & ->).
      destruct (IH (assign_at p new df) df' Hsub' H) as (Hc & Hn & Hconv & Hrest).
      cbn [columns assign_at] in Hc, Hconv, Hrest.
      assert (Hx : x ∉ xs) by exact (once_not_later x xs (columns df) p Hsub Hp).
      assert (Hpx : columns df !! p = Some x).
      { apply elem_of_positions. rewrite Hp. apply list_elem_of_here. }
      split; [exact Hc |]. split; [rewrite Hn; apply nrows_assign |]. split.
      * intros y Hy Hgy. apply elem_of_cons in Hy. destruct Hy as [-> | Hy].
        -- exists p, new. split; [exact Hp |]. split; [exact Hnew |].
           intros i. rewrite Hrest; [apply at_cell_assign_eq |].
           intros z Hz _ Hpz. rewrite Hpx in Hpz. injection Hpz as <-. exact (Hx Hz).
        -- destruct (Hconv y Hy Hgy) as (py & newy & Hpy & Hnewy & Hcell).
           assert (Hne : py <> p).
           { intros ->. assert (Hpy' : columns df !! p = Some y).
             { apply elem_of_positions. rewrite Hpy. apply list_elem_of_here. }
             rewrite Hpx in Hpy'. injection Hpy' as <-. exact (Hx Hy). }
           exists py, newy. split; [exact Hpy |]. split.
           ++ rewrite <- Hnewy. f_equal. symmetry.
              apply column_at_ext; [apply nrows_assign |].
              intros i. apply at_cell_assign_ne. exact Hne.
           ++ intros i. rewrite Hcell, at_cell_assign_ne by exact Hne. reflexivity.
      * intros q Hq i. rewrite Hrest.
        -- apply at_cell_assign_ne. intros ->.
           apply (Hq x); [apply list_elem_of_here | exact Eg | exact Hpx].
        -- intros y Hy Hgy. apply Hq; [| exact Hgy]. apply list_elem_of_further. exact Hy.
Qed.

(** The loop goes through when each name to convert sits on one
    column and [conv] takes that column as it stands before the loop. *)
Lemma convert_loop_Ok (g : string -> bool) dup
    (conv : string -> list Cell -> Res (list Cell)) xs :
  forall df,
    xs `sublist_of` columns df ->
    (forall x, x ∈ xs -> g x = false ->
       exists p new, positions x (columns df) = [p] /\ conv x (column_at p df) = Ok new) ->
    exists df',
      for_each (fun df col => if g col then Ok df else convert_column dup (conv col) df col)
               xs df = Ok df'.
Proof.
  induction xs as [| x xs IH]; intros df Hsub H; cbn [for_each].
  - eexists. reflexivity.
  - assert (Hsub' : xs `sublist_of` columns df).
    { etransitivity; [| exact Hsub]. apply sublist_cons. reflexivity. }
    destruct (g x) eqn:Eg; cbn [rbind].
    + apply IH; [exact Hsub' |]. intros y Hy Hgy. apply H; [| exact Hgy].
      apply list_elem_of_further. exact Hy.
    + destruct (H x (list_elem_of_here _ _) Eg) as (p & new & Hp & Hnew).
      unfold convert_column at 1. rewrite Hp, Hnew. cbn [rbind].
      assert (Hx : x ∉ xs) by exact (once_not_later x xs (columns df) p Hsub Hp).
      assert (Hpx : columns df !! p = Some x).
      { apply elem_of_positions. rewrite Hp. apply list_elem_of_here. }
      apply (IH (assign_at p new df)); [exact Hsub' |]. intros y Hy Hgy.
      destruct (H y (list_elem_of_further _ _ _ Hy) Hgy) as (py & newy & Hpy & Hnewy).
      assert (Hne : py <> p).
      { intros ->. assert (Hpy' : columns df !! p = Some y).
        { apply elem_of_positions. rewrite Hpy. apply list_elem_of_here. }
        rewrite Hpx in Hpy'. injection Hpy' as <-. exact (Hx Hy). }
      exists py, newy. split; [exact Hpy |]. rewrite <- Hnewy. f_equal.
      apply column_at_ext; [apply nrows_assign |].
      intros i. apply at_cell_assign_ne. exact Hne.
Qed.

End Places.

Section Success.
Context {lib : Library}.

(** ** When the operations succeed *)

Lemma for_each_succeeds {A S} (P : S -> Prop) (Q : A -> Prop) (body : S -> A -> Res S) xs :
  (forall s x, P s -> Q x -> exists s', body s x = Ok s' /\ P s') ->
  Forall Q xs ->
  forall s, P s -> exists s', for_each body xs s = Ok s' /\ P s'.
Proof.
  intros Hbody. induction 1 as [| x xs Hx Hxs IH]; intros s Hs; cbn [for_each].
  - exists s. split; [reflexivity | exact Hs].
  - destruct (Hbody s x Hs Hx) as (s1 & -> & Hs1). cbn [rbind]. apply IH. exact Hs1.
Qed.

Lemma filter_absent_nil names cols :
  (forall n, n ∈ names -> inb n cols = true) ->
  filter (fun n => inb n cols = false) names = [].
Proof.
  induction names as [| n names IH]; intros H; [reflexivity |].
  rewrite filter_cons_False.
  - apply IH. intros m Hm. apply H. apply elem_of_cons. right. exact Hm.
  - rewrite H by (apply elem_of_cons; left; reflexivity). discriminate.
Qed.

Lemma drop_columns_Ok names df :
  (forall n, n ∈ names -> inb n (columns df) = true) ->
  exists df', drop_columns names df = Ok df'.
Proof.
  intros H. unfold drop_columns. rewrite (filter_absent_nil _ _ H). eexists. reflexivity.
Qed.

Lemma select_columns_Ok names df :
  (forall n, n ∈ names -> inb n (columns df) = true) ->
  exists df', select_columns names df = Ok df'.
Proof.
  intros H. unfold select_columns. rewrite (filter_absent_nil _ _ H). eexists. reflexivity.
Qed.

Lemma filter_complement_all {A} (P : A -> Prop) `{!forall x, Decision (P x)} (l : list A) :
  filter P l = [] -> filter (fun x => ~ P x) l = l.
Proof.
  induction l as [| x l IH]; [reflexivity |].
  rewrite !filter_cons. destruct (decide (P x)); [discriminate |].
  intros Hf. destruct (decide (~ P x)); [| contradiction]. rewrite IH by exact Hf. reflexivity.
Qed.

(** Lines 101-103: the columns labelled [nan] go, whether or not there
    are any. *)
Lemma nan_drop df :
  exists df',
    match filter (fun c => c = "nan") (columns df) with
    | [] => Ok df
    | _ :: _ => drop_columns (filter (fun c => c = "nan") (columns df)) df
    end = Ok df' /\
    columns df' = filter (fun c => c ≠ "nan") (columns df) /\
    index df' = index df.
Proof.
  destruct (filter (fun c => c = "nan") (columns df)) as [| n ns] eqn:E.
  - exists df. split; [reflexivity |]. split; [| reflexivity].
    symmetry. apply (filter_complement_all (fun c => c = "nan")). exact E.
  - assert (Hnames : forall c, c ∈ n :: ns <-> c = "nan").
    { intros c. rewrite <- E, list_elem_of_filter. split; [intros [H _]; exact H |].
      intros ->. assert (Hn : n ∈ filter (fun c => c = "nan") (columns df))
        by (rewrite E; apply list_elem_of_here).
      apply list_elem_of_filter in Hn. destruct Hn as [-> Hn]. split; [reflexivity | exact Hn]. }
    destruct (drop_columns_Ok (n :: ns) df) as [df' Hd].
    { intros c Hc. apply inb_elem_of. rewrite <- E in Hc.
      apply list_elem_of_filter in Hc. apply Hc. }
    exists df'. split; [exact Hd |].
    apply drop_columns_shape in Hd. destruct Hd as [-> ->]. split; [| reflexivity].
    apply list_filter_iff. intros c.
    rewrite negb_true_iff, <- not_true_iff_false, inb_elem_of, Hnames. reflexivity.
Qed.

Lemma inb_cons name x xs : inb name (x :: xs) = String.eqb name x || inb name xs.
Proof. reflexivity. Qed.

Lemma pick_lookup (f : string -> bool) name : f name = true ->
  forall cols j j' p p',
    positions_from j name cols = [p] ->
    positions_from j' name (pick (f <$> cols) cols) = [p'] ->
    forall cells : list Cell, pick (f <$> cols) cells !! (p' - j')%nat = cells !! (p - j)%nat.
Proof.
  intros Hf. induction cols as [| c cols IH]; intros j j' p p' Hp Hp' cells;
    cbn [positions_from] in Hp; [discriminate |].
  cbn [fmap list_fmap pick] in Hp' |- *.
  destruct (String.eqb_spec c name) as [-> | Hne].
  - injection Hp as <- _. rewrite Hf in Hp' |- *. cbn [positions_from] in Hp'.
    rewrite String.eqb_refl in Hp'. injection Hp' as <- _.
    rewrite !Nat.sub_diag. destruct cells; reflexivity.
  - assert (Hj : (S j <= p)%nat).
    { apply (elem_of_positions_from name cols (S j) p). rewrite Hp. apply list_elem_of_here. }
    replace (p - j)%nat with (S (p - S j)) by lia.
    destruct (f c).
    + cbn [positions_from] in Hp'.
      destruct (String.eqb_spec c name) as [| _]; [contradiction |].
      assert (Hj' : (S j' <= p')%nat).
      { apply (elem_of_positions_from name (pick (f <$> cols) cols) (S j') p').
        rewrite Hp'. apply list_elem_of_here. }
      replace (p' - j')%nat with (S (p' - S j')) by lia.
      destruct cells as [| x cells]; [reflexivity |]. cbn [lookup list_lookup].
      exact (IH _ _ _ _ Hp Hp' cells).
    + destruct cells as [| x cells]; [reflexivity |]. cbn [lookup list_lookup].
      exact (IH _ _ _ _ Hp Hp' cells).
Qed.

Lemma length_positions_pick (f : string -> bool) name cols :
  f name = true ->
  length (positions name (pick (f <$> cols) cols)) = length (positions name cols).
Proof.
  intros Hf. unfold positions.
  rewrite !length_positions_from, pick_fmap, list_filter_filter.
  f_equal. apply list_filter_iff. intros c. split; [intros [Hc _]; exact Hc |].
  intros ->. split; [reflexivity | exact Hf].
Qed.

Lemma cell_drop_columns names df df' i name :
  drop_columns names df = Ok df' -> inb name names = false ->
  cell df' i name = cell df i name.
Proof.
  unfold drop_columns. intros H Hn.
  destruct (filter _ names); [| discriminate]. injection H as <-.
  unfold cell. cbn [columns rows].
  set (f := fun c => negb (inb c names)).
  assert (Hf : f name = true) by (unfold f; rewrite Hn; reflexivity).
  pose proof (length_positions_pick f name (columns df) Hf) as Hlen.
  destruct (positions name (columns df)) as [| p [| p2 ps]] eqn:Ep;
    destruct (positions name (pick (f <$> columns df) (columns df)))
      as [| p' [| p2' ps']] eqn:Ep'; try discriminate Hlen; try reflexivity.
  unfold at_cell. cbn [rows]. rewrite list_lookup_fmap.
  destruct (rows df !! i) as [[l cells] |]; cbn; [| reflexivity].
  pose proof (pick_lookup f name Hf (columns df) 0 0 p p' Ep Ep' cells) as Hl.
  rewrite !Nat.sub_0_r in Hl. exact Hl.
Qed.

Lemma length_positions_filter (P : string -> Prop) `{!forall c, Decision (P c)} name cols :
  P name ->
  length (positions name (filter P cols)) = length (positions name cols).
Proof.
  intros HP. unfold positions. rewrite !length_positions_from, list_filter_filter.
  f_equal. apply list_filter_iff. intros c. split; [intros [Hc _]; exact Hc |].
  intros ->. split; [reflexivity | exact HP].
Qed.

Lemma singleton_positions_filter (P : string -> Prop) `{!forall c, Decision (P c)} name cols p :
  P name -> positions name cols = [p] -> exists q, positions name (filter P cols) = [q].
Proof.
  intros HP Hp. pose proof (length_positions_filter P name cols HP) as Hlen.
  rewrite Hp in Hlen. destruct (positions name (filter P cols)) as [| q [| q2 qs]];
    try discriminate Hlen. exists q. reflexivity.
Qed.

Lemma nan_drop_cells df df' :
  match filter (fun c => c = "nan") (columns df) with
  | [] => Ok df
  | _ :: _ => drop_columns (filter (fun c => c = "nan") (columns df)) df
  end = Ok df' ->
  columns df' = filter (fun c => c ≠ "nan") (columns df) /\
  forall i name, name ≠ "nan" -> cell df' i name = cell df i name.
Proof.
  intros H. destruct (nan_drop df) as (df'' & H' & Hcols & _).
  rewrite H in H'. injection H' as <-. split; [exact Hcols |].
  intros i name Hname.
  destruct (filter (fun c => c = "nan") (columns df)) as [| n ns] eqn:E.
  - injection H as <-. reflexivity.
  - apply cell_drop_columns with (names := n :: ns); [exact H |].
    destruct (inb name (n :: ns)) eqn:Hin; [| reflexivity].
    apply inb_elem_of in Hin. rewrite <- E in Hin. apply list_elem_of_filter in Hin.
    destruct Hin as [Hin _]. contradiction.
Qed.

Lemma inb_app name l1 l2 : inb name (l1 ++ l2) = inb name l1 || inb name l2.
Proof. apply existsb_app. Qed.

Lemma inb_filter name (f : string -> bool) cols :
  inb name (filter (fun c => f c = true) cols) = f name && inb name cols.
Proof.
  destruct (inb name (filter _ cols)) eqn:E.
  - apply inb_elem_of, list_elem_of_filter in E. destruct E as [-> E].
    apply inb_elem_of in E. rewrite E. reflexivity.
  - destruct (f name) eqn:Ef; [| reflexivity]. destruct (inb name cols) eqn:Ei; [| reflexivity].
    exfalso. apply not_true_iff_false in E. apply E. apply inb_elem_of.
    apply list_elem_of_filter. split; [exact Ef | apply inb_elem_of; exact Ei].
Qed.

Lemma nan_drop_at df df' name p p' i :
  match filter (fun c => c = "nan") (columns df) with
  | [] => Ok df
  | _ :: _ => drop_columns (filter (fun c => c = "nan") (columns df)) df
  end = Ok df' ->
  name ≠ "nan" ->
  positions name (columns df) = [p] -> positions name (columns df') = [p'] ->
  at_cell df' i p' = at_cell df i p.
Proof.
  intros H Hname Hp Hp'. apply nan_drop_cells in H. destruct H as [_ H].
  specialize (H i name Hname). unfold cell in H. rewrite Hp, Hp' in H. exact H.
Qed.

Lemma converts_date df name p :
  converts df name = true -> contains "date" name = true ->
  positions name (columns (data_block df)) = [p] ->
  exists new, to_day (kind_in (typed_block df) name) (column_at p (data_block df)) = Ok new.
Proof.
  unfold converts, column. intros H Hd Hp. rewrite Hd, Hp in H.
  destruct (to_day _ _) as [new |]; [exists new; reflexivity | discriminate H].
Qed.

Lemma converts_number df name p :
  converts df name = true -> contains "date" name = false ->
  name ≠ "nan" -> inb name text_columns = false ->
  positions name (columns (data_block df)) = [p] ->
  exists new, to_numeric (kind_in (typed_block df) name) (column_at p (data_block df)) = Ok new.
Proof.
  unfold converts, column. intros H Hd Hn Ht Hp. rewrite Hd, Hp, Ht in H.
  destruct (String.eqb_spec name "nan") as [| _]; [contradiction |]. cbn [orb] in H.
  destruct (to_numeric _ _) as [new |]; [exists new; reflexivity | discriminate H].
Qed.

(** A name of the block that is not one of the two text columns, nor
    empty, sits on one column. *)
Lemma names_fit_once block name :
  names_fit block -> name ∈ block -> name ≠ "nan" -> inb name text_columns = false ->
  exists p, positions name block = [p].
Proof.
  intros Hfit Hin Hn Ht. unfold names_fit in Hfit. rewrite Forall_forall in Hfit.
  destruct (Hfit name Hin) as [-> | [Hc | Ho]]; [contradiction | |].
  - apply inb_elem_of in Hc. congruence.
  - apply once_singleton. exact Ho.
Qed.

Lemma date_not_plain name :
  contains "date" name = true -> name ≠ "nan" /\ inb name text_columns = false.
Proof.
  intros Hd. split.
  - intros ->. vm_compute in Hd. discriminate.
  - destruct (inb name text_columns) eqn:E; [| reflexivity].
    apply inb_elem_of in E. unfold text_columns in E.
    repeat (apply elem_of_cons in E; destruct E as [-> | E]);
      try (vm_compute in Hd; discriminate). apply elem_of_nil in E. destruct E.
Qed.

(** The wide table comes out of a sheet whose names fit and whose
    columns convert. *)
Lemma clean_wide_Ok df :
  names_fit (slice 1 50 (columns df)) ->
  Forall (fun c => converts df c = true) (slice 1 50 (columns df)) ->
  exists wide,
    clean_wide df = Ok wide /\
    columns wide = filter (fun c => c ≠ "nan") (slice 1 50 (columns df)).
Proof.
  intros Hfit Hconv. rewrite Forall_forall in Hconv. unfold clean_wide.
  fold (typed_block df). fold (data_block df).
  set (typed := typed_block df). set (df1 := data_block df).
  set (block := slice 1 50 (columns df)) in *.
  assert (H1 : columns df1 = block) by reflexivity.
  rewrite H1.
  set (date_columns := filter (fun c => contains "date" c = true) block).
  assert (Hsub : date_columns `sublist_of` columns df1).
  { rewrite H1. apply sublist_filter. }
  destruct (convert_loop_Ok (fun _ => false) ValueError
              (fun col => to_day (kind_in typed col)) date_columns df1 Hsub) as [df2 E2].
  { intros x Hx _. apply list_elem_of_filter in Hx. destruct Hx as [Hd Hin].
    destruct (date_not_plain x Hd) as [Hn Ht].
    destruct (names_fit_once block x Hfit Hin Hn Ht) as [p Hp].
    destruct (converts_date df x p (Hconv x Hin) Hd Hp) as [new Hnew].
    exists p, new. split; [exact Hp | exact Hnew]. }
  match goal with |- context [rbind ?r _] => replace r with (Ok df2) by (symmetry; exact E2) end.
  cbn [rbind].
  destruct (convert_loop (fun _ => false) ValueError (fun col => to_day (kind_in typed col))
              date_columns df1 df2 Hsub E2) as (C2 & N2 & _ & R2).
  destruct (nan_drop df2) as (df3 & Hdrop & C3 & I3). rewrite Hdrop. cbn [rbind].
  rewrite C2, H1 in C3. rewrite C3.
  set (cols := filter (fun c => c ≠ "nan") block) in *.
  assert (Hsub3 : cols `sublist_of` columns df3) by (rewrite C3; reflexivity).
  destruct (convert_loop_Ok (fun col => inb col (date_columns ++ ["tank_name"; "product"])%list)
              TypeError (fun col => to_numeric (kind_in typed col)) cols df3 Hsub3)
    as [wide Hw].
  { intros x Hx Hex. apply list_elem_of_filter in Hx. destruct Hx as [Hn Hin].
    rewrite inb_app in Hex. apply orb_false_iff in Hex. destruct Hex as [Hdc Ht].
    unfold date_columns in Hdc. rewrite inb_filter in Hdc.
    assert (Hd : contains "date" x = false).
    { apply inb_elem_of in Hin. rewrite Hin, andb_true_r in Hdc. exact Hdc. }
    destruct (names_fit_once block x Hfit Hin Hn Ht) as [p Hp].
    destruct (singleton_positions_filter (fun c => c ≠ "nan") x block p Hn Hp) as [q Hq].
    destruct (converts_number df x p (Hconv x Hin) Hd Hn Ht Hp) as [new Hnew].
    exists q, new. split; [rewrite C3; exact Hq |].
    rewrite <- Hnew. f_equal. transitivity (column_at p df2).
    - apply column_at_ext.
      + rewrite !nrows_index, I3. reflexivity.
      + intros i. apply (nan_drop_at df2 df3 x p q i Hdrop Hn).
        * rewrite C2, H1. exact Hp.
        * rewrite C3. exact Hq.
    - apply column_at_ext; [exact N2 |]. intros i. apply R2.
      intros y Hy _ Hpy.
      assert (Hpx : columns df1 !! p = Some x).
      { apply elem_of_positions. rewrite H1, Hp. apply list_elem_of_here. }
      rewrite Hpx in Hpy. injection Hpy as <-.
      apply list_elem_of_filter in Hy. destruct Hy as [Hy _]. congruence. }
  exists wide. split; [exact Hw |].
  destruct (convert_loop _ _ _ _ df3 wide Hsub3 Hw) as (C4 & _). rewrite C4. exact C3.
Qed.


Lemma cell_ext df df' i name :
  columns df' = columns df ->
  (forall q, columns df !! q = Some name -> at_cell df' i q = at_cell df i q) ->
  cell df' i name = cell df i name.
Proof.
  intros Hc H. unfold cell. rewrite Hc.
  destruct (positions name (columns df)) as [| q [| q2 qs]] eqn:E; try reflexivity.
  apply H. apply elem_of_positions. rewrite E. apply list_elem_of_here.
Qed.

Lemma text_not_date name : inb name text_columns = true -> contains "date" name = false.
Proof.
  intros H. apply inb_elem_of in H. unfold text_columns in H.
  repeat (apply elem_of_cons in H; destruct H as [-> | H]; [reflexivity |]).
  apply elem_of_nil in H. destruct H.
Qed.

(** What [clean_wide] makes of the data block.  The columns with an
    empty header go.  A column named after a date holds what
    [to_datetime] and [dt.floor] return on the column of the block;
    the two text columns stay as read; every other column holds what
    [to_numeric] returns on the column of the block.  Each conversion
    is given the dtype the column was read with. *)
Lemma clean_wide_columns named wide :
  clean_wide named = Ok wide ->
  columns wide = filter (fun c => c ≠ "nan") (columns (data_block named)) /\
  nrows wide = nrows (data_block named) /\
  forall name, name ∈ columns wide ->
    (inb name text_columns = false -> exists p, positions name (columns wide) = [p]) /\
    if contains "date" name then
      exists new,
        to_day (kind_in (typed_block named) name) (column (data_block named) name) = Ok new /\
        forall i, cell wide i name =
                  c ← cell (data_block named) i name; Some (default c (new !! i))
    else if inb name text_columns then
      forall i, cell wide i name = cell (data_block named) i name
    else
      exists new,
        to_numeric (kind_in (typed_block named) name) (column (data_block named) name) = Ok new /\
        forall i, cell wide i name =
                  c ← cell (data_block named) i name; Some (default c (new !! i)).
Proof.
  unfold clean_wide. fold (typed_block named). fold (data_block named).
  set (typed := typed_block named). set (df1 := data_block named). intros H.
  destruct (for_each _ _ df1) as [df2 |] eqn:E2; cbn [rbind] in H; [| discriminate].
  match type of H with rbind ?r _ = _ => destruct r as [df3 |] eqn:E3 end;
    cbn [rbind] in H; [| discriminate].
  set (block := columns df1) in *.
  set (dcs := filter (fun c => contains "date" c = true) block) in *.
  assert (Hsub : dcs `sublist_of` columns df1) by apply sublist_filter.
  destruct (convert_loop (fun _ => false) ValueError (fun col => to_day (kind_in typed col))
              dcs df1 df2 Hsub E2) as (C2 & N2 & V2 & R2).
  fold block in C2.
  destruct (nan_drop df2) as (df3' & E3' & C3 & I3). rewrite E3 in E3'.
  injection E3' as <-. rewrite C2 in C3.
  pose proof (nan_drop_cells df2 df3 E3) as [_ Cell3].
  set (cols := filter (fun c => c ≠ "nan") block) in *.
  assert (Hsub3 : columns df3 `sublist_of` columns df3) by reflexivity.
  destruct (convert_loop (fun col => inb col (dcs ++ ["tank_name"; "product"])%list) TypeError
              (fun col => to_numeric (kind_in typed col)) (columns df3) df3 wide Hsub3 H)
    as (C4 & N4 & V4 & R4).
  rewrite C3 in C4.
  split; [exact C4 |]. split; [rewrite N4, !nrows_index, I3, <- !nrows_index; exact N2 |].
  intros name Hin. rewrite C4 in Hin.
  pose proof Hin as Hin'. apply list_elem_of_filter in Hin'. destruct Hin' as [Hnan Hin1].
  assert (Hdcs : inb name dcs = contains "date" name).
  { unfold dcs. rewrite inb_filter. apply inb_elem_of in Hin1. rewrite Hin1.
    apply andb_true_r. }
  assert (Hexcl : inb name (dcs ++ ["tank_name"; "product"]) =
                  contains "date" name || inb name text_columns).
  { rewrite inb_app, Hdcs. reflexivity. }
  assert (Hkept : forall q, columns df3 !! q = Some name ->
                  contains "date" name || inb name text_columns = true ->
                  forall i, at_cell wide i q = at_cell df3 i q).
  { intros q Hq Hex. apply R4. intros y _ Hgy Hy. rewrite Hq in Hy. injection Hy as <-.
    rewrite Hexcl in Hgy. congruence. }
  destruct (contains "date" name) eqn:Ed.
  - assert (Hd : name ∈ dcs) by (apply inb_elem_of; exact Hdcs).
    destruct (V2 name Hd eq_refl) as (p & new & Hp & Hnew & Hcell). fold block in Hp.
    destruct (singleton_positions_filter (fun c => c ≠ "nan") name block p Hnan Hp) as [q Hq].
    fold cols in Hq. split; [intros _; exists q; rewrite C4; exact Hq |].
    exists new. split.
    + unfold column. fold block. rewrite Hp. exact Hnew.
    + intros i. unfold cell. fold block. rewrite C4, Hq, Hp.
      rewrite Hkept; [| apply elem_of_positions; rewrite C3, Hq; apply list_elem_of_here
                       | reflexivity].
      rewrite (nan_drop_at df2 df3 name p q i E3 Hnan); [exact (Hcell i) | |].
      * rewrite C2. exact Hp.
      * rewrite C3. exact Hq.
  - destruct (inb name text_columns) eqn:Et.
    + split; [discriminate |]. intros i.
      transitivity (cell df3 i name).
      { apply cell_ext; [rewrite C3; exact C4 |]. intros q Hq. apply Hkept; [exact Hq |].
        reflexivity. }
      rewrite (Cell3 i name Hnan).
      apply cell_ext; [exact C2 |]. intros q Hq. apply R2.
      intros y Hy _ Hqy. pose proof (eq_trans (eq_sym Hq) Hqy) as Heq. injection Heq as <-.
      apply inb_elem_of in Hy. congruence.
    + destruct (V4 name) as (q & new & Hq & Hnew & Hcell).
      { rewrite C3. exact Hin. }
      { rewrite Hexcl. reflexivity. }
      rewrite C3 in Hq. split; [intros _; exists q; rewrite C4; exact Hq |].
      pose proof (length_positions_filter (fun c => c ≠ "nan") name block Hnan) as Hlen.
      fold cols in Hlen. rewrite Hq in Hlen.
      destruct (positions name block) as [| p [| p2 ps]] eqn:Hp; try discriminate Hlen.
      assert (Hat : forall i, at_cell df3 i q = at_cell df1 i p).
      { intros i. rewrite (nan_drop_at df2 df3 name p q i E3 Hnan).
        - apply R2. intros y Hy _ Hpy.
          assert (Hpx : columns df1 !! p = Some name).
          { apply elem_of_positions. fold block. rewrite Hp. apply list_elem_of_here. }
          pose proof (eq_trans (eq_sym Hpx) Hpy) as Heq. injection Heq as <-.
          apply inb_elem_of in Hy. congruence.
        - rewrite C2. exact Hp.
        - rewrite C3. exact Hq. }
      exists new. split.
      * unfold column. fold block. rewrite Hp. rewrite <- Hnew. f_equal. symmetry.
        apply column_at_ext; [| exact Hat].
        rewrite !nrows_index, I3, <- !nrows_index. exact N2.
      * intros i. unfold cell. fold block. rewrite C4, Hq, Hp, Hcell, Hat. reflexivity.
Qed.

(** Lines 93 and 101-103 on the labels: the cleaned wide table carries,
    in their order, the names of the columns 1 to 49 that are not
    [nan]. *)
Lemma wide_columns named wide :
  clean_wide named = Ok wide ->
  columns wide = filter (fun c => c ≠ "nan") (slice 1 50 (columns named)).
Proof.
  intros H. destruct (clean_wide_columns _ _ H) as [Hc _]. exact Hc.
Qed.

(** A name of the wide table other than the two text columns sits on
    one column. *)
Lemma wide_once named wide name :
  clean_wide named = Ok wide -> name ∈ columns wide -> inb name text_columns = false ->
  exists p, positions name (columns wide) = [p].
Proof.
  intros H Hin Ht. destruct (clean_wide_columns _ _ H) as (_ & _ & Hn).
  destruct (Hn name Hin) as [Hp _]. exact (Hp Ht).
Qed.

End Success.


(** ** The four tables, cut from the wide table *)

Section Cuts.
Context {lib : Library}.

Lemma lookup_slice {A} a b (l : list A) q :
  (q < b - a)%nat -> slice a b l !! q = l !! (a + q)%nat.
Proof.
  intros H. unfold slice. rewrite lookup_take_lt by exact H. apply lookup_drop.
Qed.

Lemma at_places_slice {A} a b qs (l : list A) :
  Forall (fun q => (q < b - a)%nat) qs ->
  at_places qs (slice a b l) = at_places ((fun q => (a + q)%nat) <$> qs) l.
Proof.
  unfold at_places. induction 1 as [| q qs Hq _ IH]; [reflexivity |].
  cbn [omap list_omap fmap list_fmap]. rewrite lookup_slice by exact Hq.
  fold (@fmap list _ nat nat (fun q => (a + q)%nat) qs).
  fold (@omap list _ nat A (fun p => slice a b l !! p) qs).
  fold (@omap list _ nat A (fun p => l !! p) ((fun q => (a + q)%nat) <$> qs)).
  rewrite IH. reflexivity.
Qed.

Lemma at_places_nil {A} ps : at_places ps (@nil A) = [].
Proof. unfold at_places. induction ps as [| p ps IH]; [reflexivity |]. cbn. exact IH. Qed.

Lemma at_places_S {A} ps (x : A) l : at_places (S <$> ps) (x :: l) = at_places ps l.
Proof.
  unfold at_places. induction ps as [| p ps IH]; [reflexivity |].
  cbn [omap list_omap fmap list_fmap lookup list_lookup].
  fold (@fmap list _ nat nat S ps).
  fold (@omap list _ nat A (fun p => (x :: l) !! p) (S <$> ps)).
  fold (@omap list _ nat A (fun p => l !! p) ps).
  rewrite IH. reflexivity.
Qed.

(** Keeping the cells under a mask is taking the cells at some places. *)
Lemma pick_at_places (mask : list bool) :
  exists ps, Forall (fun p => (p < length mask)%nat) ps /\
             forall A (l : list A), pick mask l = at_places ps l.
Proof.
  induction mask as [| m mask (ps & Hps & IH)].
  - exists []. split; [constructor |]. intros A l. destruct l; reflexivity.
  - exists ((if m then [0%nat] else []) ++ (S <$> ps))%list. split.
    + apply Forall_app. split.
      { destruct m; [apply Forall_cons; split; [cbn; lia | constructor] | constructor]. }
      apply Forall_fmap. eapply Forall_impl; [exact Hps |]. intros p Hp.
      unfold compose. cbn beta in Hp. cbn [length]. lia.
    + intros A [| x l].
      * rewrite at_places_nil. destruct m; reflexivity.
      * cbn [pick]. unfold at_places. rewrite omap_app.
        fold (at_places (S <$> ps) (x :: l)). rewrite at_places_S, <- IH.
        destruct m; reflexivity.
Qed.

Lemma rows_dropna_iloc a b df :
  rows (dropna_all (iloc_cols a b df)) =
  prod_map id (slice a b) <$>
    filter (fun r => existsb notna (slice a b r.2) = true) (rows df).
Proof. unfold dropna_all, iloc_cols. cbn [rows]. apply filter_fmap. Qed.

(** A frame made of some places of the columns [a, b), with the rows
    that are not null there, is cut from the wide table. *)
Lemma cut_at_places a b old wide qs table :
  Forall (fun q => (q < b - a)%nat) qs ->
  columns table =
    (fun c => if String.eqb c old then "date" else c) <$>
      at_places qs (slice a b (columns wide)) ->
  rows table = prod_map id (at_places qs) <$> rows (dropna_all (iloc_cols a b wide)) ->
  cut a b old wide table.
Proof.
  intros Hlt Hc Hr.
  exists ((fun q => (a + q)%nat) <$> qs). split; [| split].
  - apply Forall_fmap. eapply Forall_impl; [exact Hlt |]. intros q Hq.
    unfold compose. cbn beta in Hq |- *. lia.
  - rewrite Hc, at_places_slice by exact Hlt. reflexivity.
  - rewrite Hr, rows_dropna_iloc, <- list_fmap_compose.
    apply list_fmap_ext. intros _ [label cells] _. cbn.
    rewrite at_places_slice by exact Hlt. reflexivity.
Qed.

Lemma at_places_all {A} (l : list A) : at_places (seq 0 (length l)) l = l.
Proof.
  induction l as [| x l IH]; [reflexivity |].
  cbn [length seq]. unfold at_places. cbn [omap list_omap lookup list_lookup].
  rewrite <- fmap_S_seq. fold (at_places (S <$> seq 0 (length l)) (x :: l)).
  rewrite at_places_S, IH. reflexivity.
Qed.

Lemma at_places_short {A} n (l : list A) :
  (length l <= n)%nat -> at_places (seq 0 n) l = l.
Proof.
  intros H. replace n with (length l + (n - length l))%nat by lia.
  rewrite seq_app. unfold at_places. rewrite omap_app.
  fold (at_places (seq 0 (length l)) l). rewrite at_places_all.
  assert (Hnone : forall m k, (length l <= k)%nat -> omap (fun p => l !! p) (seq k m) = []).
  { induction m as [| m IHm]; intros k Hk; [reflexivity |]. cbn [seq omap list_omap].
    rewrite (proj2 (lookup_ge_None l k)) by lia. apply IHm. lia. }
  rewrite Hnone by lia. apply app_nil_r.
Qed.

(** Each table [split_tables] returns is cut from its range of the
    wide table. *)
Lemma split_tables_cut wide t :
  split_tables wide = Ok t ->
  cut 0 11 "date_1" wide (liquid_hydrocarbons_cached t) /\
  cut 12 24 "date_2" wide (gas_production t) /\
  cut 27 35 "date_3" wide (tank_data t) /\
  cut 35 38 "date_4" wide (daily_lifting_data t).
Proof.
  unfold split_tables, lhc_slice, gp_slice, td_slice, dld_slice. intros H.
  destruct (drop_columns _ _) as [lhc |] eqn:E1; cbn [rbind] in H; [| discriminate].
  destruct (select_columns gp_columns _) as [gp |] eqn:E2; cbn [rbind] in H; [| discriminate].
  destruct (select_columns td_columns _) as [td |] eqn:E3; cbn [rbind] in H; [| discriminate].
  injection H as <-.
  cbn [liquid_hydrocarbons_cached gas_production tank_data daily_lifting_data].
  assert (Hlen : forall a b, (length (slice a b (columns wide)) <= b - a)%nat).
  { intros a b. unfold slice. rewrite length_take. lia. }
  assert (Hsel : forall a b names old df,
            select_columns names (dropna_all (iloc_cols a b wide)) = Ok df ->
            cut a b old wide (rename old "date" df)).
  { intros a b names old df E. unfold select_columns in E.
    destruct (filter _ names); [| discriminate]. injection E as <-.
    eapply cut_at_places; [| reflexivity | reflexivity].
    apply Forall_forall. intros q Hq.
    apply list_elem_of_bind in Hq. destruct Hq as (n & Hq & _).
    apply elem_of_positions in Hq. apply lookup_lt_Some in Hq.
    cbn [columns dropna_all iloc_cols] in Hq. specialize (Hlen a b). lia. }
  split; [| split; [exact (Hsel _ _ _ _ _ E2) | split; [exact (Hsel _ _ _ _ _ E3) |]]].
  - unfold drop_columns in E1. destruct (filter _ lhc_columns_to_delete); [| discriminate].
    injection E1 as <-. cbn [columns dropna_all iloc_cols].
    match goal with
    | |- context [pick ?m _] => destruct (pick_at_places m) as (qs & Hqs & Hpick)
    end.
    apply (cut_at_places 0 11 "date_1" wide qs).
    + eapply Forall_impl; [exact Hqs |]. intros q Hq. cbn beta in Hq |- *.
      rewrite length_fmap in Hq. specialize (Hlen 0%nat 11%nat). lia.
    + unfold rename. cbn [columns]. rewrite Hpick. reflexivity.
    + unfold rename. cbn [rows]. apply list_fmap_ext. intros _ [label cells] _. cbn.
      rewrite Hpick. reflexivity.
  - apply (cut_at_places 35 38 "date_4" wide (seq 0 3)).
    + apply Forall_forall. intros q Hq. apply elem_of_seq in Hq. lia.
    + unfold rename. cbn [columns dropna_all iloc_cols].
      rewrite at_places_short by apply Hlen. reflexivity.
    + unfold rename. cbn [rows].
      rewrite <- (list_fmap_id (rows (dropna_all (iloc_cols 35 38 wide)))) at 1.
      apply list_fmap_ext. intros i [label cells] Hin.
      unfold prod_map, id. cbn [fst snd]. f_equal. symmetry.
      apply at_places_short.
      rewrite rows_dropna_iloc in Hin. apply list_lookup_fmap_Some in Hin.
      destruct Hin as ([label' cells'] & Heq & _).
      unfold prod_map in Heq. cbn [fst snd] in Heq. injection Heq as _ ->.
      unfold slice. rewrite length_take. lia.
Qed.

End Cuts.


Section Tables.
Context {lib : Library}.

(** ** The columns of the four tables *)

Lemma select_columns_elem names df df' :
  select_columns names df = Ok df' ->
  forall c, c ∈ columns df' <-> c ∈ names.
Proof.
  intros H c. apply select_columns_shape in H. destruct H as (-> & _ & Hin).
  unfold at_places. rewrite list_elem_of_omap. split.
  - intros (p & Hp & Hc). apply list_elem_of_bind in Hp. destruct Hp as (n & Hp & Hn).
    apply elem_of_positions in Hp. congruence.
  - intros Hc. pose proof (Hin c Hc) as Hcols. apply inb_elem_of in Hcols.
    apply list_elem_of_lookup in Hcols. destruct Hcols as [p Hp].
    exists p. split; [| exact Hp].
    apply list_elem_of_bind. exists c. split; [| exact Hc].
    apply elem_of_positions. exact Hp.
Qed.

Lemma elem_of_renamed old new (cols names : list string) :
  (forall c, c ∈ cols <-> c ∈ names) ->
  forall c, c ∈ ((fun c => if String.eqb c old then new else c) <$> cols) <->
            c ∈ ((fun c => if String.eqb c old then new else c) <$> names).
Proof.
  intros H c. rewrite !list_elem_of_fmap.
  split; intros (x & -> & Hx); exists x; (split; [reflexivity | apply H; exact Hx]).
Qed.

(** What [split_tables] returns carries these columns. *)
Lemma split_tables_columns wide t :
  split_tables wide = Ok t ->
  columns (liquid_hydrocarbons_cached t) =
    (fun c => if String.eqb c "date_1" then "date" else c) <$>
      filter (fun c => c ∉ lhc_columns_to_delete) (slice 0 11 (columns wide)) /\
  (forall c, c ∈ columns (gas_production t) <->
             c ∈ ["date"; "ampco_gas_sales"; "eglng_gas_sales"; "gas_sales"; "offshore_gas"]) /\
  (forall c, c ∈ columns (tank_data t) <->
             c ∈ ["date"; "tank_name"; "standard_net_oil_volume_(bbls)"]) /\
  columns (daily_lifting_data t) =
    (fun c => if String.eqb c "date_4" then "date" else c) <$> slice 35 38 (columns wide).
Proof.
  unfold split_tables, lhc_slice, gp_slice, td_slice, dld_slice. intros H.
  destruct (drop_columns _ _) as [lhc |] eqn:E1; cbn [rbind] in H; [| discriminate].
  destruct (select_columns gp_columns _) as [gp |] eqn:E2; cbn [rbind] in H; [| discriminate].
  destruct (select_columns td_columns _) as [td |] eqn:E3; cbn [rbind] in H; [| discriminate].
  injection H as <-.
  cbn [liquid_hydrocarbons_cached gas_production tank_data daily_lifting_data].
  split; [| split; [| split]].
  - apply drop_columns_shape in E1. destruct E1 as [E1 _].
    unfold rename. cbn [columns]. rewrite E1. f_equal.
    apply list_filter_iff. intros c.
    rewrite negb_true_iff, <- not_true_iff_false, inb_elem_of. reflexivity.
  - apply (elem_of_renamed "date_2" "date" (columns gp) gp_columns).
    apply select_columns_elem with (df := dropna_all (iloc_cols 12 24 wide)). exact E2.
  - apply (elem_of_renamed "date_3" "date" (columns td) td_columns).
    apply select_columns_elem with (df := dropna_all (iloc_cols 27 35 wide)). exact E3.
  - reflexivity.
Qed.

Lemma split_tables_Ok wide :
  (forall n, n ∈ lhc_columns_to_delete -> inb n (slice 0 11 (columns wide)) = true) ->
  (forall n, n ∈ gp_columns -> inb n (slice 12 24 (columns wide)) = true) ->
  (forall n, n ∈ td_columns -> inb n (slice 27 35 (columns wide)) = true) ->
  exists t, split_tables wide = Ok t.
Proof.
  intros H1 H2 H3. unfold split_tables, lhc_slice, gp_slice, td_slice, dld_slice.
  destruct (drop_columns_Ok lhc_columns_to_delete (dropna_all (iloc_cols 0 11 wide)) H1)
    as [lhc ->].
  destruct (select_columns_Ok gp_columns (dropna_all (iloc_cols 12 24 wide)) H2) as [gp ->].
  destruct (select_columns_Ok td_columns (dropna_all (iloc_cols 27 35 wide)) H3) as [td ->].
  cbn [rbind]. eexists. reflexivity.
Qed.

Lemma forallb_elem_of {A} (f : A -> bool) (l : list A) :
  forallb f l = true -> forall x, x ∈ l -> f x = true.
Proof.
  rewrite forallb_forall. intros H x Hx. apply H. apply list_elem_of_In. exact Hx.
Qed.

(** A well-formed sheet goes through the computation on frames. *)
Lemma well_formed_tables sheet :
  well_formed sheet = true ->
  exists header names named wide t,
    iloc_row 1 sheet = Ok header /\ derive_column_names header = Ok names /\
    set_columns names sheet = Ok named /\ clean_wide named = Ok wide /\
    split_tables wide = Ok t /\ wide_of sheet = Ok wide /\
    (38 <= ncols wide)%nat.
Proof.
  intros H. unfold well_formed in H.
  destruct (iloc_row 1 sheet) as [header |] eqn:E1; [| discriminate].
  destruct (derive_column_names header) as [names |] eqn:E2; [| discriminate].
  apply andb_prop in H. destruct H as [H H38].
  apply andb_prop in H. destruct H as [H Htd].
  apply andb_prop in H. destruct H as [H Hgp].
  apply andb_prop in H. destruct H as [H Hlhc].
  apply andb_prop in H. destruct H as [H Hconv].
  apply andb_prop in H. destruct H as [Hlen Hfit].
  assert (E3 : set_columns names sheet = Ok (mkDF names (rows sheet))).
  { unfold set_columns. rewrite Hlen. reflexivity. }
  destruct (clean_wide_Ok (mkDF names (rows sheet))) as (wide & E4 & Hcols).
  { unfold names_fit. cbn [columns]. apply Forall_forall. intros c Hc.
    pose proof (forallb_elem_of _ _ Hfit c Hc) as Hf.
    apply orb_prop in Hf. destruct Hf as [Hf | Hf]; [apply orb_prop in Hf; destruct Hf as [Hf | Hf] |].
    - left. apply String.eqb_eq. exact Hf.
    - right. left. apply inb_elem_of. exact Hf.
    - right. right. exact Hf. }
  { cbn [columns]. apply Forall_forall. intros c Hc. exact (forallb_elem_of _ _ Hconv c Hc). }
  cbn [columns] in Hcols.
  destruct (split_tables_Ok wide) as [t E5].
  { rewrite Hcols. apply forallb_elem_of. exact Hlhc. }
  { rewrite Hcols. apply forallb_elem_of. exact Hgp. }
  { rewrite Hcols. apply forallb_elem_of. exact Htd. }
  exists header, names, (mkDF names (rows sheet)), wide, t.
  repeat split; try assumption || reflexivity.
  - unfold wide_of. rewrite E1. cbn [rbind]. rewrite E2. cbn [rbind].
    rewrite E3. cbn [rbind]. exact E4.
  - unfold ncols. rewrite Hcols. apply Nat.leb_le. exact H38.
Qed.

Lemma transform_runs w r sheet header names named wide t :
  heap w !! r = Some sheet ->
  iloc_row 1 sheet = Ok header -> derive_column_names header = Ok names ->
  set_columns names sheet = Ok named -> clean_wide named = Ok wide ->
  split_tables wide = Ok t ->
  Forall (fun p => p ∉ locked w) processed_paths ->
  exists w', transform (Some (mkDict (Some r))) w = (Ok (Some t), w').
Proof.
  intros Hr E1 E2 E3 E4 E5 Hp.
  unfold processed_paths in Hp. cbn [fmap list_fmap] in Hp.
  apply Forall_cons in Hp. destruct Hp as [P1 Hp].
  apply Forall_cons in Hp. destruct Hp as [P2 Hp].
  apply Forall_cons in Hp. destruct Hp as [P3 Hp].
  apply Forall_cons in Hp. destruct Hp as [P4 _].
  unfold transform, try_except, bind, lift, ret, deref, store, logger_info,
    logger_shape, logger_error, to_csv, getitem, getattr.
  cbn. rewrite Hr. cbn. rewrite E1. cbn. rewrite E2. cbn. rewrite E3. cbn.
  rewrite E4. cbn. rewrite E5. cbn.
  repeat (destruct (decide _) as [? | _]; [contradiction |]; cbn).
  eexists. reflexivity.
Qed.

Lemma length_filter_take {A} (P : A -> Prop) `{!forall x, Decision (P x)} n (l : list A) :
  (length (filter P (take n l)) <= length (filter P l))%nat.
Proof.
  rewrite <- (take_drop n l) at 2. rewrite filter_app, length_app. lia.
Qed.

Lemma length_filter_drop {A} (P : A -> Prop) `{!forall x, Decision (P x)} n (l : list A) :
  (length (filter P (drop n l)) <= length (filter P l))%nat.
Proof.
  rewrite <- (take_drop n l) at 2. rewrite filter_app, length_app. lia.
Qed.

Lemma length_positions_slice name a b cols :
  (length (positions name (slice a b cols)) <= length (positions name cols))%nat.
Proof.
  unfold positions, slice. rewrite !length_positions_from.
  etransitivity; [apply length_filter_take | apply length_filter_drop].
Qed.

(** A label that sits on one column of the frame and occurs in a
    slice sits on one column of the slice. *)
Lemma singleton_positions_slice name a b cols p :
  positions name cols = [p] -> name ∈ slice a b cols ->
  exists q, positions name (slice a b cols) = [q] /\ slice a b cols !! q = Some name.
Proof.
  intros Hp Hin. pose proof (length_positions_slice name a b cols) as Hle. rewrite Hp in Hle.
  apply list_elem_of_lookup in Hin. destruct Hin as [q Hq].
  apply elem_of_positions in Hq.
  destruct (positions name (slice a b cols)) as [| q1 [| q2 qs]] eqn:E.
  - apply elem_of_nil in Hq. destruct Hq.
  - exists q1. split; [reflexivity |]. apply elem_of_positions. rewrite E. apply list_elem_of_here.
  - cbn in Hle. lia.
Qed.

Lemma at_places_singletons (names cols : list string) :
  (forall n, n ∈ names -> exists q, positions n cols = [q] /\ cols !! q = Some n) ->
  at_places (names ≫= fun n => positions n cols) cols = names.
Proof.
  induction names as [| n names IH]; intros H; [reflexivity |].
  rewrite bind_cons. unfold at_places. rewrite omap_app.
  destruct (H n) as (q & -> & Hq); [apply list_elem_of_here |].
  cbn [omap list_omap]. rewrite Hq. cbn [app]. f_equal.
  apply IH. intros m Hm. apply H. apply list_elem_of_further. exact Hm.
Qed.

Lemma at_places_positions (name : string) (cols : list string) :
  at_places (positions name cols) cols = replicate (length (positions name cols)) name.
Proof.
  assert (H : forall ps, (forall p, p ∈ ps -> cols !! p = Some name) ->
                         at_places ps cols = replicate (length ps) name).
  { induction ps as [| p ps IH]; intros Hp; [reflexivity |].
    unfold at_places. cbn [omap list_omap length replicate].
    rewrite (Hp p) by apply list_elem_of_here. f_equal.
    apply IH. intros q Hq. apply Hp, list_elem_of_further, Hq. }
  apply H. intros p Hp. apply elem_of_positions. exact Hp.
Qed.

(** The gas table has exactly the five gas columns, in the order of
    the selection. *)
Lemma gas_columns_exact named wide t :
  clean_wide named = Ok wide -> split_tables wide = Ok t ->
  columns (gas_production t) =
    ["date"; "ampco_gas_sales"; "eglng_gas_sales"; "gas_sales"; "offshore_gas"].
Proof.
  intros E4 E5.
  unfold split_tables, lhc_slice, gp_slice, td_slice, dld_slice in E5.
  destruct (drop_columns _ _) as [lhc |]; cbn [rbind] in E5; [| discriminate].
  destruct (select_columns gp_columns _) as [gp |] eqn:E2; cbn [rbind] in E5; [| discriminate].
  destruct (select_columns td_columns _) as [td |]; cbn [rbind] in E5; [| discriminate].
  injection E5 as <-. cbn [gas_production].
  apply select_columns_shape in E2. destruct E2 as (Hc & _ & Hin).
  cbn [columns dropna_all iloc_cols] in Hc, Hin.
  unfold rename. cbn [columns]. rewrite Hc, at_places_singletons; [reflexivity |].
  intros n Hn. pose proof (Hin n Hn) as Hs. apply inb_elem_of in Hs.
  assert (Hw : n ∈ columns wide).
  { unfold slice in Hs. apply subseteq_take, subseteq_drop in Hs. exact Hs. }
  destruct (wide_once named wide n E4 Hw) as [p Hp].
  - unfold gp_columns in Hn.
    repeat (apply elem_of_cons in Hn; destruct Hn as [-> | Hn]; [reflexivity |]).
    apply elem_of_nil in Hn. destruct Hn.
  - apply (singleton_positions_slice n 12 24 (columns wide) p Hp Hs).
Qed.

(** The tank table starts with [date] and ends with the volume, each
    once; between them it has one [tank_name] column for every column
    of the tank block with that header. *)
Lemma tank_columns_shape named wide t :
  clean_wide named = Ok wide -> split_tables wide = Ok t ->
  exists k, (1 <= k)%nat /\
    columns (tank_data t) =
      "date" :: (replicate k "tank_name" ++ ["standard_net_oil_volume_(bbls)"])%list.
Proof.
  intros E4 E5.
  unfold split_tables, lhc_slice, gp_slice, td_slice, dld_slice in E5.
  destruct (drop_columns _ _) as [lhc |]; cbn [rbind] in E5; [| discriminate].
  destruct (select_columns gp_columns _) as [gp |]; cbn [rbind] in E5; [| discriminate].
  destruct (select_columns td_columns _) as [td |] eqn:E3; cbn [rbind] in E5; [| discriminate].
  injection E5 as <-. cbn [tank_data].
  apply select_columns_shape in E3. destruct E3 as (Hc & _ & Hin).
  cbn [columns dropna_all iloc_cols] in Hc, Hin.
  set (cols := slice 27 35 (columns wide)) in *.
  assert (Hone : forall n, n ∈ td_columns -> inb n text_columns = false ->
                 exists q, positions n cols = [q] /\ cols !! q = Some n).
  { intros n Hn Htext. pose proof (Hin n Hn) as Hs. apply inb_elem_of in Hs.
    assert (Hw : n ∈ columns wide).
    { unfold cols, slice in Hs. apply subseteq_take, subseteq_drop in Hs. exact Hs. }
    destruct (wide_once named wide n E4 Hw Htext) as [p Hp].
    apply (singleton_positions_slice n 27 35 (columns wide) p Hp Hs). }
  destruct (Hone "date_3") as (q1 & P1 & L1); [apply list_elem_of_here | reflexivity |].
  destruct (Hone "standard_net_oil_volume_(bbls)") as (q3 & P3 & L3);
    [do 2 apply list_elem_of_further; apply list_elem_of_here | reflexivity |].
  assert (Htank : "tank_name" ∈ cols).
  { apply inb_elem_of, Hin. apply list_elem_of_further, list_elem_of_here. }
  exists (length (positions "tank_name" cols)). split.
  - apply list_elem_of_lookup in Htank. destruct Htank as [q Hq].
    apply elem_of_positions in Hq.
    destruct (positions "tank_name" cols); [apply elem_of_nil in Hq; destruct Hq | cbn; lia].
  - unfold rename. cbn [columns]. rewrite Hc. unfold td_columns.
    rewrite !bind_cons. change (@nil string ≫= _) with (@nil nat). rewrite app_nil_r.
    unfold at_places at 1. rewrite !omap_app.
    fold (at_places (positions "tank_name" cols) cols). rewrite at_places_positions.
    rewrite P1, P3. cbn [omap list_omap]. rewrite L1, L3.
    cbn [app]. rewrite fmap_cons, fmap_app, fmap_replicate. reflexivity.
Qed.

(** C1. From a well-formed sheet, when the four intermediate files
    can be written, [transform] returns four tables, each cut from
    the cleaned wide table [wide] of the sheet: the liquids table from
    its columns [0,11), the gas table from [12,24), the tank table
    from [27,35), the lifting table from [35,38); a table holds the
    rows that are not null across its range and, of each row, the
    cells under its own columns.  The liquids table carries the
    columns of its range less the three deleted names, with [date_1]
    renamed to [date]; the gas table exactly [date] and the four gas
    names; the tank table [date], [tank_name] (once per column of the
    range with that header) and the volume; the lifting table the
    three columns of its range, with [date_4] renamed to [date]. *)
Theorem transform_tables w r sheet :
  heap w !! r = Some sheet ->
  well_formed sheet = true ->
  Forall (fun p => p ∉ locked w) processed_paths ->
  exists t w' wide,
    transform (Some (mkDict (Some r))) w = (Ok (Some t), w') /\
    wide_of sheet = Ok wide /\
    cut 0 11 "date_1" wide (liquid_hydrocarbons_cached t) /\
    cut 12 24 "date_2" wide (gas_production t) /\
    cut 27 35 "date_3" wide (tank_data t) /\
    cut 35 38 "date_4" wide (daily_lifting_data t) /\
    columns (liquid_hydrocarbons_cached t) =
      (fun c => if String.eqb c "date_1" then "date" else c) <$>
        filter (fun c => c ∉ lhc_columns_to_delete) (slice 0 11 (columns wide)) /\
    columns (gas_production t) =
      ["date"; "ampco_gas_sales"; "eglng_gas_sales"; "gas_sales"; "offshore_gas"] /\
    (forall c, c ∈ columns (tank_data t) <->
       c ∈ ["date"; "tank_name"; "standard_net_oil_volume_(bbls)"]) /\
    (exists k, (1 <= k)%nat /\
       columns (tank_data t) =
         "date" :: (replicate k "tank_name" ++ ["standard_net_oil_volume_(bbls)"])%list) /\
    columns (daily_lifting_data t) =
      (fun c => if String.eqb c "date_4" then "date" else c) <$> slice 35 38 (columns wide) /\
    length (columns (daily_lifting_data t)) = 3%nat.
Proof.
  intros Hr Hwf Hp.
  destruct (well_formed_tables sheet Hwf)
    as (header & names & named & wide & t & E1 & E2 & E3 & E4 & E5 & Hw & H38).
  destruct (transform_runs w r sheet header names named wide t Hr E1 E2 E3 E4 E5 Hp)
    as [w' Hrun].
  exists t, w', wide. split; [exact Hrun |]. split; [exact Hw |].
  destruct (split_tables_cut wide t E5) as (K1 & K2 & K3 & K4).
  destruct (split_tables_columns wide t E5) as (C1 & _ & C3 & C4).
  split; [exact K1 |]. split; [exact K2 |]. split; [exact K3 |]. split; [exact K4 |].
  split; [exact C1 |]. split; [exact (gas_columns_exact named wide t E4 E5) |].
  split; [exact C3 |]. split; [exact (tank_columns_shape named wide t E4 E5) |].
  split; [exact C4 |].
  rewrite C4, length_fmap. unfold slice. rewrite length_take, length_drop.
  unfold ncols in H38. lia.
Qed.

End Tables.


(** ** The driver *)

Ltac run_methods :=
  unfold run, load, transform, extract, extract_from_excel_ec_data, read_excel,
    try_except, bind, lift, raise, ret, alloc, deref, store, logger_info,
    logger_shape, logger_error, to_csv, to_sql, getitem, getattr, unpack.

Section Driver.
Context {lib : Library}.

(** C6. Without the workbook, the extractor logs the error and
    returns nothing; the run then ends with [False], having written no
    file and no table: [transform] is entered and fails on the missing
    frame, the unpacking of its result fails in turn, and [load] is
    never entered (its opening log line is absent). *)
Theorem missing_workbook w :
  fs w !! excel_path = None ->
  extract_from_excel_ec_data w =
    (Ok None,
     mkWorld (heap w) (fs w) (db w) (locked w)
             (log w ++ [LogError "Error al extraer datos de Excel" FileNotFoundError])%list) /\
  exists w' records,
    run w = (Ok false, w') /\
    fs w' = fs w /\ db w' = db w /\ heap w' = heap w /\
    log w' = (log w ++ records)%list /\
    records =
      [LogInfo "Iniciando pipeline";
       LogInfo "Iniciando la extración de datos";
       LogError "Error al extraer datos de Excel" FileNotFoundError;
       LogInfo "Iniciando la transformación de datos";
       LogError "Error en la transformación de datos" AttributeError;
       LogError "Error en el proceso ETL" TypeError] /\
    LogInfo "Iniciando la carga de datos" ∉ records.
Proof.
  intros H. split.
  - run_methods. rewrite H. reflexivity.
  - eexists. eexists. split; [| split; [| split; [| split; [| split; [| split]]]]].
    + run_methods. cbn. rewrite H. cbn. reflexivity.
    + reflexivity.
    + reflexivity.
    + reflexivity.
    + cbn [log]. rewrite <- !app_assoc. cbn [app]. reflexivity.
    + reflexivity.
    + intros Hin.
      repeat (apply elem_of_cons in Hin; destruct Hin as [Hin | Hin]; [discriminate Hin |]).
      apply elem_of_nil in Hin. exact Hin.
Qed.


(** C7, at an input where only the load fails: the first final file
    cannot be written, [load] logs the error and returns nothing, and
    [run] still logs the success of the pipeline and returns [True]. *)
Theorem run_true_after_failed_load :
  (run Sample.world_locked).1 = Ok true /\
  log (run Sample.world_locked).2 =
    [LogInfo "Iniciando pipeline";
     LogInfo "Iniciando la extración de datos";
     LogShape "Datos extraidos de Excel" (5, 56)%nat;
     LogInfo "Iniciando la transformación de datos";
     LogShape "Datos extraidos de Excel" (3, 40)%nat;
     LogInfo "Iniciando la carga de datos";
     LogError "Error en la carga de datos" PermissionError;
     LogInfo "Pipeline ETL completado con éxito."] /\
  fs (run Sample.world_locked).2 !! path_join DATA_FINAL lhc_csv = None /\
  db (run Sample.world_locked).2 = ∅.
Proof.
  repeat split; vm_compute; reflexivity.
Qed.

(** ** What [transform] does to the frame it is given *)

(** The object store after [transform]: untouched, or with the derived
    names assigned to the frame that was passed (line 87). *)
Lemma transform_heap dd w :
  heap (transform dd w).2 = heap w \/
  exists r sheet header names named,
    dd = Some (mkDict (Some r)) /\ heap w !! r = Some sheet /\
    iloc_row 1 sheet = Ok header /\ derive_column_names header = Ok names /\
    set_columns names sheet = Ok named /\
    heap (transform dd w).2 = <[r := named]> (heap w).
Proof.
  unfold transform, try_except, bind, lift, ret, deref, store, logger_info,
    logger_shape, logger_error, to_csv, getitem, getattr.
  destruct dd as [[[r |]] |]; cbn; try (left; reflexivity).
  destruct (heap w !! r) as [sheet |] eqn:Hr; cbn; [| left; reflexivity].
  destruct (iloc_row 1 sheet) as [header |] eqn:E1; cbn; [| left; reflexivity].
  destruct (derive_column_names header) as [names |] eqn:E2; cbn; [| left; reflexivity].
  destruct (set_columns names sheet) as [named |] eqn:E3; cbn; [| left; reflexivity].
  right. exists r, sheet, header, names, named.
  repeat (split; [assumption || reflexivity |]).
  destruct (clean_wide named) as [wide |]; cbn; [| reflexivity].
  destruct (split_tables wide) as [t |]; cbn; [| reflexivity].
  repeat (destruct (decide _); cbn; [reflexivity |]).
  reflexivity.
Qed.

(** C10, as the script has it.  [transform] changes no cell and no
    row label of any frame object, and no object other than the frame
    it is given; on that frame it replaces the column labels by the
    derived names, as soon as these could be derived. *)
Theorem transform_keeps_rows dd w r df :
  heap w !! r = Some df ->
  exists df',
    heap (transform dd w).2 !! r = Some df' /\
    rows df' = rows df /\
    (df' = df \/
     dd = Some (mkDict (Some r)) /\
     exists header, iloc_row 1 df = Ok header /\
                    derive_column_names header = Ok (columns df')).
Proof.
  intros Hr.
  destruct (transform_heap dd w)
    as [-> | (r0 & sheet & header & names & named & -> & Hr0 & E1 & E2 & E3 & ->)].
  - exists df. split; [exact Hr |]. split; [reflexivity | left; reflexivity].
  - assert (Hnamed : named = mkDF names (rows sheet)).
    { unfold set_columns in E3. destruct (_ =? _)%nat; [| discriminate].
      injection E3 as <-. reflexivity. }
    destruct (decide (r0 = r)) as [-> | Hne].
    + rewrite Hr in Hr0. injection Hr0 as <-.
      exists named. split; [| split].
      * apply list_lookup_insert_eq. apply lookup_lt_Some in Hr. exact Hr.
      * rewrite Hnamed. reflexivity.
      * right. split; [reflexivity |]. exists header. split; [exact E1 |].
        rewrite Hnamed. exact E2.
    + exists df. split; [| split; [reflexivity | left; reflexivity]].
      rewrite list_lookup_insert_ne by exact Hne. exact Hr.
Qed.

End Driver.

(** ** Writing twice *)

Section Writes.
Context {V : Type}.
Implicit Types (m : gmap string V) (ws : list (string * V)).

Lemma lookup_written ws : forall m k,
  written m ws !! k =
  match last_write k ws with
  | Some v => Some v
  | None => m !! k
  end.
Proof.
  unfold written.
  induction ws as [| w ws IH]; intros m k; cbn [foldl last_write]; [reflexivity |].
  rewrite IH. destruct (last_write k ws); [reflexivity |].
  rewrite lookup_insert. destruct (decide (w.1 = k)); reflexivity.
Qed.

(** Replaying the writes changes nothing. *)
Lemma written_twice m ws : written (written m ws) ws = written m ws.
Proof.
  apply map_eq. intros k. rewrite (lookup_written ws (written m ws)).
  destruct (last_write k ws) eqn:E; [| reflexivity].
  rewrite lookup_written, E. reflexivity.
Qed.

Lemma written_app m ws1 ws2 : written (written m ws1) ws2 = written m (ws1 ++ ws2).
Proof. unfold written. rewrite foldl_app. reflexivity. Qed.

Lemma last_write_absent k ws : Forall (fun p => p <> k) ws.*1 -> last_write k ws = None.
Proof.
  induction ws as [| w ws IH]; intros H; cbn [last_write]; [reflexivity |].
  cbn in H. apply Forall_cons in H. destruct H as [Hw H].
  rewrite IH by exact H. destruct (decide (w.1 = k)); [contradiction | reflexivity].
Qed.

Lemma lookup_written_absent m k ws :
  Forall (fun p => p <> k) ws.*1 -> written m ws !! k = m !! k.
Proof. intros H. rewrite lookup_written, last_write_absent by exact H. reflexivity. Qed.

End Writes.

Section Replacements.
Context {V : Type}.
Implicit Types (m : gmap string V).

(** The same for replacements. *)
Lemma lookup_replaced (us : list (string * option V)) : forall m k,
  replaced m us !! k =
  match last_write k us with
  | Some o => o
  | None => m !! k
  end.
Proof.
  unfold replaced.
  induction us as [| u us IH]; intros m k; cbn [foldl last_write]; [reflexivity |].
  rewrite IH. destruct (last_write k us); [reflexivity |].
  destruct (decide (u.1 = k)) as [<- | Hne].
  - apply lookup_partial_alter_eq.
  - apply lookup_partial_alter_ne. exact Hne.
Qed.

Lemma replaced_twice m (us : list (string * option V)) :
  replaced (replaced m us) us = replaced m us.
Proof.
  apply map_eq. intros k. rewrite (lookup_replaced us (replaced m us)).
  destruct (last_write k us) eqn:E; [| reflexivity].
  rewrite lookup_replaced, E. reflexivity.
Qed.

Lemma replaced_app m (us1 us2 : list (string * option V)) :
  replaced (replaced m us1) us2 = replaced m (us1 ++ us2).
Proof. unfold replaced. rewrite foldl_app. reflexivity. Qed.

Lemma lookup_replaced_absent m k (us : list (string * option V)) :
  Forall (fun p => p <> k) us.*1 -> replaced m us !! k = m !! k.
Proof. intros H. rewrite lookup_replaced, last_write_absent by exact H. reflexivity. Qed.

End Replacements.

(** The paths the script writes are not the workbook's. *)
Ltac other_paths :=
  cbn [fmap list_fmap fst];
  repeat (apply Forall_cons; split; [vm_compute; discriminate |]); apply Forall_nil_2.

(** One step of a method on a world whose inputs are known. *)
Ltac known :=
  repeat first
    [ progress cbn [heap fs db locked log fst snd rbind ec_data_alba]
    | rewrite decide_True by assumption
    | rewrite decide_False by assumption
    | rewrite bool_decide_eq_true_2 by assumption
    | rewrite bool_decide_eq_false_2 by assumption
    | rewrite list_lookup_middle by reflexivity
    | match goal with E : ?l = _ |- context [?l] => rewrite E end ].


(** ** The log only grows *)

Section Logs.
Context {lib : Library}.

Lemma log_bind {A B} (m : M A) (k : A -> M B) :
  (forall w, log w `prefix_of` log (m w).2) ->
  (forall a w, log w `prefix_of` log (k a w).2) ->
  forall w, log w `prefix_of` log (bind m k w).2.
Proof.
  intros Hm Hk w. unfold bind. specialize (Hm w).
  destruct (m w) as [[a | e] w']; cbn [snd] in *; [| exact Hm].
  etransitivity; [exact Hm | apply Hk].
Qed.

Lemma log_try {A} (body : M A) (handler : Exn -> M A) :
  (forall w, log w `prefix_of` log (body w).2) ->
  (forall e w, log w `prefix_of` log (handler e w).2) ->
  forall w, log w `prefix_of` log (try_except body handler w).2.
Proof.
  intros Hb Hh w. unfold try_except. specialize (Hb w).
  destruct (body w) as [[a | e] w']; cbn [snd] in *; [exact Hb |].
  etransitivity; [exact Hb | apply Hh].
Qed.

Lemma log_started {A} msg (k : unit -> M A) (handler : Exn -> M A) :
  (forall w, log w `prefix_of` log (k tt w).2) ->
  (forall e w, log w `prefix_of` log (handler e w).2) ->
  forall v, (log v ++ [LogInfo msg])%list `prefix_of`
            log (try_except (bind (logger_info msg) k) handler v).2.
Proof.
  intros Hk Hh v.
  exact (log_try (k tt) handler Hk Hh
           (mkWorld (heap v) (fs v) (db v) (locked v) (log v ++ [LogInfo msg])%list)).
Qed.

End Logs.

Ltac log_leaf :=
  let w := fresh "w" in
  intros w;
  unfold ret, raise, lift, logger_info, logger_shape, logger_error, alloc, deref, store,
    read_excel, to_csv, to_sql;
  repeat match goal with
         | |- context [match ?x with _ => _ end] => destruct x
         end;
  cbn [log snd]; first [reflexivity | eexists; reflexivity].

Ltac logs :=
  repeat first [apply log_bind; [| intros ?] | apply log_try; [| intros ?]].

Section Methods.
Context {lib : Library}.

Lemma log_extract w : log w `prefix_of` log (extract w).2.
Proof.
  revert w. unfold extract, extract_from_excel_ec_data. logs; log_leaf.
Qed.

Lemma log_transform dd w : log w `prefix_of` log (transform dd w).2.
Proof.
  revert w. unfold transform. logs; log_leaf.
Qed.

Lemma log_load lhc gp td dld w : log w `prefix_of` log (load lhc gp td dld w).2.
Proof.
  revert w. unfold load. logs; log_leaf.
Qed.

(** A run appends to the log: its first record announces the
    pipeline, and what was logged before stays. *)
Lemma run_log v : (log v ++ [LogInfo "Iniciando pipeline"])%list `prefix_of` log (run v).2.
Proof.
  unfold run. apply log_started.
  - logs; first [intros w; apply log_extract | intros w; apply log_transform
                | intros w; apply log_load | log_leaf].
  - intros e. logs; log_leaf.
Qed.

End Methods.


(** ** The outcome of each method *)

Ltac summaries :=
  unfold extract_files, transform_files, transformed, staged, found_sheet, load_tables,
    loaded, reaches_db, tables_of, wide_of, written, replaced;
  cbn [unlocked_prefix all_unlocked processed_writes final_writes tables_list
       stored_prefix all_stored foldl fst snd andb rbind].

Section Outcomes.
Context {lib : Library}.

Lemma extract_outcome_gen (f : option File) (lk : gset string) v :
  fs v !! excel_path = f -> locked v = lk ->
  exists d v',
    extract v = (Ok (Some (mkDict d)), v') /\
    fs v' = written (fs v) (extract_files f lk) /\
    db v' = db v /\ locked v' = lk /\
    match staged f lk with
    | Some sheet => d = Some (length (heap v)) /\ heap v' !! length (heap v) = Some sheet
    | None => d = None
    end /\
    (forall r df, heap v !! r = Some df -> heap v' !! r = Some df).
Proof.
  revert v. summaries.
  destruct f as [[sheets | header lines] |].
  1: destruct (list_find (fun s : string * DataFrame => s.1 = "EC DATA") sheets)
       as [[i [name sheet]] |] eqn:Efind.
  1: destruct (decide (alba_mf_path ∈ lk)).
  all: intros v Hf Hlk; subst; eexists; eexists; split;
    [ unfold extract, extract_from_excel_ec_data, read_excel, try_except, bind, lift,
        ret, alloc, deref, logger_info, logger_shape, logger_error, to_csv;
      known; reflexivity
    | cbn [heap fs db locked log foldl fst snd]; repeat split; try reflexivity ].
  all: try (apply list_lookup_middle; reflexivity).
  all: try (intros r df Hr; apply lookup_app_l_Some; exact Hr).
  all: intros r df Hr; exact Hr.
Qed.

(** X1. [extract] always returns its dictionary.  The value in it is
    the frame of the sheet [EC DATA] when the workbook is there, has
    that sheet, and the staging file can be written; that file then
    holds the sheet as read.  In every other case the value is [None]
    and no file is written.  No table is stored, and no frame object
    that existed is changed. *)
Theorem extract_outcome v :
  exists d v',
    extract v = (Ok (Some (mkDict d)), v') /\
    fs v' = written (fs v) (extract_files (fs v !! excel_path) (locked v)) /\
    db v' = db v /\ locked v' = locked v /\
    match staged (fs v !! excel_path) (locked v) with
    | Some sheet => d = Some (length (heap v)) /\ heap v' !! length (heap v) = Some sheet
    | None => d = None
    end /\
    (forall r df, heap v !! r = Some df -> heap v' !! r = Some df).
Proof. apply extract_outcome_gen; reflexivity. Qed.

Lemma transform_outcome_gen (osheet : option DataFrame) (lk : gset string) v d :
  locked v = lk ->
  match osheet with
  | Some sheet => exists r, d = Some r /\ heap v !! r = Some sheet
  | None => d = None
  end ->
  exists v',
    transform (Some (mkDict d)) v = (Ok (transformed osheet lk), v') /\
    fs v' = written (fs v) (transform_files osheet lk) /\
    db v' = db v /\ locked v' = lk.
Proof.
  revert v d. summaries.
  destruct osheet as [sheet |].
  1: destruct (iloc_row 1 sheet) as [header |] eqn:E1; cbn [rbind].
  1: destruct (derive_column_names header) as [names |] eqn:E2; cbn [rbind].
  1: destruct (set_columns names sheet) as [named |] eqn:E3; cbn [rbind].
  1: destruct (clean_wide named) as [wide |] eqn:E4.
  1: destruct (split_tables wide) as [t |] eqn:E5.
  1: destruct (decide (path_join DATA_PROCESSED lhc_csv ∈ lk)).
  2: destruct (decide (path_join DATA_PROCESSED gp_csv ∈ lk)).
  3: destruct (decide (path_join DATA_PROCESSED td_csv ∈ lk)).
  4: destruct (decide (path_join DATA_PROCESSED dld_csv ∈ lk)).
  all: intros v d Hlk Hd; subst;
    try (let r := fresh "r" in let Hr := fresh "Hr" in destruct Hd as (r & -> & Hr));
    subst; eexists; split;
    [ unfold transform, try_except, bind, lift, ret, deref, store, logger_info,
        logger_shape, logger_error, to_csv, getitem, getattr;
      known; reflexivity
    | cbn [heap fs db locked log foldl fst snd]; repeat split; reflexivity ].
Qed.

Lemma load_outcome_gen (t : Tables) (lk : gset string) v :
  locked v = lk ->
  exists v',
    load (liquid_hydrocarbons_cached t) (gas_production t) (tank_data t)
         (daily_lifting_data t) v
      = (Ok (if loaded t lk then Some true else None), v') /\
    fs v' = written (fs v) (unlocked_prefix lk (final_writes t)) /\
    db v' = replaced (db v) (load_tables t lk) /\ locked v' = lk /\ heap v' = heap v.
Proof.
  revert v. summaries.
  destruct (decide (path_join DATA_FINAL lhc_csv ∈ lk)).
  2: destruct (decide (path_join DATA_FINAL gp_csv ∈ lk)).
  3: destruct (decide (path_join DATA_FINAL td_csv ∈ lk)).
  4: destruct (decide (path_join DATA_FINAL dld_csv ∈ lk)).
  5: destruct (decide (db_path ∈ lk)).
  6: destruct (sql_store (liquid_hydrocarbons_cached t)) as [[[] | e1] o1] eqn:S1.
  6: destruct (sql_store (gas_production t)) as [[[] | e2] o2] eqn:S2.
  6: destruct (sql_store (tank_data t)) as [[[] | e3] o3] eqn:S3.
  6: destruct (sql_store (daily_lifting_data t)) as [[[] | e4] o4] eqn:S4.
  all: intros v Hlk; subst; eexists; split;
    [ unfold load, try_except, bind, ret, logger_info, logger_error, to_csv, to_sql;
      known; reflexivity
    | cbn [heap fs db locked log foldl fst snd is_ok]; repeat split; reflexivity ].
Qed.

Lemma run_outcome_gen (f : option File) (lk : gset string) v :
  fs v !! excel_path = f -> locked v = lk ->
  (run v).1 = Ok (run_result f lk) /\
  fs (run v).2 = written (fs v) (run_files f lk) /\
  db (run v).2 = replaced (db v) (run_tables f lk) /\
  locked (run v).2 = lk.
Proof.
  intros Hf Hlk.
  destruct (extract_outcome_gen f lk
              (mkWorld (heap v) (fs v) (db v) (locked v)
                       (log v ++ [LogInfo "Iniciando pipeline"])) Hf Hlk)
    as (d & v1 & E1 & F1 & D1 & L1 & Hd & _).
  cbn [heap fs db locked log] in *.
  destruct (transform_outcome_gen (staged f lk) lk v1 d L1) as (v2 & E2 & F2 & D2 & L2).
  { destruct (staged f lk); [| exact Hd]. destruct Hd as [-> Hd].
    eexists. split; [reflexivity | exact Hd]. }
  unfold run_result, run_files, run_tables.
  unfold run, try_except, bind, lift, ret, logger_info, logger_error, unpack.
  rewrite E1, E2.
  destruct (transformed (staged f lk) lk) as [t |].
  - destruct (load_outcome_gen t lk v2 L2) as (v3 & E3 & F3 & D3 & L3 & _).
    rewrite E3. cbn [fst snd heap fs db locked log].
    rewrite F3, F2, F1, D3, D2, D1, !written_app.
    repeat split; assumption || reflexivity.
  - cbn [fst snd heap fs db locked log].
    rewrite F2, F1, D2, D1, !written_app, app_nil_r.
    repeat split; assumption || reflexivity.
Qed.

Lemma unlocked_prefix_keys {V} (P : string -> Prop) lk (ws : list (string * V)) :
  Forall P ws.*1 -> Forall P (unlocked_prefix lk ws).*1.
Proof.
  induction ws as [| w ws IH]; intros H; cbn [unlocked_prefix]; [exact H |].
  cbn in H. apply Forall_cons in H. destruct H as [Hw H].
  destruct (decide (w.1 ∈ lk)); [apply Forall_nil_2 |].
  cbn. apply Forall_cons. split; [exact Hw | apply IH; exact H].
Qed.

Lemma run_files_keys f lk : Forall (fun p => p ∈ output_paths) (run_files f lk).*1.
Proof.
  assert (Hp : forall t, Forall (fun p => p ∈ output_paths) (processed_writes t).*1).
  { intros t. cbn. repeat (apply Forall_cons; split; [vm_compute; set_solver |]).
    apply Forall_nil_2. }
  assert (Hf : forall t, Forall (fun p => p ∈ output_paths) (final_writes t).*1).
  { intros t. cbn. repeat (apply Forall_cons; split; [vm_compute; set_solver |]).
    apply Forall_nil_2. }
  unfold run_files, extract_files, transform_files, transformed.
  destruct (staged f lk) as [sheet |]; [| apply Forall_nil_2].
  rewrite !fmap_app. apply Forall_app_2; [| apply Forall_app_2].
  - cbn. apply Forall_cons. split; [apply list_elem_of_here | apply Forall_nil_2].
  - destruct (tables_of sheet); [| apply Forall_nil_2]. apply unlocked_prefix_keys, Hp.
  - destruct (tables_of sheet) as [t |]; [| apply Forall_nil_2].
    destruct (all_unlocked lk (processed_writes t)); [| apply Forall_nil_2].
    apply unlocked_prefix_keys, Hf.
Qed.

Lemma run_tables_keys f lk : Forall (fun n => n ∈ table_names) (run_tables f lk).*1.
Proof.
  unfold run_tables, load_tables.
  destruct (transformed (staged f lk) lk) as [t |]; [| apply Forall_nil_2].
  destruct (reaches_db t lk); [| apply Forall_nil_2].
  cbn [tables_list stored_prefix fst snd].
  repeat (match goal with |- context [is_ok ?r] => destruct (is_ok r) end);
    cbn [fmap list_fmap fst];
    repeat (apply Forall_cons; split; [vm_compute; set_solver |]); apply Forall_nil_2.
Qed.

Lemma Forall_other {A} (P : A -> Prop) (k : A) (l : list A) :
  ~ P k -> Forall P l -> Forall (fun p => p <> k) l.
Proof.
  intros Hk H. apply (Forall_impl _ _ _ H). intros p Hp ->. exact (Hk Hp).
Qed.

Lemma excel_not_output : excel_path ∉ output_paths.
Proof.
  vm_compute. intros H.
  repeat (apply elem_of_cons in H; destruct H as [H | H]; [discriminate H |]).
  apply elem_of_nil in H. exact H.
Qed.

(** C8. A second run, started where the first one ended, returns what
    the first returned and leaves every file and every table as the
    first left them: each write replaces what is there by the same
    content.  In particular the four final CSV files and the four
    tables are the same after one run and after two. *)
Theorem run_idempotent w :
  (run (run w).2).1 = (run w).1 /\
  fs (run (run w).2).2 = fs (run w).2 /\
  db (run (run w).2).2 = db (run w).2 /\
  (forall p, p ∈ final_paths -> fs (run (run w).2).2 !! p = fs (run w).2 !! p) /\
  (forall n, n ∈ table_names -> db (run (run w).2).2 !! n = db (run w).2 !! n).
Proof.
  destruct (run_outcome_gen (fs w !! excel_path) (locked w) w eq_refl eq_refl)
    as (R1 & F1 & D1 & L1).
  destruct (run_outcome_gen (fs w !! excel_path) (locked w) (run w).2)
    as (R2 & F2 & D2 & _).
  { rewrite F1. apply lookup_written_absent.
    apply (Forall_other (fun q => q ∈ output_paths));
      [exact excel_not_output | apply run_files_keys]. }
  { exact L1. }
  rewrite F1 in F2. rewrite written_twice in F2. rewrite <- F1 in F2.
  rewrite D1 in D2. rewrite replaced_twice in D2. rewrite <- D1 in D2.
  repeat split.
  - congruence.
  - exact F2.
  - exact D2.
  - intros p _. rewrite F2. reflexivity.
  - intros n _. rewrite D2. reflexivity.
Qed.

(** X2. Given the frame of a sheet, [transform] returns the four
    tables exactly when the frames go through (header row, derived
    names, cleaning, slicing) and the four intermediate files can be
    written; it writes those files in order up to the first one that
    cannot be written, and none at all when the frames fail.  Given no
    frame it returns nothing and writes nothing.  It never stores a
    table. *)
Theorem transform_outcome v :
  (forall r sheet,
      heap v !! r = Some sheet ->
      exists v',
        transform (Some (mkDict (Some r))) v = (Ok (transformed (Some sheet) (locked v)), v') /\
        fs v' = written (fs v) (transform_files (Some sheet) (locked v)) /\
        db v' = db v /\ locked v' = locked v) /\
  (exists v',
      transform (Some (mkDict None)) v = (Ok None, v') /\
      fs v' = fs v /\ db v' = db v /\ locked v' = locked v /\ heap v' = heap v).
Proof.
  split.
  - intros r sheet Hr.
    apply (transform_outcome_gen (Some sheet) (locked v) v (Some r)); [reflexivity |].
    exists r. split; [reflexivity | exact Hr].
  - eexists. split.
    + unfold transform, try_except, bind, lift, ret, logger_info, logger_error, getitem, getattr.
      cbn [ec_data_alba fst snd]. reflexivity.
    + cbn [heap fs db locked]. repeat split; reflexivity.
Qed.


Lemma stored_plain ts :
  Forall (fun x : string * DataFrame => plain x.2 = true) ts ->
  all_stored ts = true /\
  stored_prefix ts = (fun x : string * DataFrame => (x.1, Some (sql_of x.2))) <$> ts.
Proof.
  induction 1 as [| x ts Hx _ [IH1 IH2]]; [split; reflexivity |].
  cbn [all_stored stored_prefix fmap list_fmap]. unfold sql_store. rewrite Hx.
  cbn [fst snd is_ok andb]. rewrite IH1, IH2. split; reflexivity.
Qed.

Lemma stored_repeated ts x :
  x ∈ ts -> valid_names x.2 = true -> ~ NoDup (sql_names x.2) -> all_stored ts = false.
Proof.
  intros Hin Hv Hd. induction ts as [| y ts IH]; [apply elem_of_nil in Hin; destruct Hin |].
  cbn [all_stored]. apply elem_of_cons in Hin. destruct Hin as [<- | Hin].
  - unfold sql_store, plain. rewrite Hv. cbn [andb].
    rewrite bool_decide_eq_false_2 by exact Hd. cbn [andb].
    rewrite (sql_rest_repeated x.2 Hv Hd). reflexivity.
  - rewrite (IH Hin). apply andb_false_r.
Qed.

(** X3. [load] writes the four final files in order, up to the first
    that cannot be written.  It gets to the database only when all
    four were written and the database file can be written, so a
    failure on a file leaves the database as it was.  There it
    replaces the four tables in order, up to and with the first on
    which [to_sql] raises, and it returns [True] exactly when [to_sql]
    raised on none.  Tables with plain column labels are all stored,
    each as [to_sql] lays it out; a table in which a label repeats
    makes [to_sql] raise, so [load] returns nothing.  [load] changes
    no frame. *)
Theorem load_outcome t v :
  exists v',
    load (liquid_hydrocarbons_cached t) (gas_production t) (tank_data t)
         (daily_lifting_data t) v
      = (Ok (if loaded t (locked v) then Some true else None), v') /\
    fs v' = written (fs v) (unlocked_prefix (locked v) (final_writes t)) /\
    db v' = replaced (db v) (load_tables t (locked v)) /\
    (reaches_db t (locked v) = false -> db v' = db v) /\
    (Forall (fun x : string * DataFrame => plain x.2 = true) (tables_list t) ->
     loaded t (locked v) = reaches_db t (locked v) /\
     load_tables t (locked v) =
       if reaches_db t (locked v)
       then (fun x : string * DataFrame => (x.1, Some (sql_of x.2))) <$> tables_list t
       else []) /\
    (forall x, x ∈ tables_list t -> valid_names x.2 = true -> ~ NoDup (sql_names x.2) ->
               loaded t (locked v) = false) /\
    locked v' = locked v /\ heap v' = heap v.
Proof.
  destruct (load_outcome_gen t (locked v) v eq_refl) as (v' & H & Hfs & Hdb & Hlk & Hh).
  exists v'. split; [exact H |]. split; [exact Hfs |]. split; [exact Hdb |].
  split; [| split; [| split; [| split; assumption]]].
  - intros Hno. rewrite Hdb. unfold load_tables. rewrite Hno. reflexivity.
  - intros Hp. destruct (stored_plain _ Hp) as [Ha Hs].
    unfold loaded, load_tables. rewrite Ha, Hs, andb_true_r. split; reflexivity.
  - intros x Hin Hv Hd. unfold loaded. rewrite (stored_repeated _ x Hin Hv Hd).
    apply andb_false_r.
Qed.

(** X4. [run] returns [True] exactly when the sheet was found and
    staged, its four tables were made, and their intermediate files
    were written; whether [load] then succeeds does not enter.  The
    files it leaves are the staging copy, the intermediate files and
    the final files that could be written, in that order.  In the
    database it replaces what [load] replaces: nothing when [load] was
    not entered or did not get to the database, else the tables in
    order up to and with the first on which [to_sql] raises. *)
Theorem run_outcome v :
  (run v).1 = Ok (run_result (fs v !! excel_path) (locked v)) /\
  ((run v).1 = Ok true <->
     exists sheet t,
       staged (fs v !! excel_path) (locked v) = Some sheet /\
       tables_of sheet = Some t /\
       all_unlocked (locked v) (processed_writes t) = true) /\
  fs (run v).2 = written (fs v) (run_files (fs v !! excel_path) (locked v)) /\
  db (run v).2 = replaced (db v) (run_tables (fs v !! excel_path) (locked v)) /\
  locked (run v).2 = locked v.
Proof.
  destruct (run_outcome_gen (fs v !! excel_path) (locked v) v eq_refl eq_refl)
    as (R & F & D & L).
  split; [exact R |]. split; [| repeat split; assumption].
  rewrite R. unfold run_result, transformed.
  destruct (staged _ _) as [sheet |];
    [| split; [discriminate | intros (s & t & Hs & _); discriminate]].
  destruct (tables_of sheet) as [t |] eqn:Et;
    [| split; [discriminate | intros (s & t & Hs & Ht & _); congruence]].
  destruct (all_unlocked _ (processed_writes t)) eqn:Eu.
  - split; [| reflexivity]. intros _. exists sheet, t. repeat split; assumption.
  - split; [discriminate |]. intros (s & t' & Hs & Ht & Hu).
    injection Hs as <-. rewrite Et in Ht. injection Ht as <-. congruence.
Qed.

(** ** What a run touches *)

Lemma lookup_files_other w p :
  p <> log_path -> p <> db_path -> files w !! p = DataFile <$> fs w !! p.
Proof.
  intros H1 H2. unfold files.
  rewrite lookup_insert_ne by congruence. rewrite lookup_insert_ne by congruence.
  apply lookup_fmap.
Qed.

(** X5. A run touches the file system only at the nine output paths
    (the staging copy, the four intermediate files, the four final
    files), at the database file and at the log file.  Every other
    file is as before, the workbook in particular.  In the database
    it touches only the four tables; to the log it appends, starting
    with the record that announces the pipeline.  No write protection
    is changed. *)
Theorem run_footprint v :
  (forall p, p ∉ log_path :: db_path :: output_paths ->
             files (run v).2 !! p = files v !! p) /\
  (forall n, n ∉ table_names -> db (run v).2 !! n = db v !! n) /\
  (log v ++ [LogInfo "Iniciando pipeline"])%list `prefix_of` log (run v).2 /\
  files (run v).2 !! excel_path = files v !! excel_path /\
  locked (run v).2 = locked v.
Proof.
  destruct (run_outcome_gen (fs v !! excel_path) (locked v) v eq_refl eq_refl)
    as (_ & F & D & L).
  assert (Hfs : forall p, p ∉ output_paths -> fs (run v).2 !! p = fs v !! p).
  { intros p Hp. rewrite F. apply lookup_written_absent.
    apply (Forall_other (fun q => q ∈ output_paths)); [exact Hp | apply run_files_keys]. }
  assert (Hfiles : forall p, p ∉ log_path :: db_path :: output_paths ->
                             files (run v).2 !! p = files v !! p).
  { intros p Hp. rewrite !not_elem_of_cons in Hp. destruct Hp as (H1 & H2 & H3).
    rewrite !lookup_files_other by assumption. rewrite (Hfs p H3). reflexivity. }
  split; [exact Hfiles |]. split; [| split; [apply run_log | split; [| exact L]]].
  - intros n Hn. rewrite D. apply lookup_replaced_absent.
    apply (Forall_other (fun q => q ∈ table_names)); [exact Hn | apply run_tables_keys].
  - apply Hfiles. vm_compute. intros H.
    repeat (apply elem_of_cons in H; destruct H as [H | H]; [discriminate H |]).
    apply elem_of_nil in H. exact H.
Qed.

(** ** No exception escapes *)

Lemma try_except_Ok {A} (body : M A) (handler : Exn -> M A) :
  (forall e w, exists a w', handler e w = (Ok a, w')) ->
  forall w, exists a w', try_except body handler w = (Ok a, w').
Proof.
  intros H w. unfold try_except. destruct (body w) as [[a | e] w'].
  - exists a, w'. reflexivity.
  - apply H.
Qed.

(** X6. Every method catches what is raised inside it: [extract],
    [transform], [load] and [run] return a value in every world and
    for every argument, be it a dictionary that is [None] or one that
    holds no frame. *)
Theorem methods_never_raise w :
  (exists d w', extract w = (Ok d, w')) /\
  (forall data_dict, exists r w', transform data_dict w = (Ok r, w')) /\
  (forall lhc gp td dld, exists r w', load lhc gp td dld w = (Ok r, w')) /\
  (exists b w', run w = (Ok b, w')).
Proof.
  split; [| split; [| split]].
  - destruct (extract_outcome_gen _ _ w eq_refl eq_refl) as (d & w' & H & _).
    eexists. eexists. exact H.
  - intros dd. apply try_except_Ok. intros e v. eexists. eexists.
    unfold bind, logger_error, ret. reflexivity.
  - intros lhc gp td dld. apply try_except_Ok. intros e v. eexists. eexists.
    unfold bind, logger_error, ret. reflexivity.
  - apply try_except_Ok. intros e v. eexists. eexists.
    unfold bind, logger_error, ret. reflexivity.
Qed.

End Outcomes.


(** ** The derived names, beyond the five date positions *)

Section Derived.
Context {lib : Library}.

Lemma derive_cases hdr :
  ((length hdr < 56)%nat /\ derive_column_names hdr = Raise IndexError) \/
  ((56 <= length hdr)%nat /\
   derive_column_names hdr =
     Ok (<[55%nat := "date_5"]> (<[47%nat := "date_4"]> (<[35%nat := "date_3"]>
        (<[18%nat := "date_2"]> (<[1%nat := "date_1"]>
           (normalize <$> (str_cell <$> hdr)))))))).
Proof.
  unfold derive_column_names, columns_to_rename. cbn [rename_dates]. unfold set_item.
  set (base := normalize <$> (str_cell <$> hdr)).
  assert (Hb : length base = length hdr) by (unfold base; rewrite !length_fmap; reflexivity).
  rewrite <- Hb.
  destruct (Nat.ltb_spec 1 (length base)); cbn [rbind]; [| left; split; [lia | reflexivity]].
  rewrite !length_insert.
  destruct (Nat.ltb_spec 18 (length base)); cbn [rbind]; [| left; split; [lia | reflexivity]].
  rewrite !length_insert.
  destruct (Nat.ltb_spec 35 (length base)); cbn [rbind]; [| left; split; [lia | reflexivity]].
  rewrite !length_insert.
  destruct (Nat.ltb_spec 47 (length base)); cbn [rbind]; [| left; split; [lia | reflexivity]].
  rewrite !length_insert.
  destruct (Nat.ltb_spec 55 (length base)); cbn [rbind]; [| left; split; [lia | reflexivity]].
  right. split; [lia | reflexivity].
Qed.



Lemma lower_ascii_lowered c : negb (is_upper (lower_ascii c)) = true.
Proof. destruct c as [[] [] [] [] [] [] [] []]; vm_compute; reflexivity. Qed.

Lemma lower_letters_lowered s :
  all_chars (fun c => negb (is_upper c)) (lower_letters s) = true.
Proof.
  induction s as [| c s IH]; [reflexivity |].
  cbn [lower_letters all_chars]. rewrite IH, lower_ascii_lowered. reflexivity.
Qed.

(** [str.lower()] leaves none of the letters A-Z. *)
Lemma lower_lowered s : all_chars (fun c => negb (is_upper c)) (lower s) = true.
Proof.
  unfold lower. destruct (all_chars is_ascii s);
    [apply lower_letters_lowered | apply lower_rest_lowered].
Qed.

Lemma plain_replace_char c :
  negb (is_upper c) = true ->
  plain_char (if Ascii.eqb (if Ascii.eqb c " " then "_"%char else c) "-"
              then "_"%char
              else if Ascii.eqb c " " then "_"%char else c) = true.
Proof.
  destruct c as [[] [] [] [] [] [] [] []]; vm_compute; intros H;
    first [reflexivity | discriminate H].
Qed.

Lemma plain_normalize s : all_chars plain_char (normalize s) = true.
Proof.
  unfold normalize. generalize (lower s) (lower_lowered s). clear s.
  induction s as [| c s IH]; intros H; [reflexivity |].
  cbn [all_chars] in H. apply andb_prop in H. destruct H as [Hc Hs].
  cbn [replace all_chars]. rewrite (IH Hs), (plain_replace_char c Hc). reflexivity.
Qed.

(** X8. A derived column name holds no blank, no hyphen and no
    upper-case ASCII letter, whatever the header cells hold. *)
Theorem derived_names_plain hdr names :
  derive_column_names hdr = Ok names ->
  Forall (fun n => all_chars plain_char n = true) names.
Proof.
  intros H. destruct (derive_cases hdr) as [[_ E] | [_ E]]; rewrite E in H; [discriminate H |].
  injection H as <-.
  repeat (apply Forall_insert; [| reflexivity]).
  apply Forall_fmap, Forall_fmap, Forall_forall. intros c _. apply plain_normalize.
Qed.

End Derived.


(** ** The columns that reach the tables *)

Section Reach.
Context {lib : Library}.

Lemma slice_head (names : list string) x :
  names !! 1%nat = Some x -> exists rest, slice 1 50 names = x :: rest.
Proof.
  intros H. unfold slice. rewrite (drop_S names x 1 H). cbn [take Nat.sub].
  eexists. reflexivity.
Qed.

Lemma transform_names dd w t w' :
  transform dd w = (Ok (Some t), w') ->
  exists names wide,
    names !! 1%nat = Some "date_1" /\
    columns wide = filter (fun c => c ≠ "nan") (slice 1 50 names) /\
    split_tables wide = Ok t.
Proof.
  intros H. apply transform_Some in H.
  destruct H as (r & sheet & header & names & named & wide & _ & _ & _ & E2 & E3 & E4 & E5 & _).
  exists names, wide.
  assert (Hnamed : columns named = names).
  { unfold set_columns in E3. destruct (_ =? _)%nat; [| discriminate].
    injection E3 as <-. reflexivity. }
  split; [| split; [| exact E5]].
  - destruct (derive_cases header) as [[_ E] | [Hlen E]]; rewrite E in E2; [discriminate E2 |].
    injection E2 as <-.
    rewrite !list_lookup_insert_ne by lia.
    apply list_lookup_insert_eq. rewrite !length_fmap. lia.
  - rewrite <- Hnamed. apply wide_columns. exact E4.
Qed.

Lemma not_in_renamed (old new : string) (cols : list string) x :
  x <> new -> x ∉ cols ->
  x ∉ ((fun c => if String.eqb c old then new else c) <$> cols).
Proof.
  intros Hnew Hx Hin. apply list_elem_of_fmap in Hin. destruct Hin as (c & Hc & Hin).
  destruct (String.eqb c old); [congruence | subst c; exact (Hx Hin)].
Qed.

(** X9. In what [transform] returns, the liquids table has [date] as
    its first column, and no table has a column named [nan]. *)
Theorem tables_columns_clean dd w t w' :
  transform dd w = (Ok (Some t), w') ->
  columns (liquid_hydrocarbons_cached t) !! 0%nat = Some "date" /\
  ("nan" ∉ columns (liquid_hydrocarbons_cached t)) /\
  ("nan" ∉ columns (gas_production t)) /\
  ("nan" ∉ columns (tank_data t)) /\
  ("nan" ∉ columns (daily_lifting_data t)).
Proof.
  intros H. destruct (transform_names _ _ _ _ H) as (names & wide & H1 & Hw & Ht).
  destruct (split_tables_columns wide t Ht) as (C1 & C2 & C3 & C4).
  assert (Hnan : forall a b, "nan" ∉ slice a b (columns wide)).
  { intros a b Hin. unfold slice in Hin.
    apply subseteq_take, subseteq_drop in Hin.
    rewrite Hw in Hin. apply list_elem_of_filter in Hin. destruct Hin as [Hne _].
    apply Hne. reflexivity. }
  split; [| split; [| split; [| split]]].
  - destruct (slice_head names "date_1" H1) as [rest Hs].
    rewrite C1, Hw, Hs.
    rewrite filter_cons_True by discriminate. unfold slice. cbn [drop Nat.sub take].
    rewrite filter_cons_True.
    + reflexivity.
    + unfold lhc_columns_to_delete. intros Hin.
      repeat (apply elem_of_cons in Hin; destruct Hin as [Hin | Hin]; [discriminate Hin |]).
      apply elem_of_nil in Hin. exact Hin.
  - rewrite C1. apply not_in_renamed; [discriminate |].
    intros Hin. apply list_elem_of_filter in Hin. destruct Hin as [_ Hin]. exact (Hnan _ _ Hin).
  - intros Hin. apply C2 in Hin.
    repeat (apply elem_of_cons in Hin; destruct Hin as [Hin | Hin]; [discriminate Hin |]).
    apply elem_of_nil in Hin. exact Hin.
  - intros Hin. apply C3 in Hin.
    repeat (apply elem_of_cons in Hin; destruct Hin as [Hin | Hin]; [discriminate Hin |]).
    apply elem_of_nil in Hin. exact Hin.
  - rewrite C4. apply not_in_renamed; [discriminate | apply Hnan].
Qed.


(** ** Row labels and column order *)

(** X10. The rows of each table [transform] returns carry, as labels,
    positions among the data rows of the sheet: the labels of a table
    form a sublist of 0, 1, ..., n - 3 for a sheet of n rows, so they
    are distinct and increasing, though not contiguous. *)
Theorem table_labels_increasing dd w t w' :
  transform dd w = (Ok (Some t), w') ->
  exists r sheet,
    dd = Some (mkDict (Some r)) /\ heap w !! r = Some sheet /\
    index (liquid_hydrocarbons_cached t) `sublist_of` seq 0 (nrows sheet - 2) /\
    index (gas_production t) `sublist_of` seq 0 (nrows sheet - 2) /\
    index (tank_data t) `sublist_of` seq 0 (nrows sheet - 2) /\
    index (daily_lifting_data t) `sublist_of` seq 0 (nrows sheet - 2).
Proof.
  intros H. apply transform_Some in H.
  destruct H as (r & sheet & header & names & named & wide
                 & -> & Hr & E1 & E2 & E3 & E4 & E5 & _).
  exists r, sheet. split; [reflexivity |]. split; [exact Hr |].
  assert (Hrows : rows named = rows sheet).
  { unfold set_columns in E3. destruct (_ =? _)%nat; [| discriminate].
    injection E3 as <-. reflexivity. }
  assert (Hw : index wide `sublist_of` seq 0 (nrows sheet - 2)).
  { rewrite (clean_wide_index _ _ E4).
    set (m := length _).
    assert (Hm : (m <= nrows sheet - 2)%nat).
    { unfold m, index. rewrite Hrows. apply length_drop_first_two. }
    replace (nrows sheet - 2)%nat with (m + (nrows sheet - 2 - m))%nat by lia.
    rewrite seq_app. apply sublist_inserts_r. reflexivity. }
  destruct (split_tables_index _ _ E5) as (I1 & I2 & I3 & I4).
  rewrite I1, I2, I3, I4.
  repeat split; (etransitivity; [| exact Hw]); unfold index;
    apply fmap_sublist, sublist_filter.
Qed.


(** X11. The gas table [transform] returns has exactly the columns
    [date], [ampco_gas_sales], [eglng_gas_sales], [gas_sales],
    [offshore_gas], in this order, whatever the order of these columns
    in the sheet. *)
Theorem gas_production_columns dd w t w' :
  transform dd w = (Ok (Some t), w') ->
  columns (gas_production t) =
    ["date"; "ampco_gas_sales"; "eglng_gas_sales"; "gas_sales"; "offshore_gas"].
Proof.
  intros H. apply transform_Some in H.
  destruct H as (r & sheet & header & names & named & wide & _ & _ & _ & _ & _ & E4 & E5 & _).
  exact (gas_columns_exact named wide t E4 E5).
Qed.

(** X12. A sheet too small for its layout: with fewer than two rows,
    or with a header row of fewer than 56 cells, [transform] logs an
    [IndexError] and returns nothing; it writes no file, stores no
    table, and leaves the frame it was given as it was, labels
    included. *)
Theorem transform_small_sheet v r sheet :
  heap v !! r = Some sheet ->
  (nrows sheet < 2)%nat \/
  (exists header, iloc_row 1 sheet = Ok header /\ (length header < 56)%nat) ->
  exists v',
    transform (Some (mkDict (Some r))) v = (Ok None, v') /\
    heap v' = heap v /\ fs v' = fs v /\ db v' = db v /\
    log v' = (log v ++ [LogInfo "Iniciando la transformación de datos";
                        LogError "Error en la transformación de datos" IndexError])%list.
Proof.
  intros Hr Hsmall.
  assert (E : iloc_row 1 sheet = Raise IndexError \/
              exists header, iloc_row 1 sheet = Ok header /\
                             derive_column_names header = Raise IndexError).
  { destruct Hsmall as [Hn | (header & E1 & Hlen)].
    - left. unfold iloc_row. rewrite (proj2 (lookup_ge_None (rows sheet) 1)); [reflexivity |].
      unfold nrows in Hn. lia.
    - right. exists header. split; [exact E1 |].
      destruct (derive_cases header) as [[_ Hd] | [Hge _]]; [exact Hd | lia]. }
  eexists. split.
  - unfold transform, try_except, bind, lift, ret, deref, store, logger_info,
      logger_shape, logger_error, to_csv, getitem, getattr.
    cbn [ec_data_alba heap fs db locked log fst snd]. rewrite Hr.
    destruct E as [E1 | (header & E1 & E2)].
    + rewrite E1. reflexivity.
    + rewrite E1, E2. reflexivity.
  - cbn [heap fs db locked log]. rewrite <- app_assoc. repeat split; reflexivity.
Qed.


(** X13. The tank table [transform] returns starts with [date] and
    ends with [standard_net_oil_volume_(bbls)], each once; between
    them it has one [tank_name] column for every column of the tank
    block with that header, at least one.  The text columns are not
    looked up by label before the selection, so a repeated header
    passes through. *)
Theorem tank_data_columns dd w t w' :
  transform dd w = (Ok (Some t), w') ->
  exists k, (1 <= k)%nat /\
    columns (tank_data t) =
      "date" :: (replicate k "tank_name" ++ ["standard_net_oil_volume_(bbls)"])%list.
Proof.
  intros H. apply transform_Some in H.
  destruct H as (r & sheet & header & names & named & wide & _ & _ & _ & _ & _ & E4 & E5 & _).
  exact (tank_columns_shape named wide t E4 E5).
Qed.

(** The bound is not always met with one: a sheet whose tank block
    has the header [Tank Name] on two columns gives a tank table with
    two [tank_name] columns. *)
Example tank_name_twice :
  let header := <[29%nat := CStr "Tank Name"]> Sample.header_row in
  let sheet := mkDF (columns Sample.sheet)
                    (imap (fun i r => (i, r)) [Sample.blank; header; Sample.day1]) in
  match (transform sample_dict (mkWorld [sheet] ∅ ∅ ∅ [])).1 with
  | Ok (Some t) =>
      columns (tank_data t) =
        ["date"; "tank_name"; "tank_name"; "standard_net_oil_volume_(bbls)"]
  | _ => False
  end.
Proof. vm_compute. reflexivity. Qed.

(** X14. The three columns the liquids table gives up are not in it:
    [eglng_propane_sales], [llc_share_of_secondary_condensate] and
    [psc_share_of_secondary_condensate] are no column of the liquids
    table [transform] returns, nor is [date_1], which has become
    [date]. *)
Theorem liquids_columns_removed dd w t w' :
  transform dd w = (Ok (Some t), w') ->
  forall c, c ∈ "date_1" :: lhc_columns_to_delete ->
    c ∉ columns (liquid_hydrocarbons_cached t).
Proof.
  intros H c Hc. destruct (transform_names _ _ _ _ H) as (names & wide & _ & _ & Ht).
  destruct (split_tables_columns wide t Ht) as (C1 & _).
  rewrite C1. intros Hin. apply list_elem_of_fmap in Hin. destruct Hin as (x & Hx & Hin).
  apply list_elem_of_filter in Hin. destruct Hin as [Hdel _].
  destruct (String.eqb x "date_1") eqn:Ex.
  - subst c. unfold lhc_columns_to_delete in Hc.
    repeat (apply elem_of_cons in Hc; destruct Hc as [Hc | Hc]; [discriminate Hc |]).
    apply elem_of_nil in Hc. exact Hc.
  - subst x. apply elem_of_cons in Hc. destruct Hc as [-> | Hc].
    + discriminate Ex.
    + exact (Hdel Hc).
Qed.


(** ** The copies of a table *)

Lemma unlocked_prefix_all {V} (lk : gset string) (ws : list (string * V)) :
  Forall (fun p => p ∉ lk) ws.*1 ->
  unlocked_prefix lk ws = ws /\ all_unlocked lk ws = true.
Proof.
  induction ws as [| w ws IH]; intros H; [split; reflexivity |].
  cbn in H. apply Forall_cons in H. destruct H as [Hw H].
  cbn [unlocked_prefix all_unlocked].
  destruct (decide (w.1 ∈ lk)) as [Hin | _]; [destruct (Hw Hin) |].
  destruct (IH H) as [-> ->]. split; reflexivity.
Qed.

(** X15. When no output path and not the database is write-protected
    and [run] returns [True], the intermediate file and the final
    file of each table hold the same frame, the one [transform]
    returned under that place of its tuple; and when the column
    labels of the four tables are plain, the database table of each
    name is the one [to_sql] makes of that frame. *)
Theorem run_copies_agree v :
  (run v).1 = Ok true ->
  (forall p, p ∈ db_path :: output_paths -> p ∉ locked v) ->
  exists sheet t,
    staged (fs v !! excel_path) (locked v) = Some sheet /\
    tables_of sheet = Some t /\
    Forall (fun x : string * string * DataFrame =>
              fs (run v).2 !! path_join DATA_PROCESSED x.1.1 = Some (csv_of x.2) /\
              fs (run v).2 !! path_join DATA_FINAL x.1.1 = Some (csv_of x.2) /\
              (Forall (fun y : string * DataFrame => plain y.2 = true) (tables_list t) ->
               db (run v).2 !! x.1.2 = Some (sql_of x.2)))
      [(lhc_csv, "liquid_hydrocarbons_cached", liquid_hydrocarbons_cached t);
       (gp_csv, "gas_production", gas_production t);
       (td_csv, "tank_data", tank_data t);
       (dld_csv, "daily_lifting_data", daily_lifting_data t)].
Proof.
  intros Hrun Hlk.
  destruct (run_outcome_gen (fs v !! excel_path) (locked v) v eq_refl eq_refl)
    as (R & F & D & _).
  rewrite R in Hrun. unfold run_result in Hrun.
  unfold run_files, run_tables, load_tables, reaches_db, extract_files, transform_files in F, D.
  destruct (transformed _ _) as [t |] eqn:Et; [| discriminate Hrun].
  unfold transformed in Et.
  destruct (staged _ _) as [sheet |]; [| discriminate Et].
  destruct (tables_of sheet) as [t' |] eqn:Es; [| discriminate Et].
  destruct (all_unlocked _ (processed_writes t')); [| discriminate Et].
  injection Et as ->.
  assert (Hp : Forall (fun p => p ∉ locked v) (processed_writes t).*1).
  { cbn. repeat (apply Forall_cons; split;
                 [apply Hlk; vm_compute; repeat constructor |]). apply Forall_nil_2. }
  assert (Hf : Forall (fun p => p ∉ locked v) (final_writes t).*1).
  { cbn. repeat (apply Forall_cons; split;
                 [apply Hlk; vm_compute; repeat constructor |]). apply Forall_nil_2. }
  destruct (unlocked_prefix_all _ _ Hp) as [Pp _].
  destruct (unlocked_prefix_all _ _ Hf) as [Pf Af].
  rewrite Pp, Pf in F. rewrite Af in D.
  destruct (decide (db_path ∈ locked v)) as [Hin | _];
    [destruct (Hlk db_path (list_elem_of_here _ _) Hin) |].
  cbn [andb] in D.
  exists sheet, t. split; [reflexivity |]. split; [exact Es |].
  repeat (apply Forall_cons; split;
          [cbn [fst snd]; rewrite F, !lookup_written;
           split; [| split];
           [vm_compute; reflexivity | vm_compute; reflexivity |
            let Hpl := fresh "Hpl" in
            intros Hpl; destruct (stored_plain _ Hpl) as [_ Hst];
            rewrite D, Hst, lookup_replaced; vm_compute; reflexivity] |]).
  apply Forall_nil_2.
Qed.

End Reach.


(** ** Dates and numbers *)

Section Conversions.
Context {lib : Library}.


(** A cell under a name is the cell of the column of that name. *)
Lemma cell_column df i name c :
  cell df i name = Some c -> column df name !! i = Some c.
Proof.
  unfold cell, column, at_cell, column_at.
  destruct (positions name (columns df)) as [| p [| p2 ps]]; try discriminate.
  rewrite list_lookup_fmap. destruct (rows df !! i) as [r |]; cbn; [| discriminate].
  intros ->. reflexivity.
Qed.

Lemma mapM_lookup {A B} (f : A -> option B) (l : list A) k i x :
  mapM f l = Some k -> l !! i = Some x -> exists y, k !! i = Some y /\ f x = Some y.
Proof.
  intros H Hi. apply mapM_Some in H.
  destruct (Forall2_lookup_l _ _ _ _ _ H Hi) as (y & Hy & Hf). exists y. split; assumption.
Qed.

Lemma wide_column named wide name :
  clean_wide named = Ok wide ->
  name ∈ columns (data_block named) -> name ≠ "nan" -> name ∈ columns wide.
Proof.
  intros H Hin Hnan. rewrite (wide_columns _ _ H).
  apply list_elem_of_filter. split; assumption.
Qed.


(** X17. A column that is neither a date column nor one of the two
    text columns, was not read as timestamps, and holds only missing
    values, numbers and texts that are decimal literals or plainly no
    number: in the cleaned wide table each of its cells is the number
    the sheet had there, null for a missing value and for a text that
    is no number.  The column is a column of integers when every cell
    is an integer and the column was not read as floats; otherwise it
    is a column of floats, integers included. *)
Theorem numeric_columns_read named wide name :
  clean_wide named = Ok wide ->
  name ∈ columns wide -> contains "date" name = false -> name ∉ text_columns ->
  spelled_numbers (kind_in (typed_block named) name)
                  (column (data_block named) name) = true ->
  forall i c,
    cell (data_block named) i name = Some c ->
    exists r, read_number c = Some r /\
      cell wide i name =
        Some (if stays_integer (kind_in (typed_block named) name)
                               (column (data_block named) name)
              then int_cell r else float_cell r).
Proof.
  intros Hw Hin Hd Htext Hsp i c Hc.
  assert (Ht : inb name text_columns = false).
  { destruct (inb name text_columns) eqn:E; [| reflexivity].
    apply inb_elem_of in E. contradiction. }
  destruct (clean_wide_columns _ _ Hw) as (_ & _ & Hn).
  destruct (Hn name Hin) as [_ Hcol]. rewrite Hd, Ht in Hcol.
  destruct Hcol as (new & Hnew & Hcell).
  unfold spelled_numbers in Hsp. apply andb_prop in Hsp. destruct Hsp as [Hk Hrs].
  apply negb_true_iff, bool_decide_eq_false in Hk.
  apply bool_decide_eq_true in Hrs. destruct Hrs as [rs Ers].
  unfold stays_integer. rewrite Ers.
  destruct (mapM_lookup _ _ _ i c Ers (cell_column _ _ _ _ Hc)) as (r & Hr & Hread).
  exists r. split; [exact Hread |].
  rewrite Hcell, Hc. cbn [mbind option_bind]. f_equal.
  assert (Hres : new = (if forallb is_whole rs &&
                           negb (bool_decide (kind_in (typed_block named) name = KFloat))
                        then int_cell <$> rs else float_cell <$> rs)).
  { unfold to_numeric in Hnew. rewrite Ers in Hnew.
    destruct (kind_in (typed_block named) name); try contradiction;
      destruct (forallb is_whole rs && _); injection Hnew as <-; reflexivity. }
  rewrite Hres.
  destruct (forallb is_whole rs && _); rewrite list_lookup_fmap, Hr; reflexivity.
Qed.

(** C4, at a sheet where the claim fails.  The lifting of the sample
    sheet is dated 1677-09-21 10:00, in the day a [datetime64[ns]]
    begins in.  [to_datetime] reads the date; cutting it down to its
    day overflows, and [transform] logs the error, returns nothing
    and writes no file, where the claim has the date 1677-09-21. *)
Theorem date_floor_overflow :
  at_cell Sample.sheet_early 2 47 =
    Some (CDate (days_from_civil 1677 9 21 * ns_per_day + 10 * 3600 * ns_per_second)) /\
  str_cell (CDate (days_from_civil 1677 9 21 * ns_per_day + 10 * 3600 * ns_per_second)) =
    "1677-09-21 10:00:00" /\
  read_date (CDate (days_from_civil 1677 9 21 * ns_per_day + 10 * 3600 * ns_per_second)) =
    Some (Stamp (days_from_civil 1677 9 21 * ns_per_day + 10 * 3600 * ns_per_second)) /\
  wide_of Sample.sheet_early = Raise OverflowError /\
  (transform Sample.sample_dict (mkWorld [Sample.sheet_early] ∅ ∅ ∅ [])).1 = Ok None /\
  log (transform Sample.sample_dict (mkWorld [Sample.sheet_early] ∅ ∅ ∅ [])).2 =
    [LogInfo "Iniciando la transformación de datos";
     LogError "Error en la transformación de datos" OverflowError] /\
  fs (transform Sample.sample_dict (mkWorld [Sample.sheet_early] ∅ ∅ ∅ [])).2 = ∅.
Proof.
  repeat split; vm_compute; reflexivity.
Qed.

(** C5, at a sheet where the claim fails.  With one day of data the
    columns [butane] and [volume_lifted] hold integers only, and
    [to_numeric] hands them back as integers: the cleaned wide table
    and the tables cut from it hold the integer 7 under [butane], not
    the float 7.0, next to the float 42.5 under [condensate]. *)
Theorem integer_column_stays_integer :
  match wide_of Sample.sheet_one_day with
  | Ok wide =>
      cell wide 0 "butane" = Some (CInt 7) /\
      cell wide 0 "volume_lifted" = Some (CInt 500) /\
      cell wide 0 "condensate" = Some (CFloat (mkDec 425 (-1))) /\
      cell wide 0 "lpg" = Some CNull
  | Raise _ => False
  end /\
  match (transform Sample.sample_dict (mkWorld [Sample.sheet_one_day] ∅ ∅ ∅ [])).1 with
  | Ok (Some t) =>
      cell (liquid_hydrocarbons_cached t) 0 "butane" = Some (CInt 7) /\
      cell (daily_lifting_data t) 0 "volume_lifted" = Some (CInt 500)
  | _ => False
  end.
Proof.
  split; vm_compute; repeat split; reflexivity.
Qed.

End Conversions.


(** * The theorems at the sample sheet *)

(** The examples below run the methods on the sample worlds, with the
    library [Sample.silent]. *)
#[local] Existing Instance Sample.silent.

Lemma derive_column_names_dates_witness :
  exists names,
    derive_column_names Sample.header_row = Ok names /\
    names !! 18%nat = Some "date_2".
Proof.
  destruct (derive_column_names_dates Sample.header_row) as [(names & H & _ & _ & H18 & _) _].
  - vm_compute. lia.
  - exists names. split; assumption.
Defined.

Lemma row_counts_bounded_witness :
  exists t w', transform sample_dict sample_world = (Ok (Some t), w') /\
    (nrows (tank_data t) <= nrows Sample.sheet - 2)%nat.
Proof.
  destruct (transform sample_dict sample_world) as [[[t |] | e] w'] eqn:E;
    try (vm_compute in E; discriminate E).
  exists t, w'. split; [reflexivity |].
  destruct (proj1 row_counts_bounded _ _ _ _ E) as (r & sheet & Hd & Hr & _ & _ & _ & H & _).
  injection Hd as <-. injection Hr as <-. exact H.
Defined.

Lemma rows_dropped_per_slice_witness :
  exists wide t,
    clean_wide Sample.named = Ok wide /\ split_tables wide = Ok t /\
    forall label cells, (label, cells) ∈ rows wide ->
      label ∉ index (gas_production t) <->
      Forall (fun c => c = CNull) (slice 12 24 cells).
Proof.
  destruct (clean_wide Sample.named) as [wide |] eqn:Ew;
    [| vm_compute in Ew; discriminate Ew].
  destruct (split_tables wide) as [t |] eqn:Et.
  - exists wide, t. split; [reflexivity |]. split; [exact Et |].
    intros label cells Hin.
    destruct (proj1 rows_dropped_per_slice _ _ _ Ew Et) as [_ H].
    apply (H label cells Hin).
  - vm_compute in Ew. injection Ew as <-. vm_compute in Et. discriminate Et.
Defined.

Lemma transform_tables_witness :
  exists t w',
    transform sample_dict sample_world = (Ok (Some t), w') /\
    length (columns (daily_lifting_data t)) = 3%nat.
Proof.
  destruct (transform_tables sample_world 0%nat Sample.sheet)
    as (t & w' & wide & H & _ & _ & _ & _ & _ & _ & _ & _ & _ & _ & H3).
  - reflexivity.
  - vm_compute. reflexivity.
  - unfold processed_paths. cbn [fmap list_fmap]. repeat constructor; apply not_elem_of_empty.
  - exists t, w'. split; assumption.
Defined.

Lemma missing_workbook_witness :
  exists w', run Sample.world_empty = (Ok false, w') /\
             fs w' = fs Sample.world_empty /\ db w' = db Sample.world_empty.
Proof.
  destruct (missing_workbook Sample.world_empty) as [_ (w' & records & H & Hfs & Hdb & _)].
  - reflexivity.
  - exists w'. repeat split; assumption.
Defined.

Lemma transform_keeps_rows_witness :
  exists df',
    heap (transform sample_dict sample_world).2 !! 0%nat = Some df' /\
    rows df' = rows Sample.sheet.
Proof.
  destruct (transform_keeps_rows sample_dict sample_world 0%nat Sample.sheet)
    as (df' & H & Hrows & _).
  - reflexivity.
  - exists df'. split; assumption.
Defined.

(** The claim as written fails: after [transform] the frame the
    extractor returned no longer carries the labels it was read with. *)
Lemma transform_relabels_raw_table :
  heap (transform sample_dict sample_world).2 !! 0%nat <> heap sample_world !! 0%nat.
Proof.
  vm_compute. discriminate.
Qed.

Lemma run_idempotent_witness :
  fs (run (run Sample.world0).2).2 !! path_join DATA_FINAL td_csv =
  fs (run Sample.world0).2 !! path_join DATA_FINAL td_csv.
Proof.
  destruct (run_idempotent Sample.world0) as (_ & _ & _ & H & _).
  apply H. unfold final_paths. cbn [fmap list_fmap].
  apply list_elem_of_further, list_elem_of_further, list_elem_of_here.
Defined.

Lemma transform_outcome_witness :
  exists v',
    transform sample_dict sample_world
      = (Ok (transformed (Some Sample.sheet) (locked sample_world)), v') /\
    db v' = db sample_world.
Proof.
  destruct (proj1 (transform_outcome sample_world) 0%nat Sample.sheet eq_refl)
    as (v' & H & _ & Hdb & _).
  exists v'. split; assumption.
Defined.

Lemma load_outcome_witness :
  exists v',
    load Sample.sheet Sample.sheet Sample.sheet Sample.sheet Sample.world_locked
      = (Ok None, v') /\
    db v' = db Sample.world_locked.
Proof.
  destruct (load_outcome (mkTables Sample.sheet Sample.sheet Sample.sheet Sample.sheet)
              Sample.world_locked) as (v' & H & _ & _ & Hdb & _).
  exists v'. split; [exact H |]. apply Hdb. vm_compute. reflexivity.
Defined.

Lemma run_footprint_witness :
  files (run Sample.world0).2 !! "notes.txt" = files Sample.world0 !! "notes.txt".
Proof.
  apply (proj1 (run_footprint Sample.world0)).
  vm_compute. intros H.
  repeat (apply elem_of_cons in H; destruct H as [H | H]; [discriminate H |]).
  apply elem_of_nil in H. exact H.
Defined.


Lemma derived_names_plain_witness :
  exists names, derive_column_names Sample.header_row = Ok names /\
                Forall (fun n => all_chars plain_char n = true) names.
Proof.
  destruct (derive_column_names Sample.header_row) as [names |] eqn:E;
    [| vm_compute in E; discriminate E].
  exists names. split; [reflexivity |]. apply (derived_names_plain _ _ E).
Defined.

(** The sample sheet goes through [transform]. *)
Lemma sample_transform :
  exists t w', transform sample_dict sample_world = (Ok (Some t), w').
Proof.
  destruct (well_formed_tables Sample.sheet)
    as (header & names & named & wide & t & E1 & E2 & E3 & E4 & E5 & _);
    [vm_compute; reflexivity |].
  destruct (transform_runs sample_world 0%nat Sample.sheet header names named wide t
              eq_refl E1 E2 E3 E4 E5) as [w' Hrun].
  - unfold processed_paths. cbn [fmap list_fmap]. repeat constructor; apply not_elem_of_empty.
  - exists t, w'. exact Hrun.
Defined.

Lemma tables_columns_clean_witness :
  exists t w',
    transform sample_dict sample_world = (Ok (Some t), w') /\
    columns (liquid_hydrocarbons_cached t) !! 0%nat = Some "date".
Proof.
  destruct sample_transform as (t & w' & E).
  exists t, w'. split; [exact E |]. apply (tables_columns_clean _ _ _ _ E).
Defined.

Lemma table_labels_increasing_witness :
  exists t w',
    transform sample_dict sample_world = (Ok (Some t), w') /\
    index (gas_production t) `sublist_of` seq 0 (nrows Sample.sheet - 2).
Proof.
  destruct sample_transform as (t & w' & E).
  exists t, w'. split; [exact E |].
  destruct (table_labels_increasing _ _ _ _ E) as (r & sheet & Hd & Hr & _ & H & _).
  injection Hd as <-. injection Hr as <-. exact H.
Defined.

Lemma gas_production_columns_witness :
  exists t w',
    transform sample_dict sample_world = (Ok (Some t), w') /\
    columns (gas_production t) =
      ["date"; "ampco_gas_sales"; "eglng_gas_sales"; "gas_sales"; "offshore_gas"].
Proof.
  destruct sample_transform as (t & w' & E).
  exists t, w'. split; [exact E |]. apply (gas_production_columns _ _ _ _ E).
Defined.

Lemma transform_small_sheet_witness :
  exists v',
    transform (Some (mkDict (Some 0%nat)))
              (mkWorld [mkDF ["Unnamed: 0"] [(0%nat, [CStr "title"])]] ∅ ∅ ∅ []) = (Ok None, v') /\
    heap v' = [mkDF ["Unnamed: 0"] [(0%nat, [CStr "title"])]] /\ fs v' = ∅.
Proof.
  destruct (transform_small_sheet
              (mkWorld [mkDF ["Unnamed: 0"] [(0%nat, [CStr "title"])]] ∅ ∅ ∅ []) 0
              (mkDF ["Unnamed: 0"] [(0%nat, [CStr "title"])]) eq_refl)
    as (v' & H & Hh & Hf & _).
  - left. cbn. lia.
  - exists v'. split; [exact H |]. split; [exact Hh | exact Hf].
Defined.

Lemma tank_data_columns_witness :
  exists t w' k,
    transform sample_dict sample_world = (Ok (Some t), w') /\
    columns (tank_data t) =
      "date" :: (replicate k "tank_name" ++ ["standard_net_oil_volume_(bbls)"])%list.
Proof.
  destruct sample_transform as (t & w' & E).
  destruct (tank_data_columns _ _ _ _ E) as (k & _ & Hk).
  exists t, w', k. split; [exact E | exact Hk].
Defined.

Lemma liquids_columns_removed_witness :
  exists t w',
    transform sample_dict sample_world = (Ok (Some t), w') /\
    "eglng_propane_sales" ∉ columns (liquid_hydrocarbons_cached t).
Proof.
  destruct sample_transform as (t & w' & E).
  exists t, w'. split; [exact E |].
  apply (liquids_columns_removed _ _ _ _ E). apply list_elem_of_further, list_elem_of_here.
Defined.

Lemma run_copies_agree_witness :
  exists sheet t,
    staged (fs Sample.world0 !! excel_path) (locked Sample.world0) = Some sheet /\
    tables_of sheet = Some t /\
    fs (run Sample.world0).2 !! path_join DATA_FINAL lhc_csv =
      Some (csv_of (liquid_hydrocarbons_cached t)).
Proof.
  destruct (run_copies_agree Sample.world0) as (sheet & t & Hs & Ht & H).
  - vm_compute. reflexivity.
  - intros p _. apply not_elem_of_empty.
  - exists sheet, t. split; [exact Hs |]. split; [exact Ht |].
    apply Forall_cons in H. destruct H as [(_ & H & _) _]. exact H.
Defined.


Lemma numeric_columns_read_witness :
  exists wide,
    clean_wide Sample.named = Ok wide /\
    cell wide 0 "condensate" = Some (CFloat (mkDec 425 (-1))).
Proof.
  destruct (clean_wide Sample.named) as [wide |] eqn:Ew;
    [| vm_compute in Ew; discriminate Ew].
  exists wide. split; [reflexivity |].
  destruct (numeric_columns_read Sample.named wide "condensate" Ew) with
    (i := 0%nat) (c := CStr "42.5") as (r & Hread & Hcell).
  - apply (wide_column _ _ _ Ew); [vm_compute; repeat constructor | discriminate].
  - reflexivity.
  - intros Ht. vm_compute in Ht.
    repeat (apply elem_of_cons in Ht; destruct Ht as [Ht | Ht]; [discriminate Ht |]).
    apply elem_of_nil in Ht. exact Ht.
  - vm_compute. reflexivity.
  - vm_compute. reflexivity.
  - vm_compute in Hread. injection Hread as <-. rewrite Hcell. vm_compute. reflexivity.
Defined.
